(** * Genomics benchmarks: the timing recorder, the columnar conversion
      stage, the genotype-array factory, the PCA pipeline and the run loop

    A shallow embedding of [genomics_benchmarks/core.py] and
    [genomics_benchmarks/data_service.py].  Python code that prints, reads
    the clock, touches the file system, raises or terminates the process is
    written in a state-and-outcome monad; objects that the code mutates
    ([BenchmarkProfiler], [Benchmark]) are part of the threaded state. *)

From stdpp Require Import gmap strings list sorting pretty.
From Stdlib Require Import ZArith QArith Lia.

Local Open Scope string_scope.
Local Open Scope list_scope.
Local Open Scope Z_scope.

(** ** Outcomes and the monad *)

(** Python exceptions that the embedded code can meet. *)
Inductive exn : Type :=
| ValueError (msg : string)
| TypeError (msg : string)
| KeyError (msg : string)
| IndexError (msg : string)
| AttributeError (msg : string)
| IOError (msg : string)
| LibraryError (msg : string).

(** A call returns, raises, or ends the process ([exit(1)]). *)
Inductive outcome (A : Type) : Type :=
| Ret (a : A)
| Raise (e : exn)
| Exit (code : Z).
Arguments Ret {A} a.
Arguments Raise {A} e.
Arguments Exit {A} code.

Definition M (S A : Type) : Type := S -> outcome A * S.

Definition ret {S A} (a : A) : M S A := fun s => (Ret a, s).

Definition bind {S A B} (m : M S A) (k : A -> M S B) : M S B :=
  fun s =>
    match m s with
    | (Ret a, s') => k a s'
    | (Raise e, s') => (Raise e, s')
    | (Exit c, s') => (Exit c, s')
    end.

Definition raise {S A} (e : exn) : M S A := fun s => (Raise e, s).
Definition exit {S A} (code : Z) : M S A := fun s => (Exit code, s).
Definition gets {S A} (f : S -> A) : M S A := fun s => (Ret (f s), s).
Definition modify {S} (f : S -> S) : M S unit := fun s => (Ret tt, f s).

(** Run a computation on a component of the state. *)
Definition zoom {S T A} (get : S -> T) (set : T -> S -> S) (m : M T A) : M S A :=
  fun s => let '(o, t) := m (get s) in (o, set t s).

Declare Scope py_scope.
Delimit Scope py_scope with py.
Notation "'let*' x ':=' m 'in' k" := (bind m (fun x => k))
  (at level 10, x pattern, m at level 100, k at level 200) : py_scope.
Notation "m ';;;' k" := (bind m (fun _ => k))
  (at level 100, k at level 200, right associativity) : py_scope.
Local Open Scope py_scope.

(** [for x in xs: body x], stopping at the first raise or exit. *)
Fixpoint for_each {S A} (xs : list A) (body : A -> M S unit) : M S unit :=
  match xs with
  | [] => ret tt
  | x :: xs' => body x ;;; for_each xs' body
  end.

(** ** The world outside the program

    The file system is kept by kind of content: result logs (text files
    written through [open(..., "a")]), source variant-call files, and
    columnar-store directories.  The wall clock and the random generator
    are read through counters into arbitrary streams, so every theorem
    holds for all clock readings and all random draws. *)

(** A line of a result log: the header line or one data row of cells.
    Instants and durations are the clock's readings and their differences;
    a cell that holds Python's [None] is [None] here. *)
Inductive cell : Type :=
| CTimestamp (t : Z)
| CInt (n : option nat)
| CStr (s : option string)
| CFloat (x : option Z).

Inductive psv_line : Type :=
| PsvHeader (columns : list string)
| PsvRow (cells : list cell).

(** One record of a source file: its number of alternate alleles and the
    allele calls of every sample. *)
Record variant : Type := mkVariant {
  numalt : Z;
  calls : list (list Z)
}.

(** Call data as stored: variants x samples x ploidy. *)
Definition calldata : Type := list (list (list Z)).

(** A call-set is a two-level group: group name, then array name. *)
Abbreviation callset := (gmap string (gmap string calldata)).

(** The codec object built by [Blosc(cname=..., clevel=..., shuffle=...)]. *)
Record Blosc : Type := mkBlosc {
  cname : string;
  clevel : Z;
  shuffle : Z
}.

(** Effects on the outside that are not already held in a file: output on
    the terminal and calls into the conversion library. *)
Inductive event : Type :=
| EvPrint (line : string)
| EvReadVcf (path : string) (fields : list string)
| EvVcfToZarr (input output : string) (alt_number : Z)
              (fields : option (list string)) (compressor : Blosc)
              (chunk_length chunk_width : Z).

Record World : Type := mkWorld {
  logs : gmap string (list psv_line);
  vcfs : gmap string (list variant);
  zarrs : gmap string callset;
  clock : nat -> Z;
  clock_reads : nat;
  draws : nat -> nat;
  draw_reads : nat;
  trace : list event;
  (** every line written to a result log so far, with the file's path *)
  written : list (string * psv_line)
}.

Definition set_logs (f : gmap string (list psv_line) -> gmap string (list psv_line))
    (w : World) : World :=
  mkWorld (f (logs w)) (vcfs w) (zarrs w) (clock w) (clock_reads w)
          (draws w) (draw_reads w) (trace w) (written w).

Definition set_zarrs (f : gmap string callset -> gmap string callset) (w : World) : World :=
  mkWorld (logs w) (vcfs w) (f (zarrs w)) (clock w) (clock_reads w)
          (draws w) (draw_reads w) (trace w) (written w).

(** Append [lines] to the text file at [path], which exists. *)
Definition write_lines (path : string) (lines : list psv_line) (w : World) : World :=
  mkWorld (alter (fun old => old ++ lines) path (logs w)) (vcfs w) (zarrs w)
          (clock w) (clock_reads w) (draws w) (draw_reads w) (trace w)
          (written w ++ map (pair path) lines).

Definition emit (e : event) (w : World) : World :=
  mkWorld (logs w) (vcfs w) (zarrs w) (clock w) (clock_reads w)
          (draws w) (draw_reads w) (trace w ++ [e]) (written w).

(** [time.time()]: the next reading of the wall clock. *)
Definition time_time : M World Z :=
  fun w => (Ret (clock w (clock_reads w)),
            mkWorld (logs w) (vcfs w) (zarrs w) (clock w) (S (clock_reads w))
                    (draws w) (draw_reads w) (trace w) (written w)).

(** [print(line)]. *)
Definition print (line : string) : M World unit := modify (emit (EvPrint line)).

(** The lines printed so far, oldest first. *)
Definition printed (w : World) : list string :=
  omap (fun e => match e with EvPrint l => Some l | _ => None end) (trace w).

(** [os.path.isfile(path)]. *)
Definition os_path_isfile (w : World) (path : string) : bool :=
  bool_decide (is_Some (logs w !! path)) || bool_decide (is_Some (vcfs w !! path)).

(** [path] lies inside directory [dir]; paths are compared as written,
    and the empty path names no directory. *)
Definition under (dir path : string) : bool :=
  negb (bool_decide (dir = ""))
  && String.prefix (if String.prefix "/" (String.rev dir) then dir else dir +:+ "/") path.

(** [os.path.isdir(path)]: a columnar store, or a directory that holds one. *)
Definition os_path_isdir (w : World) (path : string) : bool :=
  negb (bool_decide (path = ""))
  && (bool_decide (is_Some (zarrs w !! path))
      || bool_decide (Exists (fun k => under path k = true) (elements (dom (zarrs w))))).

(** [os.path.join(a, b)] of [posixpath]. *)
Definition os_path_join (a b : string) : string :=
  if String.prefix "/" b then b
  else if bool_decide (a = "") || String.prefix "/" (String.rev a) then a +:+ b
  else a +:+ "/" +:+ b.

(** [s[0:len(s) - k]], with Python's reading of a negative end. *)
Definition py_drop_last (k : nat) (s : string) : string :=
  let len := Z.of_nat (String.length s) in
  let e := (len - Z.of_nat k)%Z in
  let e' := if (e <? 0)%Z then Z.max 0 (len + e) else e in
  String.substring 0 (Z.to_nat e') s.

(** ** The timing recorder *)

Record BenchmarkResultsData : Type := mkResults {
  run_number : option nat;
  operation_name : option string;
  start_time : option Z;
  exec_time : option Z
}.

(** [to_dict]: [datetime.fromtimestamp(None)] raises. *)
Definition to_dict (self : BenchmarkResultsData) : outcome (list (string * cell)) :=
  match start_time self with
  | None => Raise (TypeError "an integer is required (got type NoneType)")
  | Some t =>
      Ret [("Log Timestamp", CTimestamp t);
           ("Run Number", CInt (run_number self));
           ("Operation", CStr (operation_name self));
           ("Execution Time", CFloat (exec_time self))]
  end.

(** [to_pandas]: the one-row frame of [to_dict], columns in its order. *)
Definition to_pandas (self : BenchmarkResultsData) : outcome (list (string * cell)) :=
  to_dict self.

(** [DataFrame.to_csv(file, sep="|", header=..., index=False)] for a
    one-row frame: the lines written. *)
Definition to_csv (frame : list (string * cell)) (header : bool) : list psv_line :=
  (if header then [PsvHeader (frame.*1)] else []) ++ [PsvRow (frame.*2)].

Record BenchmarkProfiler : Type := mkProfiler {
  benchmark_running : bool;
  results : BenchmarkResultsData;
  benchmark_label : string
}.

(** [BenchmarkProfiler(benchmark_label)]. *)
Definition BenchmarkProfiler_init (label : string) : BenchmarkProfiler :=
  mkProfiler false (mkResults None None None None) label.

Definition set_results (f : BenchmarkResultsData -> BenchmarkResultsData)
    (self : BenchmarkProfiler) : BenchmarkProfiler :=
  mkProfiler (benchmark_running self) (f (results self)) (benchmark_label self).

Definition set_running (b : bool) (self : BenchmarkProfiler) : BenchmarkProfiler :=
  mkProfiler b (results self) (benchmark_label self).

(** The recorder's methods run on the recorder object and the world. *)
Definition on_self {X A} (m : M X A) : M (X * World) A :=
  zoom fst (fun x s => (x, s.2)) m.
Definition on_world {X A} (m : M World A) : M (X * World) A :=
  zoom snd (fun w s => (s.1, w)) m.

Definition set_run_number (n : nat) : M (BenchmarkProfiler * World) unit :=
  let* running := on_self (gets benchmark_running) in
  if negb running then
    on_self (modify (set_results (fun r =>
      mkResults (Some n) (operation_name r) (start_time r) (exec_time r))))
  else ret tt.

Definition start_benchmark (operation : string) : M (BenchmarkProfiler * World) unit :=
  let* running := on_self (gets benchmark_running) in
  if negb running then
    on_self (modify (set_results (fun r =>
      mkResults (run_number r) (Some operation) (start_time r) (exec_time r)))) ;;;
    on_self (modify (set_running true)) ;;;
    let* now := on_world time_time in
    on_self (modify (set_results (fun r =>
      mkResults (run_number r) (operation_name r) (Some now) (exec_time r))))
  else ret tt.

Definition _record_runtime (benchmark_results : BenchmarkResultsData)
    (output_filename : string) : M World unit :=
  let* psv_header := gets (fun w => negb (os_path_isfile w output_filename)) in
  (* open(output_filename, "a") creates the file when there is none *)
  modify (set_logs (fun fs =>
    match fs !! output_filename with
    | Some _ => fs
    | None => <[output_filename := []]> fs
    end)) ;;;
  let* pd_results := (fun w => (to_pandas benchmark_results, w)) in
  modify (write_lines output_filename (to_csv pd_results psv_header)).

Definition end_benchmark : M (BenchmarkProfiler * World) unit :=
  let* running := on_self (gets benchmark_running) in
  if running then
    let* end_time := on_world time_time in
    let* started := on_self (gets (fun self => start_time (results self))) in
    match started with
    | None => raise (TypeError "unsupported operand type(s) for -: 'float' and 'NoneType'")
    | Some t0 =>
        on_self (modify (set_results (fun r =>
          mkResults (run_number r) (operation_name r) (start_time r)
                    (Some (end_time - t0))))) ;;;
        let* self := gets fst in
        on_world (_record_runtime (results self) (benchmark_label self +:+ ".psv")) ;;;
        on_self (modify (set_running false))
    end
  else ret tt.

Definition get_benchmark_results : M (BenchmarkProfiler * World) BenchmarkResultsData :=
  on_self (gets results).

(** Observations on a result log. *)

(** The row that [to_csv] writes for a result whose start instant is [t]. *)
Definition row_of (r : BenchmarkResultsData) (t : Z) : psv_line :=
  PsvRow [CTimestamp t; CInt (run_number r); CStr (operation_name r); CFloat (exec_time r)].

Definition header_line : psv_line :=
  PsvHeader ["Log Timestamp"; "Run Number"; "Operation"; "Execution Time"].

Definition is_header (l : psv_line) : bool :=
  match l with PsvHeader _ => true | PsvRow _ => false end.

(** The lines of the log at [path]; no file reads as no lines. *)
Definition log_lines (w : World) (path : string) : list psv_line :=
  default [] (logs w !! path).

(** The world in which the log at [path] holds its old lines followed by
    [new], and [new] has been written. *)
Definition appended (path : string) (new : list psv_line) (w : World) : World :=
  mkWorld (<[path := log_lines w path ++ new]> (logs w)) (vcfs w) (zarrs w)
          (clock w) (clock_reads w) (draws w) (draw_reads w) (trace w)
          (written w ++ map (pair path) new).

(** The run-number cell of every data row written so far. *)
Definition emitted_runs (w : World) : list (option nat) :=
  omap (fun pl => match pl.2 with
                  | PsvRow (_ :: CInt n :: _) => Some n
                  | _ => None
                  end) (written w).

(** ** The data service *)

Definition DEFAULT_CHUNK_LENGTH : Z := 65536.
Definition DEFAULT_CHUNK_WIDTH : Z := 64.

(** The conversion configuration, with the attributes that
    [convert_to_zarr] reads. *)
Record VCFtoZarrConfigurationRepresentation : Type := mkVCFtoZarrConfig {
  enabled : bool;
  fields : option (list string);
  alt_number : option Z;
  chunk_length : option Z;
  chunk_width : option Z;
  compressor : string;
  blosc_compression_algorithm : string;
  blosc_compression_level : Z;
  blosc_shuffle_mode : Z
}.

(** The three array classes of the genotype library, each wrapping call
    data; constructing one from [None] raises. *)
Inductive GenotypeArrayHandle : Type :=
| GenotypeArray (d : calldata)
| GenotypeDaskArray (d : calldata)
| GenotypeChunkedArray (d : calldata).

(** What the program needs of the libraries it calls and of the parts of
    the repository that it uses but does not define here. *)
Class Library : Type := mkLibrary {
  (** the type of [config.GENOTYPE_ARRAY_*] and the three constants *)
  kind : Type;
  kind_eq_dec :: EqDecision kind;
  GENOTYPE_ARRAY_NORMAL : kind;
  GENOTYPE_ARRAY_DASK : kind;
  GENOTYPE_ARRAY_CHUNKED : kind;
  (** the arrays that [allel.vcf_to_zarr] stores for the selected fields *)
  vcf_to_zarr_arrays : option (list string) -> Z -> list variant -> callset;
  (** [data_service.get_genotype_data(callset, genotype_array_type)] *)
  get_genotype_data : callset -> kind -> outcome GenotypeArrayHandle;
  (** [gt.count_alleles()], [gt.count_het(axis)], [gt.count_hom(axis)],
      forced where the array is deferred *)
  count_alleles : GenotypeArrayHandle -> outcome (list (list Z));
  count_het : GenotypeArrayHandle -> Z -> outcome (list Z);
  count_hom : GenotypeArrayHandle -> Z -> outcome (list Z);
  (** [allel.locate_unlinked(gn, size, step, threshold, blen)] *)
  locate_unlinked : list (list Z) -> Z -> Z -> Q -> Z -> list bool;
  (** [allel.pca] and [allel.randomized_pca]; their results are dropped *)
  allel_pca : list (list Z) -> Z -> option string -> outcome unit;
  allel_randomized_pca : list (list Z) -> Z -> option string -> outcome unit
}.

(** [remove_directory_tree]: [shutil.rmtree(path, ignore_errors=True)]
    removes what lies inside a directory and the directory; on a plain
    file it fails and the failure is ignored. *)
Definition os_path_exists (w : World) (path : string) : bool :=
  os_path_isfile w path || os_path_isdir w path.

Definition shutil_rmtree (path : string) (w : World) : World :=
  if os_path_isdir w path then
    mkWorld (filter (fun kv => under path kv.1 = false) (logs w))
            (filter (fun kv => under path kv.1 = false) (vcfs w))
            (filter (fun kv => under path kv.1 = false /\ kv.1 <> path) (zarrs w))
            (clock w) (clock_reads w) (draws w) (draw_reads w) (trace w) (written w)
  else w.

Definition remove_directory_tree (path : string) : M World unit :=
  let* present := gets (fun w => os_path_exists w path) in
  if present then modify (shutil_rmtree path) else ret tt.

(** [if benchmark_profiler is not None: benchmark_profiler.m(...)]. *)
Definition when_profiler (m : M (BenchmarkProfiler * World) unit)
    : M (option BenchmarkProfiler * World) unit :=
  fun s =>
    match s.1 with
    | Some p => let '(o, (p', w')) := m (p, s.2) in (o, (Some p', w'))
    | None => (Ret tt, s)
    end.

(** [allel.read_vcf(path, fields=...)]: the arrays of the requested
    fields, or [None] for a file without variants. *)
Definition read_vcf (path : string) (fs : list string)
    : M World (option (gmap string (list Z))) :=
  modify (emit (EvReadVcf path fs)) ;;;
  let* file := gets (fun w => vcfs w !! path) in
  match file with
  | None => raise (IOError "No such file or directory")
  | Some [] => ret None
  | Some vs =>
      ret (Some (list_to_map
        (omap (fun f => if bool_decide (f = "numalt")
                        then Some ("variants/numalt", map numalt vs) else None) fs)))
  end.

(** [np.max] of a vector. *)
Definition np_max (xs : list Z) : outcome Z :=
  match xs with
  | [] => Raise (ValueError "zero-size array to reduction operation maximum which has no identity")
  | x :: xs' => Ret (foldr Z.max x xs')
  end.

Definition lift_outcome {S A} (o : outcome A) : M S A := fun s => (o, s).

Section DataService.
Context `{Library}.

(** [allel.vcf_to_zarr(input, output, ..., overwrite=True, ...)]. *)
Definition vcf_to_zarr (input output : string) (alt : Z) (fs : option (list string))
    (codec : Blosc) (clen cwid : Z) : M World unit :=
  modify (emit (EvVcfToZarr input output alt fs codec clen cwid)) ;;;
  let* file := gets (fun w => vcfs w !! input) in
  match file with
  | None => raise (IOError "No such file or directory")
  | Some vs => modify (set_zarrs (<[output := vcf_to_zarr_arrays fs alt vs]>))
  end.

(** [convert_to_zarr], the branch taken when [alt_number] is [None]:
    "Scan VCF file to find max number of alleles in any variant". *)
Definition scan_alt_number (input_vcf_path : string)
    : M (option BenchmarkProfiler * World) Z :=
  on_world (print "[VCF-Zarr] Determining maximum number of ALT alleles by scaling all variants in the VCF file.") ;;;
  when_profiler (start_benchmark "Read VCF file into memory for alt number") ;;;
  let* callset := on_world (read_vcf input_vcf_path ["numalt"]) in
  when_profiler end_benchmark ;;;
  let* numalt :=
    match callset with
    | None => raise (TypeError "'NoneType' object is not subscriptable")
    | Some arrays =>
        match arrays !! "variants/numalt" with
        | None => raise (KeyError "variants/numalt")
        | Some a => ret a
        end
    end in
  when_profiler (start_benchmark "Determine maximum alt number") ;;;
  let* alt_number := lift_outcome (np_max numalt) in
  when_profiler end_benchmark ;;;
  ret alt_number.

(** [convert_to_zarr] from "Alt number:" on: chunk geometry, codec, and
    the conversion itself. *)
Definition convert_with_alt_number (input_vcf_path output_zarr_path : string)
    (conversion_config : VCFtoZarrConfigurationRepresentation) (alt_number : Z)
    : M (option BenchmarkProfiler * World) unit :=
  let fs := fields conversion_config in
  on_world (print ("[VCF-Zarr] Alt number: " +:+ pretty alt_number)) ;;;
  let chunk_length :=
    match chunk_length conversion_config with
    | Some c => c
    | None => DEFAULT_CHUNK_LENGTH
    end in
  on_world (print ("[VCF-Zarr] Chunk length: " +:+ pretty chunk_length)) ;;;
  let chunk_width :=
    match chunk_width conversion_config with
    | Some c => c
    | None => DEFAULT_CHUNK_WIDTH
    end in
  on_world (print ("[VCF-Zarr] Chunk width: " +:+ pretty chunk_width)) ;;;
  let* compressor :=
    if bool_decide (compressor conversion_config = "Blosc") then
      ret (mkBlosc (blosc_compression_algorithm conversion_config)
                   (blosc_compression_level conversion_config)
                   (blosc_shuffle_mode conversion_config))
    else raise (ValueError "Unexpected compressor type specified.") in
  when_profiler (start_benchmark "Convert VCF to Zarr") ;;;
  on_world (vcf_to_zarr input_vcf_path output_zarr_path alt_number fs compressor
                        chunk_length chunk_width) ;;;
  when_profiler end_benchmark.

Definition convert_to_zarr (input_vcf_path output_zarr_path : string)
    (conversion_config : option VCFtoZarrConfigurationRepresentation)
    : M (option BenchmarkProfiler * World) unit :=
  match conversion_config with
  | None => ret tt
  | Some conversion_config =>
      let* alt_number :=
        match alt_number conversion_config with
        | None => scan_alt_number input_vcf_path
        | Some configured =>
            on_world (print "[VCF-Zarr] Using alt number provided in configuration.") ;;;
            ret configured
        end in
      convert_with_alt_number input_vcf_path output_zarr_path conversion_config alt_number
  end.

(** The calls into the conversion library among some events. *)
Definition is_call (e : event) : bool :=
  match e with EvPrint _ => false | _ => true end.

Definition lib_calls (evs : list event) : list event :=
  filter (fun e => is_call e = true) evs.

(** A recorder argument that is absent or not running, and one that is
    absent or running with its start instant set. *)
Definition quiet (bp : option BenchmarkProfiler) : Prop :=
  match bp with
  | None => True
  | Some p => benchmark_running p = false
  end.

Definition armed (bp : option BenchmarkProfiler) : Prop :=
  match bp with
  | None => True
  | Some p => benchmark_running p = true /\ is_Some (start_time (results p))
  end.

(** The codec and chunk geometry that a configuration asks for. *)
Definition codec_of (c : VCFtoZarrConfigurationRepresentation) : Blosc :=
  mkBlosc (blosc_compression_algorithm c) (blosc_compression_level c) (blosc_shuffle_mode c).

Definition chunk_length_of (c : VCFtoZarrConfigurationRepresentation) : Z :=
  default DEFAULT_CHUNK_LENGTH (chunk_length c).

Definition chunk_width_of (c : VCFtoZarrConfigurationRepresentation) : Z :=
  default DEFAULT_CHUNK_WIDTH (chunk_width c).

(** The error that [convert_to_zarr] raises for a compressor it does not
    support. *)
Definition compressor_error : exn := ValueError "Unexpected compressor type specified.".

Definition wrap (c : calldata -> GenotypeArrayHandle) (gtz : option calldata)
    : outcome (option GenotypeArrayHandle) :=
  match gtz with
  | Some d => Ret (Some (c d))
  | None => Raise (TypeError "array with 3 dimensions expected")
  end.

Definition get_callset_genotype_data (cs : callset) : option calldata :=
  match cs !! "calldata" with
  | Some group =>
      match group !! "GT" with
      | Some gtz => Some gtz
      | None => group !! "genotype"
      end
  | None => None
  end.

Definition get_genotype_array (cs : callset) (genotype_array_type : kind)
    : outcome (option GenotypeArrayHandle) :=
  let gtz := get_callset_genotype_data cs in
  if decide (genotype_array_type = GENOTYPE_ARRAY_NORMAL) then wrap GenotypeArray gtz
  else if decide (genotype_array_type = GENOTYPE_ARRAY_DASK) then wrap GenotypeDaskArray gtz
  else if decide (genotype_array_type = GENOTYPE_ARRAY_CHUNKED) then wrap GenotypeChunkedArray gtz
  else Ret None.

(** [np.concatenate(arrays, axis=0)] (and [da.concatenate]) on the list
    that the concatenating factory builds. *)
Fixpoint concatenate_some (arrays : list (option calldata)) : outcome calldata :=
  match arrays with
  | [] => Ret []
  | None :: _ => Raise (ValueError "zero-dimensional arrays cannot be concatenated")
  | Some a :: rest =>
      match concatenate_some rest with
      | Ret b => Ret (a ++ b)
      | Raise e => Raise e
      | Exit c => Exit c
      end
  end.

Definition concatenate (arrays : list (option calldata)) : outcome calldata :=
  match arrays with
  | [] => Raise (ValueError "need at least one array to concatenate")
  | _ => concatenate_some arrays
  end.

Definition wrap_concat (c : calldata -> GenotypeArrayHandle) (arrays : list (option calldata))
    : outcome (option GenotypeArrayHandle) :=
  match concatenate arrays with
  | Ret d => Ret (Some (c d))
  | Raise e => Raise e
  | Exit code => Exit code
  end.

Definition get_genotype_array_concat (callsets : list callset) (genotype_array_type : kind)
    : outcome (option GenotypeArrayHandle) :=
  match callsets with
  | [cs] => get_genotype_array cs genotype_array_type
  | _ =>
      let gtz_list := map get_callset_genotype_data callsets in
      if decide (genotype_array_type = GENOTYPE_ARRAY_DASK) then
        wrap_concat GenotypeDaskArray gtz_list
      else if decide (genotype_array_type = GENOTYPE_ARRAY_CHUNKED) then
        wrap_concat GenotypeChunkedArray gtz_list
      else if decide (genotype_array_type = GENOTYPE_ARRAY_NORMAL) then
        wrap_concat GenotypeArray gtz_list
      else Raise (ValueError "Error: Invalid option specified for genotype_array_type.")
  end.

End DataService.

(** ** Arrays *)

(** [np.count_nonzero] of a boolean vector. *)
Definition count_nonzero (mask : list bool) : nat := length (filter (fun b => b = true) mask).

(** [a.compress(mask, axis=0)]: the rows whose mask entry is true.  The
    masks of this program are computed from the array they compress, so
    they have its length; a shorter mask reads as false beyond its end. *)
Fixpoint compress {A} (mask : list bool) (rows : list A) : list A :=
  match mask, rows with
  | b :: mask', r :: rows' => if b then r :: compress mask' rows' else compress mask' rows'
  | _, _ => []
  end.

Definition handle_data (gt : GenotypeArrayHandle) : calldata :=
  match gt with
  | GenotypeArray d | GenotypeDaskArray d | GenotypeChunkedArray d => d
  end.

(** [gt.compress(mask, axis=0)] keeps the class of the array. *)
Definition gt_compress (mask : list bool) (gt : GenotypeArrayHandle) : GenotypeArrayHandle :=
  match gt with
  | GenotypeArray d => GenotypeArray (compress mask d)
  | GenotypeDaskArray d => GenotypeDaskArray (compress mask d)
  | GenotypeChunkedArray d => GenotypeChunkedArray (compress mask d)
  end.

(** [gt.to_n_alt()]: per call, the number of alleles above the reference. *)
Definition to_n_alt (gt : GenotypeArrayHandle) : list (list Z) :=
  map (map (fun call => Z.of_nat (length (filter (fun a => 0 < a) call)))) (handle_data gt).

(** [ac.max_allele()]: the highest allele index with a positive count,
    [-1] when there is none. *)
Fixpoint max_allele_from (i out : Z) (row : list Z) : Z :=
  match row with
  | [] => out
  | c :: row' => max_allele_from (i + 1) (if 0 <? c then i else out) row'
  end.

Definition max_allele (ac : list (list Z)) : list Z := map (max_allele_from 0 (-1)) ac.

(** [ac[:, j]]. *)
Fixpoint column (j : nat) (m : list (list Z)) : outcome (list Z) :=
  match m with
  | [] => Ret []
  | row :: m' =>
      match row !! j, column j m' with
      | Some c, Ret cs => Ret (c :: cs)
      | None, _ => Raise (IndexError "index is out of bounds for axis 1")
      | _, Raise e => Raise e
      | _, Exit code => Exit code
      end
  end.

(** [ac.is_singleton(allele)]. *)
Definition is_singleton (allele : nat) (ac : list (list Z)) : outcome (list bool) :=
  match column allele ac with
  | Ret cs => Ret (map (Z.eqb 1) cs)
  | Raise e => Raise e
  | Exit code => Exit code
  end.

(** [m.min(axis=1)]. *)
Fixpoint min_axis1 (m : list (list Z)) : outcome (list Z) :=
  match m with
  | [] => Ret []
  | [] :: _ => Raise (ValueError "zero-size array to reduction operation minimum which has no identity")
  | (c :: row) :: m' =>
      match min_axis1 m' with
      | Ret ms => Ret (foldr Z.min c row :: ms)
      | Raise e => Raise e
      | Exit code => Exit code
      end
  end.

(** [(ac.max_allele() == 1) & (ac[:, :2].min(axis=1) > 1)]. *)
Definition pca_filter_mask (ac : list (list Z)) : outcome (list bool) :=
  match min_axis1 (map (take 2) ac) with
  | Ret mins => Ret (zip_with andb (map (Z.eqb 1) (max_allele ac)) (map (fun m => 1 <? m) mins))
  | Raise e => Raise e
  | Exit code => Exit code
  end.

(** [gn.take(vidx, axis=0)]. *)
Fixpoint take_rows {A} (vidx : list nat) (gn : list A) : outcome (list A) :=
  match vidx with
  | [] => Ret []
  | i :: vidx' =>
      match gn !! i, take_rows vidx' gn with
      | Some r, Ret rs => Ret (r :: rs)
      | None, _ => Raise (IndexError "index out of bounds for axis 0")
      | _, Raise e => Raise e
      | _, Exit code => Exit code
      end
  end.

(** ** The random generator

    [np.random.choice(a, n, replace=False)] is the first [n] entries of a
    random permutation of [range(a)], which the generator makes by
    shuffling [arange(a)] in place: for [i] from [a - 1] down to [1], swap
    the entries at [i] and at a drawn [j] in [0 .. i]. *)

Definition random_interval (max : nat) : M World nat :=
  fun w => (Ret (draws w (draw_reads w) `mod` S max)%nat,
            mkWorld (logs w) (vcfs w) (zarrs w) (clock w) (clock_reads w)
                    (draws w) (S (draw_reads w)) (trace w) (written w)).

Definition swap (x : list nat) (i j : nat) : list nat :=
  match x !! i, x !! j with
  | Some a, Some b => <[i := b]> (<[j := a]> x)
  | _, _ => x
  end.

Fixpoint shuffle_from (i : nat) (x : list nat) : M World (list nat) :=
  match i with
  | O => ret x
  | S i' => let* j := random_interval i in shuffle_from i' (swap x i j)
  end.

Definition random_permutation (n : nat) : M World (list nat) :=
  shuffle_from (n - 1) (seq 0 n).

Definition random_choice (a size : nat) : M World (list nat) :=
  if (a <? size)%nat then
    raise (ValueError "Cannot take a larger sample than population when 'replace=False'")
  else
    let* perm := random_permutation a in ret (take size perm).

(** [vidx.sort()]. *)
Definition sort (vidx : list nat) : list nat := merge_sort le vidx.

(** ** The benchmark *)

Record DataDirectoriesConfigurationRepresentation : Type := mkDataDirs {
  vcf_dir : string;
  zarr_dir_setup : string;
  zarr_dir_benchmark : string
}.

Section Benchmark.
Context `{Library}.

(** The benchmark configuration, with the attributes that [Benchmark]
    reads.  Counts are natural numbers, as in the data model. *)
Record BenchmarkConfigurationRepresentation : Type := mkBenchConf {
  benchmark_number_runs : nat;
  benchmark_data_input : string;
  benchmark_dataset : string;
  benchmark_aggregations : bool;
  benchmark_pca : bool;
  genotype_array_type : kind;
  vcf_to_zarr_config : option VCFtoZarrConfigurationRepresentation;
  pca_subset_size : nat;
  pca_ld_enabled : bool;
  pca_ld_pruning_size : Z;
  pca_ld_pruning_step : Z;
  pca_ld_pruning_threshold : Q;
  pca_ld_pruning_number_iterations : nat;
  pca_number_components : Z;
  pca_data_scaler : option string
}.

Record Benchmark : Type := mkBenchmark {
  benchmark_zarr_dir : string;
  benchmark_zarr_file : string;
  bench_conf : option BenchmarkConfigurationRepresentation;
  data_dirs : option DataDirectoriesConfigurationRepresentation;
  self_benchmark_label : string;
  benchmark_profiler : BenchmarkProfiler
}.

(** [Benchmark(bench_conf, data_dirs, benchmark_label)]. *)
Definition Benchmark_init (bc : option BenchmarkConfigurationRepresentation)
    (dd : option DataDirectoriesConfigurationRepresentation) (label : string) : Benchmark :=
  mkBenchmark "" "" bc dd label (BenchmarkProfiler_init label).

Definition set_benchmark_zarr_dir (d : string) (self : Benchmark) : Benchmark :=
  mkBenchmark d (benchmark_zarr_file self) (bench_conf self) (data_dirs self)
              (self_benchmark_label self) (benchmark_profiler self).

Definition set_benchmark_zarr_file (f : string) (self : Benchmark) : Benchmark :=
  mkBenchmark (benchmark_zarr_dir self) f (bench_conf self) (data_dirs self)
              (self_benchmark_label self) (benchmark_profiler self).

Definition set_benchmark_profiler (p : BenchmarkProfiler) (self : Benchmark) : Benchmark :=
  mkBenchmark (benchmark_zarr_dir self) (benchmark_zarr_file self) (bench_conf self)
              (data_dirs self) (self_benchmark_label self) p.

(** [self.benchmark_profiler.m(...)]. *)
Definition on_profiler {A} (m : M (BenchmarkProfiler * World) A) : M (Benchmark * World) A :=
  zoom (fun s => (benchmark_profiler s.1, s.2))
       (fun t s => (set_benchmark_profiler t.1 s.1, t.2)) m.

(** [self.bench_conf] and [self.data_dirs], whose attributes are read. *)
Definition the_bench_conf : M (Benchmark * World) BenchmarkConfigurationRepresentation :=
  let* self := gets fst in
  match bench_conf self with
  | Some bc => ret bc
  | None => raise (AttributeError "'NoneType' object has no attribute")
  end.

Definition the_data_dirs : M (Benchmark * World) DataDirectoriesConfigurationRepresentation :=
  let* self := gets fst in
  match data_dirs self with
  | Some dd => ret dd
  | None => raise (AttributeError "'NoneType' object has no attribute")
  end.

Definition _benchmark_convert_to_zarr : M (Benchmark * World) unit :=
  let* dd := the_data_dirs in
  on_self (modify (set_benchmark_zarr_dir (zarr_dir_benchmark dd))) ;;;
  let* bc := the_bench_conf in
  let input_vcf_file := benchmark_dataset bc in
  let input_vcf_path := os_path_join (vcf_dir dd) input_vcf_file in
  let* is_file := on_world (gets (fun w => os_path_isfile w input_vcf_path)) in
  if is_file then
    let output_zarr_file := py_drop_last 4 input_vcf_file in
    let output_zarr_path := os_path_join (zarr_dir_benchmark dd) output_zarr_file in
    zoom (fun s => (Some (benchmark_profiler s.1), s.2))
         (fun t s => (match t.1 with
                      | Some p => set_benchmark_profiler p s.1
                      | None => s.1
                      end, t.2))
         (convert_to_zarr input_vcf_path output_zarr_path (vcf_to_zarr_config bc)) ;;;
    on_self (modify (set_benchmark_zarr_file output_zarr_file))
  else
    on_world (print "[Exec] Error: Dataset specified in configuration file does not exist. Exiting...") ;;;
    on_world (print ("  - Dataset file specified in configuration: " +:+ input_vcf_file)) ;;;
    on_world (print ("  - Expected file location: " +:+ input_vcf_path)) ;;;
    exit 1.

(** [zarr.Group(store=zarr.DirectoryStore(path), read_only=True)]. *)
Definition zarr_open_group (zarr_path : string) : M World callset :=
  let* found := gets (fun w => zarrs w !! zarr_path) in
  match found with
  | Some cs => ret cs
  | None => raise (LibraryError "group not found at path")
  end.

Definition _benchmark_load_zarr_dataset (zarr_path : string) : M (Benchmark * World) callset :=
  on_profiler (start_benchmark "Load Zarr Dataset") ;;;
  let* cs := on_world (zarr_open_group zarr_path) in
  on_profiler end_benchmark ;;;
  ret cs.

Definition _benchmark_create_genotype_array (cs : callset)
    : M (Benchmark * World) GenotypeArrayHandle :=
  let* bc := the_bench_conf in
  let genotype_array_type := genotype_array_type bc in
  on_profiler (start_benchmark "Create Genotype Array") ;;;
  let* gt := lift_outcome (get_genotype_data cs genotype_array_type) in
  on_profiler end_benchmark ;;;
  ret gt.

(** One timed aggregation; on a deferred array the result is forced, which
    the library functions of [Library] include. *)
Definition _benchmark_simple_aggregations (gt : GenotypeArrayHandle) : M (Benchmark * World) unit :=
  on_profiler (start_benchmark "Allele Count (All Samples)") ;;;
  let* _ := lift_outcome (count_alleles gt) in
  on_profiler end_benchmark ;;;
  on_profiler (start_benchmark "Genotype Count: Heterozygous per Variant") ;;;
  let* _ := lift_outcome (count_het gt 1) in
  on_profiler end_benchmark ;;;
  on_profiler (start_benchmark "Genotype Count: Homozygous per Variant") ;;;
  let* _ := lift_outcome (count_hom gt 1) in
  on_profiler end_benchmark ;;;
  on_profiler (start_benchmark "Genotype Count: Heterozygous per Sample") ;;;
  let* _ := lift_outcome (count_het gt 0) in
  on_profiler end_benchmark ;;;
  on_profiler (start_benchmark "Genotype Count: Homozygous per Sample") ;;;
  let* _ := lift_outcome (count_hom gt 0) in
  on_profiler end_benchmark.

(** [_benchmark_pca], "Apply filtering to remove singletons and
    multiallelic SNPs". *)
Definition pca_remove_singletons (gt : GenotypeArrayHandle) (ac : list (list Z))
    : M (Benchmark * World) GenotypeArrayHandle :=
  let* flt := lift_outcome (pca_filter_mask ac) in
  let flt_count := count_nonzero flt in
  on_profiler (start_benchmark "PCA: Remove singletons and multiallelic SNPs") ;;;
  let* gf :=
    if (0 <? flt_count)%nat then ret (gt_compress flt gt)
    else
      on_world (print "[Exec][PCA] Cannot remove singletons and multiallelic SNPs as no data would remain. Skipping...") ;;;
      ret gt in
  on_profiler end_benchmark ;;;
  ret gf.

(** [_benchmark_pca], "Randomly choose subset of SNPs": the chosen indices
    and the reduced matrix. *)
Definition pca_subsample (gn : list (list Z)) : M (Benchmark * World) (list nat * list (list Z)) :=
  let* bc := the_bench_conf in
  let n := Nat.min (length gn) (pca_subset_size bc) in
  let* vidx := on_world (random_choice (length gn) n) in
  let vidx := sort vidx in
  let* gnr := lift_outcome (take_rows vidx gn) in
  ret (vidx, gnr).

(** One round of [_pca_ld_prune]'s loop body. *)
Definition ld_prune_round (size step : Z) (threshold : Q) (n_iter : nat) (blen : Z)
    (gn : list (list Z)) (i : nat) : M World (list (list Z)) :=
  let loc_unlinked := locate_unlinked gn size step threshold blen in
  let n := count_nonzero loc_unlinked in
  let n_remove := Z.of_nat (length gn) - Z.of_nat n in
  print ("[Exec][PCA][LD Prune] Iteration " +:+ pretty (i + 1)%nat +:+ "/" +:+ pretty n_iter
         +:+ ": Retaining " +:+ pretty n +:+ " and removing " +:+ pretty n_remove
         +:+ " variants.") ;;;
  ret (compress loc_unlinked gn).

Fixpoint ld_prune_loop (size step : Z) (threshold : Q) (n_iter : nat) (blen : Z)
    (rounds : list nat) (gn : list (list Z)) : M World (list (list Z)) :=
  match rounds with
  | [] => ret gn
  | i :: rounds' =>
      let* gn' := ld_prune_round size step threshold n_iter blen gn i in
      ld_prune_loop size step threshold n_iter blen rounds' gn'
  end.

Definition _pca_ld_prune (gn : list (list Z)) (size step : Z) (threshold : Q) (n_iter : nat)
    : M World (list (list Z)) :=
  let blen := size * 10 in
  ld_prune_loop size step threshold n_iter blen (seq 0 n_iter) gn.

Definition scaler_name (scaler : option string) : string :=
  match scaler with Some s => s | None => "none" end.

Definition _benchmark_pca (gt : GenotypeArrayHandle) : M (Benchmark * World) unit :=
  on_profiler (start_benchmark "PCA: Count alleles") ;;;
  let* ac := lift_outcome (count_alleles gt) in
  on_profiler end_benchmark ;;;
  on_profiler (start_benchmark "PCA: Count multiallelic SNPs") ;;;
  let num_multiallelic_snps := count_nonzero (map (fun a => 1 <? a) (max_allele ac)) in
  on_profiler end_benchmark ;;;
  on_profiler (start_benchmark "PCA: Count biallelic singletons") ;;;
  let* singleton := lift_outcome (is_singleton 1 ac) in
  let num_biallelic_singletons :=
    count_nonzero (zip_with andb (map (Z.eqb 1) (max_allele ac)) singleton) in
  on_profiler end_benchmark ;;;
  let* gf := pca_remove_singletons gt ac in
  on_profiler (start_benchmark "PCA: Transform genotype data for PCA") ;;;
  let gn := to_n_alt gf in
  on_profiler end_benchmark ;;;
  let* sub := pca_subsample gn in
  let gnr := sub.2 in
  let* bc := the_bench_conf in
  let* gnu :=
    if pca_ld_enabled bc then
      if negb (bool_decide (genotype_array_type bc = GENOTYPE_ARRAY_DASK)) then
        let size := pca_ld_pruning_size bc in
        let step := pca_ld_pruning_step bc in
        let threshold := pca_ld_pruning_threshold bc in
        let n_iter := pca_ld_pruning_number_iterations bc in
        on_profiler (start_benchmark "PCA: Apply LD pruning") ;;;
        let* gnu := on_world (_pca_ld_prune gnr size step threshold n_iter) in
        on_profiler end_benchmark ;;;
        ret gnu
      else
        on_world (print "[Exec][PCA] Cannot apply LD pruning because Dask genotype arrays do not support this operation.") ;;;
        ret gnr
    else
      on_world (print "[Exec][PCA] LD pruning disabled. Skipping this operation.") ;;;
      ret gnr in
  on_profiler (start_benchmark "PCA: Move data set to memory") ;;;
  on_profiler end_benchmark ;;;
  let pca_num_components := pca_number_components bc in
  let scaler := pca_data_scaler bc in
  on_profiler (start_benchmark
    ("PCA: Run conventional PCA analysis (scaler: " +:+ scaler_name scaler +:+ ")")) ;;;
  lift_outcome (allel_pca gnu pca_num_components scaler) ;;;
  on_profiler end_benchmark ;;;
  on_profiler (start_benchmark
    ("PCA: Run randomized PCA analysis (scaler: " +:+ scaler_name scaler +:+ ")")) ;;;
  lift_outcome (allel_randomized_pca gnu pca_num_components scaler) ;;;
  on_profiler end_benchmark.

(** The body of [run_benchmark]'s loop, after the working directory has
    been cleared: from "Update run number in benchmark profiler" on. *)
Definition run_after_clear (run : nat) : M (Benchmark * World) unit :=
  on_profiler (set_run_number run) ;;;
  let* bc := the_bench_conf in
  let* dd := the_data_dirs in
  (if bool_decide (benchmark_data_input bc = "vcf") then
     on_self (modify (set_benchmark_zarr_dir (zarr_dir_benchmark dd))) ;;;
     _benchmark_convert_to_zarr
   else if bool_decide (benchmark_data_input bc = "zarr") then
     on_self (modify (set_benchmark_zarr_dir (zarr_dir_setup dd))) ;;;
     on_self (modify (set_benchmark_zarr_file (benchmark_dataset bc)))
   else
     on_world (print "[Exec] Error: Invalid option supplied for benchmark data input format.") ;;;
     on_world (print "  - Expected data input formats: vcf, zarr") ;;;
     on_world (print ("  - Provided data input format: " +:+ benchmark_data_input bc)) ;;;
     exit 1) ;;;
  let* self := gets fst in
  let benchmark_zarr_path := os_path_join (benchmark_zarr_dir self) (benchmark_zarr_file self) in
  let* is_dir := on_world (gets (fun w => os_path_isdir w benchmark_zarr_path)) in
  if negb (bool_decide (benchmark_zarr_path = "")) && is_dir then
    let* cs := _benchmark_load_zarr_dataset benchmark_zarr_path in
    let* gt := _benchmark_create_genotype_array cs in
    (if benchmark_aggregations bc then _benchmark_simple_aggregations gt else ret tt) ;;;
    (if benchmark_pca bc then _benchmark_pca gt else ret tt)
  else
    on_world (print "[Exec] Error: Zarr dataset could not be found for benchmarking.") ;;;
    on_world (print ("  - Zarr dataset location: " +:+ benchmark_zarr_path)) ;;;
    exit 1.

Definition run_body (run : nat) : M (Benchmark * World) unit :=
  let* dd := the_data_dirs in
  on_world (remove_directory_tree (zarr_dir_benchmark dd)) ;;;
  run_after_clear run.

Definition run_benchmark : M (Benchmark * World) unit :=
  let* self := gets fst in
  match bench_conf self, data_dirs self with
  | Some bc, Some _ => for_each (seq 1 (benchmark_number_runs bc)) run_body
  | _, _ => ret tt
  end.

End Benchmark.

(** ** Reasoning about computations *)

(** [wp m P s]: running [m] from [s] ends in an outcome and a state that
    satisfy [P]. *)
Definition wp {S A} (m : M S A) (P : outcome A -> S -> Prop) (s : S) : Prop :=
  P (m s).1 (m s).2.

(** The parts of the world that the recorder never touches. *)
Definition same_outside (w w' : World) : Prop :=
  trace w' = trace w /\ vcfs w' = vcfs w /\ zarrs w' = zarrs w
  /\ draws w' = draws w /\ draw_reads w' = draw_reads w.


(** [mx] is the maximum of the vector [xs]. *)
Definition is_max (mx : Z) (xs : list Z) : Prop :=
  mx ∈ xs /\ Forall (fun x => x <= mx) xs.

(** ** A library instance

    One concrete choice of the constants and library functions, on which
    the embedding can be run. *)

Definition demo_count_alleles (gt : GenotypeArrayHandle) : outcome (list (list Z)) :=
  Ret (map (fun v =>
              map (fun allele => Z.of_nat (length (filter (fun a => a = allele) (concat v))))
                  [0; 1; 2])
           (handle_data gt)).

Definition demo_library : Library :=
  {| kind := Z;
     kind_eq_dec := Z.eq_dec;
     GENOTYPE_ARRAY_NORMAL := 0;
     GENOTYPE_ARRAY_DASK := 1;
     GENOTYPE_ARRAY_CHUNKED := 2;
     vcf_to_zarr_arrays := fun _ _ vs => {["calldata" := {["GT" := map calls vs]}]};
     get_genotype_data := fun cs k =>
       match cs !! "calldata" with
       | Some group =>
           match group !! "GT" with
           | Some d => Ret (if decide (k = 1) then GenotypeDaskArray d
                            else if decide (k = 2) then GenotypeChunkedArray d
                            else GenotypeArray d)
           | None => Raise (KeyError "GT")
           end
       | None => Raise (KeyError "calldata")
       end;
     count_alleles := demo_count_alleles;
     count_het := fun gt _ => Ret [];
     count_hom := fun gt _ => Ret [];
     locate_unlinked := fun gn _ _ _ _ =>
       imap (fun i row => bool_decide (gn !! (i - 1)%nat <> Some row \/ i = 0%nat)) gn;
     allel_pca := fun _ _ _ => Ret tt;
     allel_randomized_pca := fun _ _ _ => Ret tt |}.

(** A world without files, whose clock advances by ten per reading. *)
Definition empty_world : World :=
  mkWorld ∅ ∅ ∅ (fun n => 10 * Z.of_nat n) 0 (fun _ => 0%nat) 0 [] [].

(** A source file of three variants, with one, three and two alternate
    alleles, for two samples. *)
Definition demo_variants : list variant :=
  [mkVariant 1 [[0; 1]; [1; 1]];
   mkVariant 3 [[0; 3]; [2; 1]];
   mkVariant 2 [[0; 0]; [0; 2]]].

Definition demo_world : World :=
  mkWorld ∅ {["data/sample.vcf" := demo_variants]} ∅
          (fun n => 10 * Z.of_nat n) 0 (fun n => (7 * n + 3)%nat) 0 [] [].

Definition demo_conversion (alt : option Z) (codec : string)
    : VCFtoZarrConfigurationRepresentation :=
  mkVCFtoZarrConfig true None alt None None codec "zstd" 1 (-1).

Definition demo_dirs : DataDirectoriesConfigurationRepresentation :=
  mkDataDirs "data" "zarr_setup" "zarr_bench".

Definition demo_bench_conf (runs : nat) (input : string) (subset : nat)
    : @BenchmarkConfigurationRepresentation demo_library :=
  @mkBenchConf demo_library runs input "sample.vcf" true true 0
    (Some (demo_conversion None "Blosc")) subset true 20 10 (1 # 10) 2 2 None.

Definition demo_benchmark (runs : nat) (input : string) (subset : nat)
    : @Benchmark demo_library :=
  @Benchmark_init demo_library (Some (demo_bench_conf runs input subset)) (Some demo_dirs) "bench".


(** The warning printed when the filter would keep no variant. *)
Definition filter_skipped_warning : string :=
  "[Exec][PCA] Cannot remove singletons and multiallelic SNPs as no data would remain. Skipping...".

(** ** The recorder during one run

    [recording running k base n]: the recorder's flag is [running], a
    running recorder has its start instant, its run number is [k], and the
    rows written so far are those of [base] followed by [n] rows of run
    [k]. *)
Definition recording (running : bool) (k : nat) (base : list (option nat)) (n : nat)
    (s : BenchmarkProfiler * World) : Prop :=
  benchmark_running s.1 = running
  /\ (running = true -> is_Some (start_time (results s.1)))
  /\ run_number (results s.1) = Some k
  /\ emitted_runs s.2 = base ++ replicate n (Some k).

(** A postcondition that only speaks of normal returns. *)
Definition on_return {S A} (Q : A -> S -> Prop) : outcome A -> S -> Prop :=
  fun o s => match o with Ret a => Q a s | _ => True end.

(** [m] writes to no result log. *)
Definition silent {A} (m : M World A) : Prop := forall w, written (m w).2 = written w.

Section RunInvariant.
Context `{Library}.

(** [in_run bc dd running k base n]: the benchmark object holds the
    configuration [bc] and the directories [dd], and its recorder is
    [recording running k base n]. *)
Definition in_run (bc : BenchmarkConfigurationRepresentation)
    (dd : DataDirectoriesConfigurationRepresentation)
    (running : bool) (k : nat) (base : list (option nat)) (n : nat)
    (s : Benchmark * World) : Prop :=
  bench_conf s.1 = Some bc /\ data_dirs s.1 = Some dd
  /\ recording running k base n (benchmark_profiler s.1, s.2).



End RunInvariant.

(** ** The rows of a session

    What later theorems say about the result log: which rows a piece of the
    program writes, by run number and operation label. *)

(** The run-number and operation cells of every data row written so far. *)
Definition emitted_rows (w : World) : list (option nat * option string) :=
  omap (fun pl => match pl.2 with
                  | PsvRow (_ :: CInt n :: CStr op :: _) => Some (n, op)
                  | _ => None
                  end) (written w).

(** Rows of run number [k], one per label. *)
Definition labelled (k : option nat) (ops : list string) : list (option nat * option string) :=
  map (fun op => (k, Some op)) ops.

(** [logging running cur k base ops]: the recorder's flag is [running]; a
    running recorder times operation [cur] and has its start instant; its
    run number is [k]; the rows written so far are [base] followed by one
    row of run [k] for each label of [ops]. *)
Definition logging (running : bool) (cur : string) (k : option nat)
    (base : list (option nat * option string)) (ops : list string)
    (s : BenchmarkProfiler * World) : Prop :=
  benchmark_running s.1 = running
  /\ (running = true ->
      operation_name (results s.1) = Some cur /\ is_Some (start_time (results s.1)))
  /\ run_number (results s.1) = k
  /\ emitted_rows s.2 = base ++ labelled k ops.

(** The labels under which [convert_to_zarr] times its stages. *)
Definition conversion_labels (cfg : option VCFtoZarrConfigurationRepresentation)
    : list string :=
  match cfg with
  | None => []
  | Some c =>
      match alt_number c with
      | None => ["Read VCF file into memory for alt number"; "Determine maximum alt number"]
      | Some _ => []
      end ++ ["Convert VCF to Zarr"]
  end.

(** The labels of the aggregation suite, in its order. *)
Definition aggregation_labels : list string :=
  ["Allele Count (All Samples)";
   "Genotype Count: Heterozygous per Variant";
   "Genotype Count: Homozygous per Variant";
   "Genotype Count: Heterozygous per Sample";
   "Genotype Count: Homozygous per Sample"].

Section SessionLabels.
Context `{Library}.

(** The labels of the PCA pipeline for a configuration, in its order. *)
Definition pca_labels (bc : BenchmarkConfigurationRepresentation) : list string :=
  ["PCA: Count alleles";
   "PCA: Count multiallelic SNPs";
   "PCA: Count biallelic singletons";
   "PCA: Remove singletons and multiallelic SNPs";
   "PCA: Transform genotype data for PCA"]
  ++ (if pca_ld_enabled bc && negb (bool_decide (genotype_array_type bc = GENOTYPE_ARRAY_DASK))
      then ["PCA: Apply LD pruning"] else [])
  ++ ["PCA: Move data set to memory";
      "PCA: Run conventional PCA analysis (scaler: " +:+ scaler_name (pca_data_scaler bc) +:+ ")";
      "PCA: Run randomized PCA analysis (scaler: " +:+ scaler_name (pca_data_scaler bc) +:+ ")"].


(** [in_session bc dd running cur k base ops]: the benchmark object holds
    the configuration [bc], its directories are [dd] (possibly none) and
    its recorder is [logging running cur k base ops]. *)
Definition in_session (bc : BenchmarkConfigurationRepresentation)
    (dd : option DataDirectoriesConfigurationRepresentation)
    (running : bool) (cur : string) (k : option nat)
    (base : list (option nat * option string)) (ops : list string)
    (s : Benchmark * World) : Prop :=
  bench_conf s.1 = Some bc /\ data_dirs s.1 = dd
  /\ logging running cur k base ops (benchmark_profiler s.1, s.2).

(** The recorder is idle and the rows of [ops] have been written. *)
Definition logged {A} (bc : BenchmarkConfigurationRepresentation)
    (dd : option DataDirectoriesConfigurationRepresentation) (k : option nat)
    (base : list (option nat * option string)) (ops : list string)
    : A -> Benchmark * World -> Prop :=
  fun _ s' => in_session bc dd false "" k base ops s'.

End SessionLabels.

Section SessionBetweenRuns.
Context `{Library}.



End SessionBetweenRuns.

(** The rows of consecutive begin/end pairs for the labels [ops], when the
    clock has been read [c] times before the first begin: each pair reads
    the clock twice. *)
Fixpoint timed_rows (clock : nat -> Z) (c : nat) (k : option nat) (ops : list string)
    : list psv_line :=
  match ops with
  | [] => []
  | op :: ops' =>
      PsvRow [CTimestamp (clock c); CInt k; CStr (Some op);
              CFloat (Some (clock (S c) - clock c))]
      :: timed_rows clock (S (S c)) k ops'
  end.


(** A "vcf"-mode configuration without a conversion section, and a world
    whose working directory still holds the data set of an earlier
    session. *)
Definition bare_bench_conf : @BenchmarkConfigurationRepresentation demo_library :=
  @mkBenchConf demo_library 1 "vcf" "sample.vcf" true true 0 None 2 true 20 10 (1 # 10) 2 2 None.

Definition stale_world : World :=
  mkWorld ∅ {["data/sample.vcf" := demo_variants]} {["zarr_bench/sample" := ∅]}
          (fun n => 10 * Z.of_nat n) 0 (fun _ => 0%nat) 0 [] [].

(** A library whose allele count fails, and a configuration over it. *)
Definition failing_library : Library :=
  {| kind := Z;
     kind_eq_dec := Z.eq_dec;
     GENOTYPE_ARRAY_NORMAL := 0;
     GENOTYPE_ARRAY_DASK := 1;
     GENOTYPE_ARRAY_CHUNKED := 2;
     vcf_to_zarr_arrays := fun _ _ _ => ∅;
     get_genotype_data := fun _ _ => Raise (KeyError "GT");
     count_alleles := fun _ => Raise (LibraryError "count_alleles");
     count_het := fun _ _ => Ret [];
     count_hom := fun _ _ => Ret [];
     locate_unlinked := fun _ _ _ _ _ => [];
     allel_pca := fun _ _ _ => Ret tt;
     allel_randomized_pca := fun _ _ _ => Ret tt |}.

Definition failing_bench_conf : @BenchmarkConfigurationRepresentation failing_library :=
  @mkBenchConf failing_library 1 "zarr" "sample" true false 0 None 2 false 20 10 (1 # 10)
    1 2 None.

(** ** What a session may touch *)

(** The data are as before: source files, stores, and the calls made into
    the conversion library. *)
Definition data_same (w w' : World) : Prop :=
  vcfs w' = vcfs w /\ zarrs w' = zarrs w /\ lib_calls (trace w') = lib_calls (trace w).

(** From [w] to [w'], outside the directory [dir]: no source file has
    changed, and no store other than the one at [dir] and, when converting,
    the one at [dest]; and without conversion no library call was made. *)
Definition touches_only (dir dest : string) (conv : bool) (w w' : World) : Prop :=
  (forall p, under dir p = false ->
     vcfs w' !! p = vcfs w !! p
     /\ (p <> dir -> (conv = true -> p <> dest) -> zarrs w' !! p = zarrs w !! p))
  /\ (conv = false -> lib_calls (trace w') = lib_calls (trace w)).

Section Guarded.
Context `{Library}.

(** Where the conversion stage of a run puts its store. *)
Definition destination (bc : BenchmarkConfigurationRepresentation)
    (dd : DataDirectoriesConfigurationRepresentation) : string :=
  os_path_join (zarr_dir_benchmark dd) (py_drop_last 4 (benchmark_dataset bc)).

(** [guarded bc dd w0 s]: the benchmark object holds [bc] and [dd], and
    since [w0] the session has touched only what it may. *)
Definition guarded (bc : BenchmarkConfigurationRepresentation)
    (dd : DataDirectoriesConfigurationRepresentation) (w0 : World)
    (s : Benchmark * World) : Prop :=
  bench_conf s.1 = Some bc /\ data_dirs s.1 = Some dd
  /\ touches_only (zarr_dir_benchmark dd) (destination bc dd)
       (bool_decide (benchmark_data_input bc = "vcf")) w0 s.2.

End Guarded.

(** ** The configuration module

    [genomics_benchmarks/config.py]: the constructor that reads the
    [vcf_to_zarr] section of a parsed configuration file.  A parsed file
    is a map from section names to sections, a section a map from option
    names to the strings of the file. *)

Module config.

(** [str.lower()] on the characters that can make up an accepted word. *)
Definition ascii_lower (a : Ascii.ascii) : Ascii.ascii :=
  let n := Ascii.nat_of_ascii a in
  if (65 <=? n)%nat && (n <=? 90)%nat then Ascii.ascii_of_nat (n + 32) else a.

Fixpoint lower (s : string) : string :=
  match s with
  | EmptyString => EmptyString
  | String a s' => String (ascii_lower a) (lower s')
  end.

Definition config_str_to_bool (input_str : string) : bool :=
  bool_decide (lower input_str ∈ ["true"; "1"; "t"; "y"; "yes"]).

Definition ConfigurationRepresentation : Type := gmap string (gmap string string).

Definition vcf_to_zarr_compressor_types : list string := ["Blosc"].
Definition vcf_to_zarr_blosc_algorithm_types : list string :=
  ["zstd"; "blosclz"; "lz4"; "lz4hc"; "zlib"; "snappy"].

(** [Blosc.NOSHUFFLE], [Blosc.SHUFFLE], [Blosc.BITSHUFFLE], [Blosc.AUTOSHUFFLE]. *)
Definition vcf_to_zarr_blosc_shuffle_types : list Z := [0; 1; 2; -1].

(** The attributes that the class of this module declares and sets. *)
Record VCFtoZarrConfigurationRepresentation : Type := mkVCFtoZarr {
  enabled : bool;
  compressor : string;
  blosc_compression_algorithm : string;
  blosc_compression_level : Z;
  blosc_shuffle_mode : Z
}.

Section Constructor.
(** [int(text)]: the integer that the text denotes, or [None] where
    [int] raises [ValueError]. *)
Variable py_int : string -> option Z.

(** The class attributes, which an object shows until it is assigned. *)
Definition class_defaults : VCFtoZarrConfigurationRepresentation :=
  mkVCFtoZarr false "Blosc" "zstd" 1 (-1).

(** The five blocks of the constructor, one per option of the section. *)
Definition read_enabled (section : gmap string string)
    (self : VCFtoZarrConfigurationRepresentation) : VCFtoZarrConfigurationRepresentation :=
  match section !! "enabled" with
  | Some v =>
      mkVCFtoZarr (config_str_to_bool v) (compressor self)
        (blosc_compression_algorithm self) (blosc_compression_level self)
        (blosc_shuffle_mode self)
  | None => self
  end.

Definition read_compressor (section : gmap string string)
    (self : VCFtoZarrConfigurationRepresentation) : VCFtoZarrConfigurationRepresentation :=
  match section !! "compressor" with
  | Some compressor_temp =>
      if bool_decide (compressor_temp ∈ vcf_to_zarr_compressor_types) then
        mkVCFtoZarr (enabled self) compressor_temp
          (blosc_compression_algorithm self) (blosc_compression_level self)
          (blosc_shuffle_mode self)
      else self
  | None => self
  end.

Definition read_blosc_compression_algorithm (section : gmap string string)
    (self : VCFtoZarrConfigurationRepresentation) : VCFtoZarrConfigurationRepresentation :=
  match section !! "blosc_compression_algorithm" with
  | Some blosc_compression_algorithm_temp =>
      if bool_decide (blosc_compression_algorithm_temp
                      ∈ vcf_to_zarr_blosc_algorithm_types) then
        mkVCFtoZarr (enabled self) (compressor self)
          blosc_compression_algorithm_temp (blosc_compression_level self)
          (blosc_shuffle_mode self)
      else self
  | None => self
  end.

Definition read_blosc_compression_level (section : gmap string string)
    (self : VCFtoZarrConfigurationRepresentation) : VCFtoZarrConfigurationRepresentation :=
  match section !! "blosc_compression_level" with
  | Some v =>
      match py_int v with
      | Some compression_level_temp =>
          if (0 <=? compression_level_temp) && (compression_level_temp <=? 9) then
            mkVCFtoZarr (enabled self) (compressor self)
              (blosc_compression_algorithm self) compression_level_temp
              (blosc_shuffle_mode self)
          else self
      | None => self
      end
  | None => self
  end.

Definition read_blosc_shuffle_mode (section : gmap string string)
    (self : VCFtoZarrConfigurationRepresentation) : VCFtoZarrConfigurationRepresentation :=
  match section !! "blosc_shuffle_mode" with
  | Some v =>
      match py_int v with
      | Some blosc_shuffle_mode_temp =>
          if bool_decide (blosc_shuffle_mode_temp ∈ vcf_to_zarr_blosc_shuffle_types) then
            mkVCFtoZarr (enabled self) (compressor self)
              (blosc_compression_algorithm self) (blosc_compression_level self)
              blosc_shuffle_mode_temp
          else self
      | None => self
      end
  | None => self
  end.

Definition VCFtoZarrConfigurationRepresentation_init
    (runtime_config : option ConfigurationRepresentation)
    : VCFtoZarrConfigurationRepresentation :=
  match runtime_config with
  | None => class_defaults
  | Some rc =>
      match rc !! "vcf_to_zarr" with
      | None => class_defaults
      | Some section =>
          read_blosc_shuffle_mode section
            (read_blosc_compression_level section
               (read_blosc_compression_algorithm section
                  (read_compressor section
                     (read_enabled section class_defaults))))
      end
  end.

End Constructor.

(** [text.split(sep)] for a separator given as a string: the pieces
    between the successive occurrences of [sep], found from the left and
    not overlapping; [skip] counts the characters of a found separator that
    are still to be passed over. *)
Fixpoint split_from (sep : string) (skip : nat) (text : string) : list string :=
  match text with
  | EmptyString => [""]
  | String a rest =>
      match skip with
      | S k => split_from sep k rest
      | O =>
          if String.prefix sep text
          then "" :: split_from sep (String.length sep - 1) rest
          else match split_from sep 0 rest with
               | piece :: pieces => String a piece :: pieces
               | [] => [String a ""]
               end
      end
  end.

Definition py_split (sep text : string) : outcome (list string) :=
  if bool_decide (sep = "") then Raise (ValueError "empty separator")
  else Ret (split_from sep 0 text).

(** [sep.join(pieces)]. *)
Fixpoint py_join (sep : string) (pieces : list string) : string :=
  match pieces with
  | [] => ""
  | [piece] => piece
  | piece :: pieces' => piece +:+ sep +:+ py_join sep pieces'
  end.

(** The attributes of the FTP configuration class. *)
Record FTPConfigurationRepresentation : Type := mkFTP {
  ftp_enabled : bool;
  ftp_server : string;
  ftp_username : string;
  ftp_password : string;
  ftp_use_tls : bool;
  ftp_directory : string;
  ftp_files : list string
}.

Definition FTPConfigurationRepresentation_init
    (runtime_config : option ConfigurationRepresentation)
    : outcome FTPConfigurationRepresentation :=
  let class_defaults := mkFTP false "" "" "" false "" [] in
  match runtime_config with
  | None => Ret class_defaults
  | Some rc =>
      match rc !! "ftp" with
      | None => Ret class_defaults
      | Some section =>
          let enabled :=
            match section !! "enabled" with
            | Some v => config_str_to_bool v
            | None => ftp_enabled class_defaults
            end in
          let server := default (ftp_server class_defaults) (section !! "server") in
          let username := default (ftp_username class_defaults) (section !! "username") in
          let password := default (ftp_password class_defaults) (section !! "password") in
          let use_tls :=
            match section !! "use_tls" with
            | Some v => config_str_to_bool v
            | None => ftp_use_tls class_defaults
            end in
          let directory := default (ftp_directory class_defaults) (section !! "directory") in
          let delimiter :=
            match section !! "file_delimiter" with
            | Some d => d
            | None => "|"
            end in
          match section !! "files" with
          | Some files_str =>
              if bool_decide (files_str = "*") then
                Ret (mkFTP enabled server username password use_tls directory [])
              else
                match py_split delimiter files_str with
                | Ret files =>
                    Ret (mkFTP enabled server username password use_tls directory files)
                | Raise e => Raise e
                | Exit code => Exit code
                end
          | None =>
              Ret (mkFTP enabled server username password use_tls directory
                         (ftp_files class_defaults))
          end
      end
  end.

End config.

(** The configuration object as the conversion reads it: the attributes
    that the constructor sets, and the four that the conversion reads
    besides them. *)
Definition as_conversion_config (fs : option (list string)) (alt clen cwid : option Z)
    (c : config.VCFtoZarrConfigurationRepresentation)
    : VCFtoZarrConfigurationRepresentation :=
  mkVCFtoZarrConfig (config.enabled c) fs alt clen cwid (config.compressor c)
    (config.blosc_compression_algorithm c) (config.blosc_compression_level c)
    (config.blosc_shuffle_mode c).

(** ** Path helpers of the data service

    [path_head] and [path_leaf] of [data_service.py], over [os.path.split]
    and [os.path.basename] of [posixpath]. *)

(** The separator "/", character 47. *)
Definition is_sep (a : Ascii.ascii) : bool := bool_decide (a = Ascii.ascii_of_nat 47).

(** [p.rfind("/") + 1], scanning [p] from position [pos] on; [found] is
    the value for the part already scanned. *)
Fixpoint rfind_sep_from (p : string) (pos found : nat) : nat :=
  match p with
  | EmptyString => found
  | String a p' => rfind_sep_from p' (S pos) (if is_sep a then S pos else found)
  end.

Definition rfind_sep_end (p : string) : nat := rfind_sep_from p 0 0.

(** [p[:i]] and [p[i:]] for [0 <= i <= len(p)]. *)
Definition slice_to (i : nat) (p : string) : string := String.substring 0 i p.
Definition slice_from (i : nat) (p : string) : string :=
  String.substring i (String.length p - i) p.

(** [head != sep * len(head)] fails exactly on a string of separators. *)
Fixpoint all_sep (s : string) : bool :=
  match s with
  | EmptyString => true
  | String a s' => is_sep a && all_sep s'
  end.

(** [s.rstrip("/")]. *)
Fixpoint rstrip_sep (s : string) : string :=
  match s with
  | EmptyString => EmptyString
  | String a s' =>
      let r := rstrip_sep s' in
      if bool_decide (r = "") && is_sep a then EmptyString else String a r
  end.

(** [posixpath.split(p)]. *)
Definition os_path_split (p : string) : string * string :=
  let i := rfind_sep_end p in
  let head := slice_to i p in
  let tail := slice_from i p in
  let head := if negb (bool_decide (head = "")) && negb (all_sep head)
              then rstrip_sep head else head in
  (head, tail).

(** [posixpath.basename(p)]. *)
Definition os_path_basename (p : string) : string := slice_from (rfind_sep_end p) p.

Definition path_head (path : string) : string := (os_path_split path).1.

(** [tail or os.path.basename(head)]. *)
Definition path_leaf (path : string) : string :=
  let ht := os_path_split path in
  if negb (bool_decide (ht.2 = "")) then ht.2 else os_path_basename ht.1.

(** No separator occurs in [s]. *)
Fixpoint sep_free (s : string) : bool :=
  match s with
  | EmptyString => true
  | String a s' => negb (is_sep a) && sep_free s'
  end.

(** * Properties *)

(** ** Evaluation of the recorder's methods *)

(** The world after one reading of the clock. *)
Lemma time_time_run (w : World) :
  time_time w =
    (Ret (clock w (clock_reads w)),
     mkWorld (logs w) (vcfs w) (zarrs w) (clock w) (S (clock_reads w))
             (draws w) (draw_reads w) (trace w) (written w)).
Proof. reflexivity. Qed.

Lemma start_benchmark_running (self : BenchmarkProfiler) (w : World) (op : string) :
  benchmark_running self = true ->
  start_benchmark op (self, w) = (Ret tt, (self, w)).
Proof. intros Hr. unfold start_benchmark, bind, on_self, zoom, gets. cbn. rewrite Hr. reflexivity. Qed.

Lemma start_benchmark_idle (self : BenchmarkProfiler) (w : World) (op : string) :
  benchmark_running self = false ->
  start_benchmark op (self, w) =
    (Ret tt,
     (mkProfiler true
        (mkResults (run_number (results self)) (Some op)
                   (Some (clock w (clock_reads w))) (exec_time (results self)))
        (benchmark_label self),
      (time_time w).2)).
Proof. intros Hr. unfold start_benchmark, bind, on_self, zoom, gets. cbn. rewrite Hr. reflexivity. Qed.

Lemma end_benchmark_idle (self : BenchmarkProfiler) (w : World) :
  benchmark_running self = false ->
  end_benchmark (self, w) = (Ret tt, (self, w)).
Proof. intros Hr. unfold end_benchmark, bind, on_self, zoom, gets. cbn. rewrite Hr. reflexivity. Qed.

Lemma set_run_number_idle (self : BenchmarkProfiler) (w : World) (n : nat) :
  benchmark_running self = false ->
  set_run_number n (self, w) =
    (Ret tt,
     (mkProfiler false
        (mkResults (Some n) (operation_name (results self)) (start_time (results self))
                   (exec_time (results self)))
        (benchmark_label self), w)).
Proof.
  intros Hr. unfold set_run_number, bind, on_self, zoom, gets. cbn. rewrite Hr. cbn.
  unfold set_results. cbn. rewrite Hr. reflexivity.
Qed.

Lemma record_runtime_run (r : BenchmarkResultsData) (t : Z) (path : string) (w : World) :
  start_time r = Some t ->
  _record_runtime r path w =
    (Ret tt,
     appended path ((if os_path_isfile w path then [] else [header_line]) ++ [row_of r t]) w).
Proof.
  intros Ht. unfold _record_runtime, bind, gets, modify, to_pandas, to_dict, log_lines.
  rewrite Ht. cbn. unfold appended, write_lines, set_logs, log_lines; cbn. do 2 f_equal.
  - destruct (logs w !! path) as [old|] eqn:E.
    + apply map_eq; intros q. destruct (decide (path = q)) as [<-|Hq].
      * rewrite lookup_alter_eq, lookup_insert_eq, E. cbn.
        destruct (os_path_isfile w path); reflexivity.
      * rewrite lookup_alter_ne, lookup_insert_ne by done. reflexivity.
    + apply map_eq; intros q. destruct (decide (path = q)) as [<-|Hq].
      * rewrite lookup_alter_eq, !lookup_insert_eq. cbn.
        destruct (os_path_isfile w path); reflexivity.
      * rewrite lookup_alter_ne, !lookup_insert_ne by done. reflexivity.
  - destruct (os_path_isfile w path); reflexivity.
Qed.

Lemma end_benchmark_running (self : BenchmarkProfiler) (w : World) (t0 : Z) :
  benchmark_running self = true ->
  start_time (results self) = Some t0 ->
  let r' := mkResults (run_number (results self)) (operation_name (results self))
                      (Some t0) (Some (clock w (clock_reads w) - t0)) in
  end_benchmark (self, w) =
    (Ret tt,
     (mkProfiler false r' (benchmark_label self),
      (_record_runtime r' (benchmark_label self +:+ ".psv") (time_time w).2).2)).
Proof.
  intros Hr Ht r'. unfold end_benchmark, bind, on_self, on_world, zoom, gets.
  cbn -[_record_runtime]. rewrite Hr. cbn -[_record_runtime]. rewrite Ht.
  cbn -[_record_runtime]. unfold set_running, set_results. cbn -[_record_runtime].
  rewrite !Ht. fold r'.
  rewrite (record_runtime_run r' t0) by reflexivity. reflexivity.
Qed.

Lemma log_lines_appended (w : World) (path q : string) (new : list psv_line) :
  log_lines (appended path new w) q
  = if decide (path = q) then log_lines w path ++ new else log_lines w q.
Proof.
  unfold log_lines at 1. unfold appended; cbn. rewrite lookup_insert.
  destruct (decide (path = q)); reflexivity.
Qed.

Lemma isfile_appended (w : World) (path : string) (new : list psv_line) :
  os_path_isfile (appended path new w) path = true.
Proof.
  unfold os_path_isfile, appended; cbn. rewrite lookup_insert_eq.
  rewrite bool_decide_eq_true_2 by eauto. reflexivity.
Qed.

(** ** C10: [end] with nothing in flight *)

(** C10. Calling [end_benchmark] on a recorder that is not running returns
    normally and leaves the recorder (its results and its running flag)
    and the whole world, the result log included, as they were: the clock
    is not read and no line is appended.  From a new recorder, any number
    of such calls leaves every log unchanged. *)
Theorem end_without_begin_is_noop (self : BenchmarkProfiler) (w : World) (n : nat) (label : string) :
  benchmark_running self = false ->
  end_benchmark (self, w) = (Ret tt, (self, w))
  /\ for_each (replicate n tt) (fun _ => end_benchmark) (BenchmarkProfiler_init label, w)
     = (Ret tt, (BenchmarkProfiler_init label, w)).
Proof.
  intros Hr. split; [by apply end_benchmark_idle|].
  induction n as [|n IH]; [reflexivity|].
  cbn [replicate for_each]. unfold bind at 1.
  rewrite end_benchmark_idle by reflexivity. exact IH.
Qed.

Lemma end_without_begin_is_noop_witness :
  let w := empty_world in
  end_benchmark (BenchmarkProfiler_init "bench", w) = (Ret tt, (BenchmarkProfiler_init "bench", w))
  /\ for_each (replicate 3 tt) (fun _ => end_benchmark) (BenchmarkProfiler_init "bench", w)
     = (Ret tt, (BenchmarkProfiler_init "bench", w)).
Proof.
  intros w. apply (end_without_begin_is_noop (BenchmarkProfiler_init "bench") w 3 "bench").
  reflexivity.
Defined.

(** ** C6: [begin] while an operation is in flight *)

(** C6. On a running recorder [start_benchmark] returns normally and
    changes nothing: label, start instant and world stay as they were.
    So on an idle recorder begin, begin, end behaves as begin, end: it
    appends exactly one data row, which carries the first begin's operation
    name and start instant. *)
Theorem second_begin_is_ignored
    (running self : BenchmarkProfiler) (w : World) (op1 op2 : string) :
  benchmark_running running = true ->
  benchmark_running self = false ->
  let path := benchmark_label self +:+ ".psv" in
  let t0 := clock w (clock_reads w) in
  let t1 := clock w (S (clock_reads w)) in
  start_benchmark op2 (running, w) = (Ret tt, (running, w))
  /\ (start_benchmark op1 ;;; start_benchmark op2 ;;; end_benchmark) (self, w)
     = (start_benchmark op1 ;;; end_benchmark) (self, w)
  /\ exists self' w',
       (start_benchmark op1 ;;; start_benchmark op2 ;;; end_benchmark) (self, w)
       = (Ret tt, (self', w'))
       /\ benchmark_running self' = false
       /\ log_lines w' path
          = log_lines w path
            ++ (if os_path_isfile w path then [] else [header_line])
            ++ [PsvRow [CTimestamp t0; CInt (run_number (results self));
                        CStr (Some op1); CFloat (Some (t1 - t0))]]
       /\ (forall q, q <> path -> logs w' !! q = logs w !! q).
Proof.
  intros Hrun Hidle path t0 t1.
  split; [by apply start_benchmark_running|].
  assert (Hstep : forall k : M (BenchmarkProfiler * World) unit,
            (start_benchmark op1 ;;; k) (self, w)
            = k (mkProfiler true
                   (mkResults (run_number (results self)) (Some op1) (Some t0)
                              (exec_time (results self)))
                   (benchmark_label self), (time_time w).2)).
  { intros k. unfold bind. rewrite start_benchmark_idle by done. reflexivity. }
  split.
  - rewrite !Hstep. unfold bind at 1. rewrite start_benchmark_running by reflexivity.
    reflexivity.
  - rewrite Hstep. unfold bind at 1. rewrite start_benchmark_running by reflexivity.
    erewrite end_benchmark_running by reflexivity.
    erewrite record_runtime_run by reflexivity.
    eexists _, _. split; [reflexivity|]. split; [reflexivity|]. split.
    + cbn [snd benchmark_label]. rewrite log_lines_appended.
      rewrite decide_True by reflexivity. reflexivity.
    + intros q Hq. cbn. rewrite lookup_insert_ne by done. reflexivity.
Qed.

Lemma second_begin_is_ignored_witness :
  let w := empty_world in
  let self := BenchmarkProfiler_init "bench" in
  exists self' w',
    (start_benchmark "first" ;;; start_benchmark "second" ;;; end_benchmark) (self, w)
    = (Ret tt, (self', w'))
    /\ log_lines w' "bench.psv"
       = [header_line; PsvRow [CTimestamp 0; CInt None; CStr (Some "first"); CFloat (Some 10)]].
Proof.
  intros w self.
  destruct (second_begin_is_ignored
              (mkProfiler true (mkResults None (Some "first") (Some 0) None) "bench")
              self w "first" "second" eq_refl eq_refl)
    as (_ & _ & self' & w' & Hrun & _ & Hlog & _).
  exists self', w'. split; [exact Hrun | exact Hlog].
Defined.

(** ** C8: the header of the result log *)

Lemma isfile_false_no_lines (w : World) (path : string) :
  os_path_isfile w path = false -> log_lines w path = [].
Proof.
  unfold os_path_isfile, log_lines. intros Hf.
  apply orb_false_iff in Hf as [Hl _]. apply bool_decide_eq_false in Hl.
  destruct (logs w !! path); [exfalso; eauto | reflexivity].
Qed.

Lemma emissions_to_existing (path : string) (rs : list (BenchmarkResultsData * Z)) :
  Forall (fun rt => start_time rt.1 = Some rt.2) rs ->
  forall w, os_path_isfile w path = true ->
  exists w', for_each rs (fun rt => _record_runtime rt.1 path) w = (Ret tt, w')
    /\ log_lines w' path = log_lines w path ++ map (fun rt => row_of rt.1 rt.2) rs.
Proof.
  induction 1 as [|[r t] rs Hr _ IH]; intros w Hw.
  - exists w. split; [reflexivity|]. by rewrite app_nil_r.
  - cbn [for_each]. unfold bind. rewrite (record_runtime_run r t) by exact Hr.
    rewrite Hw. cbn [app].
    destruct (IH (appended path [row_of r t] w) (isfile_appended w path _))
      as (w' & Hrun & Hlog).
    exists w'. split; [exact Hrun|]. rewrite Hlog, log_lines_appended.
    rewrite decide_True by reflexivity. cbn [map fst snd]. by rewrite <- app_assoc.
Qed.

(** C8. One emission returns normally and appends to the log exactly the
    header line followed by one data row when the file did not exist, and
    exactly one data row when it did; afterwards the file exists.  So in a
    file that starts out absent, after any number of emissions the header
    is the first line and every other line is a data row. *)
Theorem header_iff_new_file
    (r : BenchmarkResultsData) (t : Z) (path : string) (w : World)
    (rs : list (BenchmarkResultsData * Z)) :
  start_time r = Some t ->
  Forall (fun rt => start_time rt.1 = Some rt.2) rs ->
  (exists w', _record_runtime r path w = (Ret tt, w')
     /\ log_lines w' path
        = log_lines w path
          ++ (if os_path_isfile w path then [] else [header_line]) ++ [row_of r t]
     /\ os_path_isfile w' path = true)
  /\ (os_path_isfile w path = false ->
      exists w', for_each ((r, t) :: rs) (fun rt => _record_runtime rt.1 path) w = (Ret tt, w')
        /\ log_lines w' path = header_line :: map (fun rt => row_of rt.1 rt.2) ((r, t) :: rs)
        /\ length (filter (fun l => is_header l = true) (log_lines w' path)) = 1%nat).
Proof.
  intros Hr Hrs. split.
  - eexists. split; [by apply record_runtime_run|]. split.
    + rewrite log_lines_appended, decide_True by reflexivity. reflexivity.
    + apply isfile_appended.
  - intros Hnew. cbn [for_each]. unfold bind.
    rewrite (record_runtime_run r t) by exact Hr. rewrite Hnew. cbn [app].
    destruct (emissions_to_existing path rs Hrs (appended path [header_line; row_of r t] w)
                (isfile_appended w path _)) as (w' & Hrun & Hlog).
    exists w'. split; [exact Hrun|].
    rewrite log_lines_appended, decide_True in Hlog by reflexivity.
    rewrite (isfile_false_no_lines _ _ Hnew) in Hlog.
    rewrite Hlog. split; [reflexivity|].
    cbn [app map fst snd]. rewrite filter_cons_True by reflexivity.
    rewrite filter_cons_False by (cbn; discriminate). cbn [length]. f_equal.
    apply length_zero_iff_nil. clear. induction rs as [|[r' t'] rs IH]; [reflexivity|].
    cbn [map]. rewrite filter_cons_False by (cbn; discriminate). exact IH.
Qed.

Lemma header_iff_new_file_witness :
  let w := empty_world in
  let r1 := mkResults (Some 1%nat) (Some "Load Zarr Dataset") (Some 5) (Some 2) in
  let r2 := mkResults (Some 1%nat) (Some "Create Genotype Array") (Some 8) (Some 1) in
  exists w', for_each [(r1, 5); (r2, 8)] (fun rt => _record_runtime rt.1 "bench.psv") w = (Ret tt, w')
    /\ log_lines w' "bench.psv" = [header_line; row_of r1 5; row_of r2 8].
Proof.
  intros w r1 r2.
  assert (Hrs : Forall (fun rt : BenchmarkResultsData * Z => start_time rt.1 = Some rt.2) [(r2, 8)]).
  { repeat constructor. }
  destruct (header_iff_new_file r1 5 "bench.psv" w [(r2, 8)] eq_refl Hrs) as [_ Hlife].
  destruct (Hlife eq_refl) as (w' & Hrun & Hlog & _).
  exists w'. split; [exact Hrun | exact Hlog].
Defined.

(** ** Rules for the monad *)

Lemma wp_bind {S A B} (m : M S A) (k : A -> M S B) (P : outcome B -> S -> Prop) (s : S) :
  wp m (fun o s' =>
          match o with
          | Ret a => wp (k a) P s'
          | Raise e => P (Raise e) s'
          | Exit c => P (Exit c) s'
          end) s ->
  wp (bind m k) P s.
Proof. unfold wp, bind. destruct (m s) as [[a|e|c] s']; cbn; auto. Qed.

Lemma wp_ret {S A} (a : A) (P : outcome A -> S -> Prop) (s : S) :
  P (Ret a) s -> wp (ret a) P s.
Proof. auto. Qed.

Lemma wp_raise {S A} (e : exn) (P : outcome A -> S -> Prop) (s : S) :
  P (Raise e) s -> wp (raise e) P s.
Proof. auto. Qed.

Lemma wp_exit {S A} (c : Z) (P : outcome A -> S -> Prop) (s : S) :
  P (Exit c) s -> wp (exit c) P s.
Proof. auto. Qed.

Lemma wp_lift_outcome {S A} (o : outcome A) (P : outcome A -> S -> Prop) (s : S) :
  P o s -> wp (lift_outcome o) P s.
Proof. auto. Qed.

Lemma wp_mono {S A} (m : M S A) (P Q : outcome A -> S -> Prop) (s : S) :
  wp m P s -> (forall o s', P o s' -> Q o s') -> wp m Q s.
Proof. unfold wp. auto. Qed.

Lemma wp_run {S A} (m : M S A) (P : outcome A -> S -> Prop) (s : S) o s' :
  m s = (o, s') -> wp m P s <-> P o s'.
Proof. unfold wp. intros ->. reflexivity. Qed.

Lemma wp_elim {S A} (m : M S A) (P : outcome A -> S -> Prop) (s : S) o s' :
  m s = (o, s') -> wp m P s -> P o s'.
Proof. unfold wp. intros ->. auto. Qed.

Lemma wp_print {X} (line : string) (P : outcome unit -> X * World -> Prop) (x : X) (w : World) :
  P (Ret tt) (x, emit (EvPrint line) w) -> wp (on_world (print line)) P (x, w).
Proof. auto. Qed.

Lemma same_outside_refl (w : World) : same_outside w w.
Proof. repeat split. Qed.

Lemma same_outside_trans (w1 w2 w3 : World) :
  same_outside w1 w2 -> same_outside w2 w3 -> same_outside w1 w3.
Proof. unfold same_outside. intros (?&?&?&?&?) (?&?&?&?&?). repeat split; congruence. Qed.

(** ** The recorder as an optional argument *)

Lemma wp_when_start (op : string) (P : outcome unit -> option BenchmarkProfiler * World -> Prop)
    (bp : option BenchmarkProfiler) (w : World) :
  (forall bp' w', same_outside w w' -> (quiet bp -> armed bp') -> P (Ret tt) (bp', w')) ->
  wp (when_profiler (start_benchmark op)) P (bp, w).
Proof.
  intros HP. unfold wp, when_profiler. destruct bp as [p|]; cbn [fst snd].
  - destruct (benchmark_running p) eqn:Hr.
    + rewrite start_benchmark_running by done. cbn. apply HP; [apply same_outside_refl|].
      cbn. congruence.
    + rewrite start_benchmark_idle by done. cbn. apply HP; [repeat split|].
      intros _. cbn. eauto.
  - apply HP; [apply same_outside_refl | auto].
Qed.

Lemma wp_when_end (P : outcome unit -> option BenchmarkProfiler * World -> Prop)
    (bp : option BenchmarkProfiler) (w : World) :
  (forall o bp' w', same_outside w w' ->
     (o = Ret tt /\ quiet bp') \/ (exists msg, o = Raise (TypeError msg)) ->
     (armed bp -> o = Ret tt) ->
     P o (bp', w')) ->
  wp (when_profiler end_benchmark) P (bp, w).
Proof.
  intros HP. unfold wp, when_profiler. destruct bp as [p|]; cbn [fst snd].
  - destruct (benchmark_running p) eqn:Hr.
    + destruct (start_time (results p)) as [t0|] eqn:Ht.
      * rewrite (end_benchmark_running p w t0) by done.
        rewrite (record_runtime_run _ t0) by done. cbn.
        apply HP; [repeat split | left; split; reflexivity | auto].
      * unfold end_benchmark, bind, on_self, on_world, zoom, gets.
        cbn -[_record_runtime]. rewrite Hr. cbn -[_record_runtime]. rewrite Ht. cbn.
        apply HP; [repeat split | right; eauto |].
        cbn. intros [_ [? ?]]. congruence.
    + rewrite end_benchmark_idle by done. cbn.
      apply HP; [apply same_outside_refl | left; split; [reflexivity|exact Hr] | auto].
  - apply HP; [apply same_outside_refl | left; split; reflexivity | auto].
Qed.

(** ** The conversion stage *)

Lemma np_max_is_max (xs : list Z) (mx : Z) : np_max xs = Ret mx -> is_max mx xs.
Proof.
  destruct xs as [|x xs]; [discriminate|]. cbn. intros [= <-].
  induction xs as [|y ys [Hin Hle]]; cbn.
  - split; [left | repeat constructor; lia].
  - set (m := foldr Z.max x ys) in *.
    apply Forall_cons in Hle as [Hx Hys]. split.
    + destruct (Z.max_spec y m) as [[_ ->]|[_ ->]].
      * apply elem_of_cons in Hin as [Hin|Hin].
        -- rewrite Hin. left.
        -- right. right. exact Hin.
      * right. left.
    + constructor; [lia|]. constructor; [lia|].
      eapply Forall_impl; [exact Hys|]. cbn. intros; lia.
Qed.

Lemma lib_calls_snoc (evs : list event) (e : event) :
  lib_calls (evs ++ [e]) = lib_calls evs ++ (if is_call e then [e] else []).
Proof. unfold lib_calls. rewrite filter_app. f_equal. destruct e; reflexivity. Qed.

(** Unfold what the recorder leaves alone and chain the resulting
    equations between worlds. *)
Ltac outside :=
  repeat match goal with
         | H : same_outside _ _ |- _ => destruct H as (? & ? & ? & ? & ?)
         end;
  cbn [vcfs zarrs trace draws draw_reads emit set_zarrs set_logs appended fst snd] in *.

Ltac chain_trace :=
  repeat match goal with
         | H : trace ?x = _ |- context [trace ?x] => rewrite H
         end;
  rewrite ?lib_calls_snoc; cbn [is_call]; rewrite ?app_nil_r, <- ?app_assoc.

Lemma wp_read_vcf {X} (path : string) (fs : list string)
    (P : outcome (option (gmap string (list Z))) -> X * World -> Prop) (x : X) (w : World) :
  match vcfs w !! path with
  | None => P (Raise (IOError "No such file or directory")) (x, emit (EvReadVcf path fs) w)
  | Some [] => P (Ret None) (x, emit (EvReadVcf path fs) w)
  | Some (v :: vs) =>
      P (Ret (Some (list_to_map
           (omap (fun f => if bool_decide (f = "numalt")
                           then Some ("variants/numalt", map numalt (v :: vs)) else None) fs))))
        (x, emit (EvReadVcf path fs) w)
  end ->
  wp (on_world (read_vcf path fs)) P (x, w).
Proof.
  unfold wp, on_world, zoom, read_vcf, bind, modify, gets. cbn.
  destruct (vcfs w !! path) as [[|v vs]|]; cbn; auto.
Qed.

Lemma numalt_arrays_lookup (xs : list Z) :
  (list_to_map
     (omap (fun f => if bool_decide (f = "numalt")
                     then Some ("variants/numalt", xs) else None) ["numalt"])
   : gmap string (list Z)) !! "variants/numalt" = Some xs.
Proof.
  cbn. rewrite bool_decide_eq_true_2 by reflexivity. cbn. apply lookup_insert_eq.
Qed.

(** The pre-scan: it calls the reader once, for the field [numalt] alone,
    changes no store, and either returns the maximum of the field or
    raises an error other than the compressor error. *)
Lemma wp_scan_alt_number (input : string) (bp : option BenchmarkProfiler) (w : World) :
  wp (scan_alt_number input)
     (fun o s' =>
        vcfs s'.2 = vcfs w /\ zarrs s'.2 = zarrs w
        /\ lib_calls (trace s'.2) = lib_calls (trace w) ++ [EvReadVcf input ["numalt"]]
        /\ match o with
           | Ret mx =>
               (exists vs, vcfs w !! input = Some vs /\ vs <> [] /\ is_max mx (map numalt vs))
               /\ (quiet bp -> quiet s'.1)
           | Raise e =>
               e <> compressor_error
               /\ (quiet bp -> vcfs w !! input = None \/ vcfs w !! input = Some [])
           | Exit _ => False
           end)
     (bp, w).
Proof.
  unfold scan_alt_number.
  apply wp_bind, wp_print.
  apply wp_bind, wp_when_start. intros bp1 w1 Ho1 Hq1.
  apply wp_bind, wp_read_vcf.
  assert (Hfile1 : vcfs w1 !! input = vcfs w !! input) by (outside; congruence).
  rewrite Hfile1.
  destruct (vcfs w !! input) as [[|v vs]|] eqn:Hfile.
  - (* a file without variants *)
    apply wp_bind, wp_when_end. intros o2 bp2 w2 Ho2 Hr2 Ha2.
    destruct Hr2 as [[-> Hq2]|[msg ->]]; [apply wp_bind, wp_raise|]; outside;
      (split; [congruence|]); (split; [congruence|]);
      (split; [chain_trace; reflexivity|]); (split; [discriminate|auto]).
  - (* a file with variants *)
    apply wp_bind, wp_when_end. intros o2 bp2 w2 Ho2 Hr2 Ha2.
    destruct Hr2 as [[-> Hq2]|[msg ->]].
    + rewrite numalt_arrays_lookup.
      apply wp_bind, wp_ret.
      apply wp_bind, wp_when_start. intros bp3 w3 Ho3 Hq3.
      apply wp_bind, wp_lift_outcome.
      destruct (np_max (map numalt (v :: vs))) as [mx|e|c] eqn:Hmax; try discriminate.
      apply wp_bind, wp_when_end. intros o4 bp4 w4 Ho4 Hr4 Ha4.
      destruct Hr4 as [[-> Hq4]|[msg ->]]; [apply wp_ret|]; outside;
        (split; [congruence|]); (split; [congruence|]);
        (split; [chain_trace; reflexivity|]).
      * split; [|auto]. exists (v :: vs).
        split; [reflexivity|]. split; [discriminate|]. by apply np_max_is_max.
      * split; [discriminate|]. intros Hq. specialize (Ha4 (Hq3 Hq2)). discriminate.
    + outside. (split; [congruence|]); (split; [congruence|]);
        (split; [chain_trace; reflexivity|]). split; [discriminate|].
      intros Hq. specialize (Ha2 (Hq1 Hq)). discriminate.
  - (* no file *)
    outside. (split; [congruence|]); (split; [congruence|]);
      (split; [chain_trace; reflexivity|]). split; [discriminate|auto].
Qed.

Section Conversion.
Context `{Library}.

Lemma wp_vcf_to_zarr {X} (input output : string) (alt : Z) (fs : option (list string))
    (codec : Blosc) (clen cwid : Z) (P : outcome unit -> X * World -> Prop) (x : X) (w : World) :
  (let w1 := emit (EvVcfToZarr input output alt fs codec clen cwid) w in
   match vcfs w !! input with
   | None => P (Raise (IOError "No such file or directory")) (x, w1)
   | Some vs => P (Ret tt) (x, set_zarrs (<[output := vcf_to_zarr_arrays fs alt vs]>) w1)
   end) ->
  wp (on_world (vcf_to_zarr input output alt fs codec clen cwid)) P (x, w).
Proof.
  unfold wp, on_world, zoom, vcf_to_zarr, bind, modify, gets. cbn.
  destruct (vcfs w !! input); cbn; auto.
Qed.

(** The conversion pass for a given alt number. *)
Lemma wp_convert_with_alt_number (input output : string)
    (c : VCFtoZarrConfigurationRepresentation) (mx : Z)
    (bp : option BenchmarkProfiler) (w : World) :
  wp (convert_with_alt_number input output c mx)
     (fun o s' =>
        vcfs s'.2 = vcfs w
        /\ if bool_decide (compressor c = "Blosc") then
             lib_calls (trace s'.2)
             = lib_calls (trace w)
               ++ [EvVcfToZarr input output mx (fields c) (codec_of c)
                               (chunk_length_of c) (chunk_width_of c)]
             /\ o <> Raise compressor_error
             /\ (quiet bp -> is_Some (vcfs w !! input) -> o = Ret tt /\ quiet s'.1)
             /\ (o = Ret tt ->
                 exists vs, vcfs w !! input = Some vs
                   /\ zarrs s'.2 = <[output := vcf_to_zarr_arrays (fields c) mx vs]> (zarrs w))
           else
             lib_calls (trace s'.2) = lib_calls (trace w)
             /\ zarrs s'.2 = zarrs w /\ s'.1 = bp /\ o = Raise compressor_error)
     (bp, w).
Proof.
  unfold convert_with_alt_number.
  apply wp_bind, wp_print. apply wp_bind, wp_print. apply wp_bind, wp_print.
  apply wp_bind. destruct (bool_decide (compressor c = "Blosc")).
  - apply wp_ret.
    apply wp_bind, wp_when_start. intros bp1 w1 Ho1 Hq1.
    apply wp_bind, wp_vcf_to_zarr. cbn zeta.
    assert (Hfile1 : vcfs w1 !! input = vcfs w !! input) by (outside; congruence).
    rewrite Hfile1.
    fold (codec_of c).
    change (match chunk_length c with Some c0 => c0 | None => DEFAULT_CHUNK_LENGTH end)
      with (chunk_length_of c).
    change (match chunk_width c with Some c0 => c0 | None => DEFAULT_CHUNK_WIDTH end)
      with (chunk_width_of c).
    destruct (vcfs w !! input) as [vs|] eqn:Hfile.
    + apply wp_when_end. intros o2 bp2 w2 Ho2 Hr2 Ha2. outside.
      split; [congruence|]. split; [chain_trace; reflexivity|].
      split; [destruct Hr2 as [[-> _]|[msg ->]]; discriminate|].
      split.
      * intros Hq _. destruct Hr2 as [[-> Hq2]|[msg ->]]; [auto|].
        specialize (Ha2 (Hq1 Hq)). discriminate.
      * intros ->. exists vs. split; [reflexivity|]. cbn in *. congruence.
    + outside. split; [congruence|]. split; [chain_trace; reflexivity|].
      split; [discriminate|]. split; [|discriminate].
      intros _ [? ?]. discriminate.
  - apply wp_raise. outside. split; [reflexivity|]. split; [chain_trace; reflexivity|].
    repeat split.
Qed.

End Conversion.

(** ** The two passes of the conversion *)

Section ConversionClaims.
Context `{Library}.

(** C1. In a call of [convert_to_zarr]: with [alt_number] unset the first
    library call is the reader on the source for the field [numalt] alone,
    and a conversion call, if one follows, comes after it and is given the
    maximum of that field as its alt number; with [alt_number] set there is
    no reader call and a conversion call is given the configured value.
    With the Blosc compressor, a recorder that is absent or idle and a
    source that has variants, the conversion call does follow and the call
    returns. *)
Theorem alt_number_from_prescan
    (input output : string) (c : VCFtoZarrConfigurationRepresentation)
    (bp : option BenchmarkProfiler) (w : World)
    (o : outcome unit) (s' : option BenchmarkProfiler * World) :
  convert_to_zarr input output (Some c) (bp, w) = (o, s') ->
  let conv mx := EvVcfToZarr input output mx (fields c) (codec_of c)
                             (chunk_length_of c) (chunk_width_of c) in
  exists new,
    lib_calls (trace s'.2) = lib_calls (trace w) ++ new
    /\ match alt_number c with
       | None =>
           exists tail,
             new = EvReadVcf input ["numalt"] :: tail
             /\ (tail = []
                 \/ exists vs mx, vcfs w !! input = Some vs
                      /\ is_max mx (map numalt vs) /\ tail = [conv mx])
             /\ (quiet bp -> compressor c = "Blosc" ->
                 (exists vs, vcfs w !! input = Some vs /\ vs <> []) ->
                 o = Ret tt /\ tail <> [])
       | Some a =>
           (new = [] \/ new = [conv a])
           /\ (quiet bp -> compressor c = "Blosc" -> is_Some (vcfs w !! input) ->
               o = Ret tt /\ new = [conv a])
       end.
Proof.
  intros Hrun conv. pattern o, s'. eapply wp_elim; [exact Hrun|].
  unfold convert_to_zarr. apply wp_bind.
  destruct (alt_number c) as [a|].
  - apply wp_bind, wp_print, wp_ret.
    eapply wp_mono; [apply wp_convert_with_alt_number|].
    intros o1 s1 (_ & Hpost). outside.
    destruct (bool_decide (compressor c = "Blosc")) eqn:Hc.
    + destruct Hpost as (Hcalls & _ & Hret & _).
      exists [conv a]. split; [rewrite Hcalls; chain_trace; reflexivity|].
      split; [auto|]. intros Hq _ Hfile. split; [apply Hret; auto | reflexivity].
    + destruct Hpost as (Hcalls & _).
      exists []. split; [rewrite Hcalls; chain_trace; rewrite ?app_nil_r; reflexivity|].
      split; [auto|]. intros _ Hb. apply bool_decide_eq_false in Hc. contradiction.
  - eapply wp_mono; [apply wp_scan_alt_number|].
    intros o1 [bp1 w1] (Hv1 & Hz1 & Hcalls1 & Hpost1). cbn [fst snd] in *.
    destruct o1 as [mx|e|code]; [|..].
    + destruct Hpost1 as ((vs & Hfile & Hne & Hmax) & Hq1).
      eapply wp_mono; [apply wp_convert_with_alt_number|].
      intros o2 s2 (_ & Hpost2).
      destruct (bool_decide (compressor c = "Blosc")) eqn:Hc.
      * destruct Hpost2 as (Hcalls2 & _ & Hret & _).
        exists [EvReadVcf input ["numalt"]; conv mx].
        split; [rewrite Hcalls2, Hcalls1, <- app_assoc; reflexivity|].
        exists [conv mx]. split; [reflexivity|]. split; [right; eauto|].
        intros Hq _ _. split; [|discriminate].
        apply Hret; [auto|]. rewrite Hv1, Hfile. eauto.
      * destruct Hpost2 as (Hcalls2 & _).
        exists [EvReadVcf input ["numalt"]]. split; [congruence|].
        exists []. split; [reflexivity|]. split; [auto|].
        intros _ Hb. apply bool_decide_eq_false in Hc. contradiction.
    + destruct Hpost1 as (_ & Hq1).
      exists [EvReadVcf input ["numalt"]]. split; [exact Hcalls1|].
      exists []. split; [reflexivity|]. split; [auto|].
      intros Hq _ (vs & Hfile & Hne). destruct (Hq1 Hq); congruence.
    + destruct Hpost1.
Qed.


End ConversionClaims.

(** The scenario of C1: no configured alt number, a source whose variants
    have at most three alternate alleles.  The pre-scan comes first and the
    conversion is given the alt number 3. *)
Lemma alt_number_from_prescan_witness :
  let run := @convert_to_zarr demo_library "data/sample.vcf" "zarr/sample"
               (Some (demo_conversion None "Blosc")) (None, demo_world) in
  run.1 = Ret tt
  /\ lib_calls (trace run.2.2)
     = [EvReadVcf "data/sample.vcf" ["numalt"];
        EvVcfToZarr "data/sample.vcf" "zarr/sample" 3 None (mkBlosc "zstd" 1 (-1)) 65536 64].
Proof.
  intros run.
  destruct (@alt_number_from_prescan demo_library "data/sample.vcf" "zarr/sample"
              (demo_conversion None "Blosc") None demo_world run.1 run.2
              (surjective_pairing run))
    as (new & Hcalls & tail & -> & Hconv & Hreturns).
  destruct (Hreturns I eq_refl) as [Hret Htail].
  { exists demo_variants. split; [reflexivity | discriminate]. }
  split; [exact Hret|].
  destruct Hconv as [->|(vs & mx & Hfile & [Hin Hle] & ->)]; [contradiction|].
  assert (Hvs : vs = demo_variants).
  { vm_compute in Hfile. injection Hfile as Hfile. rewrite <- Hfile. reflexivity. }
  assert (Hmx : mx = 3).
  { rewrite Hvs in Hin, Hle. unfold demo_variants in Hin, Hle. cbn [map numalt] in Hin, Hle.
    apply Forall_cons in Hle as [_ Hle]. apply Forall_cons in Hle as [H3 _].
    apply elem_of_cons in Hin as [Hin|Hin]; [lia|].
    apply elem_of_cons in Hin as [Hin|Hin]; [exact Hin|].
    apply elem_of_cons in Hin as [Hin|Hin]; [lia|].
    by apply elem_of_nil in Hin. }
  rewrite Hcalls, Hmx. reflexivity.
Defined.

Example alt_number_three :
  lib_calls (trace (@convert_to_zarr demo_library "data/sample.vcf" "zarr/sample"
                      (Some (demo_conversion None "Blosc")) (None, demo_world)).2.2)
  = [EvReadVcf "data/sample.vcf" ["numalt"];
     EvVcfToZarr "data/sample.vcf" "zarr/sample" 3 None (mkBlosc "zstd" 1 (-1)) 65536 64].
Proof. vm_compute. reflexivity. Qed.


(** ** C9: an unrecognized backend kind *)

Section GenotypeArrays.
Context `{Library}.

(** C9, as the code has it.  For a kind that is none of the three
    constants, [get_genotype_array] returns [None];
    [get_genotype_array_concat] returns [None] too when it is given exactly
    one call-set, which it hands to [get_genotype_array], and raises the
    [ValueError] for every other number of call-sets.  Neither function
    yields an array. *)
Theorem unrecognized_kind_no_handle (k : kind) (cs : callset) (callsets : list callset) :
  k <> GENOTYPE_ARRAY_NORMAL -> k <> GENOTYPE_ARRAY_DASK -> k <> GENOTYPE_ARRAY_CHUNKED ->
  get_genotype_array cs k = Ret None
  /\ get_genotype_array_concat [cs] k = Ret None
  /\ (length callsets <> 1%nat ->
      get_genotype_array_concat callsets k
      = Raise (ValueError "Error: Invalid option specified for genotype_array_type."))
  /\ (forall h, get_genotype_array cs k <> Ret (Some h))
  /\ (forall h, get_genotype_array_concat callsets k <> Ret (Some h)).
Proof.
  intros Hn Hd Hc.
  assert (Hone : forall cs', get_genotype_array cs' k = Ret None).
  { intros cs'. unfold get_genotype_array. by rewrite !decide_False. }
  assert (Hmany : forall css, length css <> 1%nat ->
            get_genotype_array_concat css k
            = Raise (ValueError "Error: Invalid option specified for genotype_array_type.")).
  { intros css Hlen. unfold get_genotype_array_concat.
    destruct css as [|c1 [|c2 css]]; [| by destruct Hlen |]; by rewrite !decide_False. }
  split; [apply Hone|]. split; [apply Hone|]. split; [apply Hmany|].
  split; [intros h; rewrite Hone; discriminate|].
  intros h. destruct (decide (length callsets = 1%nat)) as [Hlen|Hlen].
  - destruct callsets as [|c1 [|c2 css]]; try discriminate.
    cbn [get_genotype_array_concat]. rewrite Hone. discriminate.
  - rewrite Hmany by done. discriminate.
Qed.

End GenotypeArrays.

Lemma unrecognized_kind_no_handle_witness :
  @get_genotype_array demo_library ∅ 7 = Ret None
  /\ @get_genotype_array_concat demo_library [∅; ∅] 7
     = Raise (ValueError "Error: Invalid option specified for genotype_array_type.").
Proof.
  destruct (@unrecognized_kind_no_handle demo_library 7 ∅ [∅; ∅])
    as (Hone & _ & Hmany & _); [discriminate..|].
  split; [exact Hone|]. apply Hmany. discriminate.
Defined.

(** C9 as stated fails: for the unrecognized kind [7] and a single
    call-set, [get_genotype_array_concat] returns [None] and raises
    nothing. *)
Lemma concat_of_one_callset_does_not_raise :
  (7 <> @GENOTYPE_ARRAY_NORMAL demo_library
   /\ 7 <> @GENOTYPE_ARRAY_DASK demo_library
   /\ 7 <> @GENOTYPE_ARRAY_CHUNKED demo_library)
  /\ @get_genotype_array_concat demo_library [∅] 7 = Ret None
  /\ ~ (exists msg, @get_genotype_array_concat demo_library [∅] 7 = Raise (ValueError msg)).
Proof.
  split; [repeat split; discriminate|]. split; [reflexivity|].
  intros [msg Hmsg]. discriminate Hmsg.
Qed.

(** ** C5: linkage pruning *)

Lemma compress_length {A} (mask : list bool) (rows : list A) :
  (length (compress mask rows) <= length rows)%nat.
Proof.
  revert rows. induction mask as [|b mask IH]; intros [|r rows]; cbn; try lia.
  specialize (IH rows). destruct b; cbn; lia.
Qed.

Lemma compress_sublist {A} (mask : list bool) (rows : list A) :
  sublist (compress mask rows) rows.
Proof.
  revert rows. induction mask as [|b mask IH]; intros [|r rows]; cbn;
    try apply sublist_nil_l.
  destruct b; [apply sublist_skip | apply sublist_cons]; apply IH.
Qed.

(** With a mask as long as the array, what is kept is what the mask
    counts. *)
Lemma compress_count {A} (mask : list bool) (rows : list A) :
  length mask = length rows -> length (compress mask rows) = count_nonzero mask.
Proof.
  unfold count_nonzero. revert rows.
  induction mask as [|b mask IH]; intros [|r rows]; cbn [compress length]; try done.
  intros [= Hlen]. destruct b.
  - rewrite filter_cons_True by done. cbn [length]. f_equal. by apply IH.
  - rewrite filter_cons_False by done. by apply IH.
Qed.

Section LdPrune.
Context `{Library}.

Lemma ld_prune_round_run (size step : Z) (threshold : Q) (n_iter : nat) (blen : Z)
    (gn : list (list Z)) (i : nat) (w : World) :
  exists w',
    ld_prune_round size step threshold n_iter blen gn i w
    = (Ret (compress (locate_unlinked gn size step threshold blen) gn), w').
Proof. unfold ld_prune_round, bind, print, modify, ret. cbn. eauto. Qed.

Lemma ld_prune_loop_app (size step : Z) (threshold : Q) (n_iter : nat) (blen : Z)
    (xs ys : list nat) (gn : list (list Z)) (w : World) :
  ld_prune_loop size step threshold n_iter blen (xs ++ ys) gn w
  = (let* gn' := ld_prune_loop size step threshold n_iter blen xs gn in
     ld_prune_loop size step threshold n_iter blen ys gn') w.
Proof.
  revert gn w. induction xs as [|x xs IH]; intros gn w; [reflexivity|].
  cbn [app ld_prune_loop]. unfold bind in *.
  destruct (ld_prune_round_run size step threshold n_iter blen gn x w) as [w1 ->].
  apply IH.
Qed.

Lemma ld_prune_loop_returns (size step : Z) (threshold : Q) (n_iter : nat) (blen : Z)
    (rounds : list nat) (gn : list (list Z)) (w : World) :
  exists gn' w',
    ld_prune_loop size step threshold n_iter blen rounds gn w = (Ret gn', w')
    /\ sublist gn' gn.
Proof.
  revert gn w. induction rounds as [|i rounds IH]; intros gn w.
  - exists gn, w. split; reflexivity.
  - cbn [ld_prune_loop]. unfold bind.
    destruct (ld_prune_round_run size step threshold n_iter blen gn i w) as [w1 ->].
    destruct (IH (compress (locate_unlinked gn size step threshold blen) gn) w1)
      as (gn' & w' & -> & Hsub).
    exists gn', w'. split; [reflexivity|].
    etrans; [exact Hsub | apply compress_sublist].
Qed.

(** C5. [_pca_ld_prune] returns for every iteration count, and in a
    pruning of [n_iter] rounds the matrix after round [i + 1] is the matrix
    after round [i] compressed by that round's mask: it has no more rows
    and its rows are a subsequence of the earlier ones.  The final matrix
    has no more rows than the input. *)
Theorem ld_prune_retained_non_increasing
    (gn : list (list Z)) (size step : Z) (threshold : Q) (n_iter i : nat) (w : World) :
  (i < n_iter)%nat ->
  exists gn_i w_i gn_next w_next gn_end w_end,
    ld_prune_loop size step threshold n_iter (size * 10) (seq 0 i) gn w = (Ret gn_i, w_i)
    /\ ld_prune_loop size step threshold n_iter (size * 10) (seq 0 (S i)) gn w
       = (Ret gn_next, w_next)
    /\ gn_next = compress (locate_unlinked gn_i size step threshold (size * 10)) gn_i
    /\ (length gn_next <= length gn_i)%nat
    /\ sublist gn_next gn_i
    /\ _pca_ld_prune gn size step threshold n_iter w = (Ret gn_end, w_end)
    /\ (length gn_end <= length gn)%nat.
Proof.
  intros Hi.
  destruct (ld_prune_loop_returns size step threshold n_iter (size * 10) (seq 0 i) gn w)
    as (gn_i & w_i & Hrun_i & _).
  destruct (ld_prune_round_run size step threshold n_iter (size * 10) gn_i i w_i)
    as [w_next Hround].
  destruct (ld_prune_loop_returns size step threshold n_iter (size * 10) (seq 0 n_iter) gn w)
    as (gn_end & w_end & Hrun_end & Hsub_end).
  exists gn_i, w_i, (compress (locate_unlinked gn_i size step threshold (size * 10)) gn_i),
    w_next, gn_end, w_end.
  split; [exact Hrun_i|]. split.
  - rewrite seq_S, ld_prune_loop_app. unfold bind. rewrite Hrun_i.
    cbn [ld_prune_loop plus]. unfold bind. rewrite Hround. reflexivity.
  - split; [reflexivity|]. split; [apply compress_length|].
    split; [apply compress_sublist|]. split; [exact Hrun_end|].
    by apply sublist_length.
Qed.

End LdPrune.

Lemma ld_prune_retained_non_increasing_witness :
  let gn := [[0; 1]; [0; 1]; [2; 1]; [2; 1]; [0; 0]] in
  exists gn_i w_i gn_next w_next gn_end w_end,
    @ld_prune_loop demo_library 20 10 (1 # 10) 3 (20 * 10) (seq 0 1) gn empty_world
    = (Ret gn_i, w_i)
    /\ @ld_prune_loop demo_library 20 10 (1 # 10) 3 (20 * 10) (seq 0 2) gn empty_world
       = (Ret gn_next, w_next)
    /\ gn_next = compress (@locate_unlinked demo_library gn_i 20 10 (1 # 10) (20 * 10)) gn_i
    /\ (length gn_next <= length gn_i)%nat
    /\ sublist gn_next gn_i
    /\ @_pca_ld_prune demo_library gn 20 10 (1 # 10) 3 empty_world = (Ret gn_end, w_end)
    /\ (length gn_end <= length gn)%nat.
Proof.
  intros gn.
  apply (@ld_prune_retained_non_increasing demo_library gn 20 10 (1 # 10) 3 1 empty_world).
  lia.
Defined.

Example ld_prune_demo_rows :
  (@_pca_ld_prune demo_library [[0; 1]; [0; 1]; [2; 1]; [2; 1]; [0; 0]] 20 10 (1 # 10) 3
     empty_world).1
  = Ret [[0; 1]; [2; 1]; [0; 0]].
Proof. vm_compute. reflexivity. Qed.

(** ** C4: subsampling *)

Lemma swap_Permutation (x : list nat) (i j : nat) : swap x i j ≡ₚ x.
Proof.
  unfold swap. destruct (x !! i) as [a|] eqn:Hi; [|done].
  destruct (x !! j) as [b|] eqn:Hj; [|done].
  by apply Permutation_insert_swap.
Qed.

Lemma shuffle_from_run (i : nat) (x : list nat) (w : World) :
  exists x' w',
    shuffle_from i x w = (Ret x', w')
    /\ x' ≡ₚ x
    /\ trace w' = trace w /\ logs w' = logs w /\ written w' = written w.
Proof.
  revert x w. induction i as [|i IH]; intros x w.
  - exists x, w. repeat split; done.
  - cbn [shuffle_from]. unfold bind, random_interval.
    match goal with
    | |- context [shuffle_from i ?y ?w1] =>
        destruct (IH y w1) as (x' & w' & -> & Hperm & Ht & Hl & Hw)
    end.
    exists x', w'. split; [reflexivity|]. split; [|done].
    rewrite Hperm. apply swap_Permutation.
Qed.








Section Subsample.
Context `{Library}.


End Subsample.


(** ** C3: the singleton and multiallelic filter *)

Lemma on_profiler_run `{Library} {A} (m : M (BenchmarkProfiler * World) A)
    (self : Benchmark) (w : World) :
  on_profiler m (self, w)
  = ((m (benchmark_profiler self, w)).1,
     (set_benchmark_profiler (m (benchmark_profiler self, w)).2.1 self,
      (m (benchmark_profiler self, w)).2.2)).
Proof.
  unfold on_profiler, zoom. cbn [fst snd].
  destruct (m (benchmark_profiler self, w)) as [o [p w']]. reflexivity.
Qed.

Lemma min_above_one (c : Z) (row : list Z) :
  (1 <? foldr Z.min c row) = forallb (fun x => 1 <? x) (row ++ [c]).
Proof.
  induction row as [|x row IH]; cbn [foldr app forallb].
  - by rewrite andb_true_r.
  - rewrite <- IH. destruct (Z.min_spec x (foldr Z.min c row)) as [[? ->]|[? ->]];
      destruct (Z.ltb_spec 1 x), (Z.ltb_spec 1 (foldr Z.min c row)); cbn; try reflexivity; lia.
Qed.

(** The mask keeps a variant exactly when its highest allele with a
    positive count is allele 1 and each of its first two allele counts is
    above one. *)
Lemma pca_filter_mask_entries (ac : list (list Z)) (flt : list bool) :
  pca_filter_mask ac = Ret flt ->
  Forall2 (fun row keep =>
             keep = (1 =? max_allele_from 0 (-1) row)
                    && forallb (fun c => 1 <? c) (take 2 row)) ac flt.
Proof.
  unfold pca_filter_mask. revert flt. induction ac as [|row ac IH]; intros flt.
  - cbn. intros [= <-]. constructor.
  - cbn [map min_axis1 max_allele].
    destruct (take 2 row) as [|c r] eqn:Htake; [discriminate|].
    destruct (min_axis1 (map (take 2) ac)) as [mins|e|code]; try discriminate.
    cbn [map zip_with]. intros [= <-]. constructor; [|by apply IH].
    f_equal. rewrite Htake, min_above_one, forallb_app. cbn [forallb].
    rewrite andb_true_r. apply andb_comm.
Qed.

Lemma printed_emit_print (line : string) (w : World) :
  printed (emit (EvPrint line) w) = printed w ++ [line].
Proof. unfold printed, emit. cbn. by rewrite omap_app. Qed.

Section Filter.
Context `{Library}.

(** C3. Let [flt] be the filter mask of the allele counts, and let the
    recorder be idle, as it is between the steps of the pipeline.  The
    filter step returns normally.  If the mask has no true entry it returns
    the genotype array it was given and prints the warning; otherwise it
    returns that array compressed by the mask along the variant axis and
    prints nothing. *)
Theorem empty_filter_is_skipped
    (gt : GenotypeArrayHandle) (ac : list (list Z)) (flt : list bool)
    (self : Benchmark) (w : World) :
  benchmark_running (benchmark_profiler self) = false ->
  pca_filter_mask ac = Ret flt ->
  Forall2 (fun row keep =>
             keep = (1 =? max_allele_from 0 (-1) row)
                    && forallb (fun c => 1 <? c) (take 2 row)) ac flt
  /\ exists gf self' w',
       pca_remove_singletons gt ac (self, w) = (Ret gf, (self', w'))
       /\ benchmark_running (benchmark_profiler self') = false
       /\ (count_nonzero flt = 0%nat ->
           gf = gt /\ printed w' = printed w ++ [filter_skipped_warning])
       /\ ((0 < count_nonzero flt)%nat ->
           gf = gt_compress flt gt
           /\ handle_data gf = compress flt (handle_data gt)
           /\ printed w' = printed w).
Proof.
  intros Hidle Hmask. split; [by apply pca_filter_mask_entries|].
  unfold pca_remove_singletons, bind at 1, lift_outcome. rewrite Hmask.
  unfold bind at 1. rewrite on_profiler_run, start_benchmark_idle by exact Hidle.
  cbn [fst snd]. unfold bind at 1.
  destruct (0 <? count_nonzero flt)%nat eqn:Hcount.
  - apply Nat.ltb_lt in Hcount. cbn [ret]. unfold bind at 1.
    rewrite on_profiler_run. cbn [benchmark_profiler set_benchmark_profiler].
    erewrite end_benchmark_running by reflexivity.
    erewrite record_runtime_run by reflexivity. cbn [fst snd ret].
    eexists _, _, _. split; [reflexivity|]. split; [reflexivity|].
    split; [intros; lia|]. intros _. split; [reflexivity|].
    split; [by destruct gt | reflexivity].
  - apply Nat.ltb_ge in Hcount. unfold bind at 1, on_world, zoom, print, modify.
    cbn [fst snd ret]. unfold bind at 1.
    rewrite on_profiler_run. cbn [benchmark_profiler set_benchmark_profiler].
    erewrite end_benchmark_running by reflexivity.
    erewrite record_runtime_run by reflexivity. cbn [fst snd ret].
    eexists _, _, _. split; [reflexivity|]. split; [reflexivity|].
    split; [|intros; lia]. intros _. split; [reflexivity|].
    unfold appended, printed. cbn. by rewrite omap_app.
Qed.

End Filter.

(** The scenario of C3: two variants, one multiallelic and one a
    singleton, so that the mask keeps neither. *)
Lemma empty_filter_is_skipped_witness :
  let gt := GenotypeArray [[[0; 2]; [1; 1]]; [[0; 0]; [0; 1]]] in
  let ac := [[1; 2; 1]; [3; 1; 0]] in
  exists self' w',
    @pca_remove_singletons demo_library gt ac (demo_benchmark 1 "zarr" 50, demo_world)
    = (Ret gt, (self', w'))
    /\ printed w' = [filter_skipped_warning].
Proof.
  intros gt ac.
  destruct (@empty_filter_is_skipped demo_library gt ac [false; false]
              (demo_benchmark 1 "zarr" 50) demo_world eq_refl eq_refl)
    as (_ & gf & self' & w' & Hrun & _ & Hzero & _).
  destruct (Hzero eq_refl) as [-> Hprinted].
  exists self', w'. split; [exact Hrun | exact Hprinted].
Defined.

(** ** C7: the run loop *)

(** *** What the recorder writes *)




(** *** Steps that write no row *)

Lemma silent_print (line : string) : silent (print line).
Proof. intros w. reflexivity. Qed.


Lemma silent_read_vcf (path : string) (fs : list string) : silent (read_vcf path fs).
Proof.
  intros w. unfold read_vcf, bind, modify, gets. cbn.
  destruct (vcfs w !! path) as [[|v vs]|]; reflexivity.
Qed.

Lemma silent_remove_directory_tree (path : string) : silent (remove_directory_tree path).
Proof.
  intros w. unfold remove_directory_tree, bind, gets, modify, shutil_rmtree. cbn.
  destruct (os_path_exists w path); cbn; [|reflexivity].
  destruct (os_path_isdir w path); reflexivity.
Qed.


Lemma silent_random_choice (a size : nat) : silent (random_choice a size).
Proof.
  intros w. unfold random_choice. destruct (a <? size)%nat; [reflexivity|].
  unfold bind, random_permutation.
  destruct (shuffle_from_run (a - 1) (seq 0 a) w) as (perm & w' & -> & _ & _ & _ & Hw).
  exact Hw.
Qed.

Section Silent.
Context `{Library}.

Lemma silent_vcf_to_zarr (input output : string) (alt : Z) (fs : option (list string))
    (codec : Blosc) (clen cwid : Z) :
  silent (vcf_to_zarr input output alt fs codec clen cwid).
Proof.
  intros w. unfold vcf_to_zarr, bind, modify, gets. cbn.
  destruct (vcfs w !! input); reflexivity.
Qed.

Lemma silent_ld_prune_loop (size step : Z) (threshold : Q) (n_iter : nat) (blen : Z)
    (rounds : list nat) (gn : list (list Z)) :
  silent (ld_prune_loop size step threshold n_iter blen rounds gn).
Proof.
  revert gn. induction rounds as [|i rounds IH]; intros gn w; [reflexivity|].
  cbn [ld_prune_loop]. unfold bind, ld_prune_round, print, modify. cbn.
  rewrite IH. reflexivity.
Qed.

Lemma silent_pca_ld_prune (gn : list (list Z)) (size step : Z) (threshold : Q)
    (n_iter : nat) :
  silent (_pca_ld_prune gn size step threshold n_iter).
Proof. unfold _pca_ld_prune. apply silent_ld_prune_loop. Qed.

End Silent.

(** A silent step on the world keeps [recording]. *)
Lemma wp_on_world_silent {X A} (m : M World A) (P : outcome A -> X * World -> Prop)
    (x : X) (w : World) :
  silent m ->
  (forall o w', written w' = written w -> P o (x, w')) ->
  wp (on_world m) P (x, w).
Proof.
  intros Hm HP. unfold wp, on_world, zoom. cbn [fst snd].
  specialize (Hm w). destruct (m w) as [o w']. cbn in *. by apply HP.
Qed.

Lemma recording_same_written (running : bool) (k : nat) (base : list (option nat)) (n : nat)
    (p : BenchmarkProfiler) (w w' : World) :
  written w' = written w -> recording running k base n (p, w) ->
  recording running k base n (p, w').
Proof.
  unfold recording, emitted_runs. cbn [fst snd]. intros ->. auto.
Qed.

(** *** The conversion stage during a run *)



(** One silent step on the world inside a sequence: go on with the
    normal return, the other outcomes end the sequence. *)
Tactic Notation "silent_step" uconstr(lem) "as" simple_intropattern(v) :=
  apply wp_bind, wp_on_world_silent; [apply lem|];
  let Hw := fresh "Hw" in
  intros [v|?|?] ? Hw; [|exact I..];
  match goal with
  | Hrec : recording _ _ _ _ (_, _) |- _ =>
      apply (recording_same_written _ _ _ _ _ _ _ Hw) in Hrec
  end; clear Hw.

Section ConversionDuringRun.
Context `{Library}.




End ConversionDuringRun.

(** *** Steps of the benchmark object *)

Section BenchmarkSteps.
Context `{Library}.
Variable bc : BenchmarkConfigurationRepresentation.
Variable dd : DataDirectoriesConfigurationRepresentation.



Lemma wp_b_silent {A} (m : M World A) (r : bool) (k : nat) (base : list (option nat))
    (n : nat) (P : outcome A -> Benchmark * World -> Prop) (s : Benchmark * World) :
  silent m ->
  in_run bc dd r k base n s ->
  (forall o s', in_run bc dd r k base n s' -> P o s') ->
  wp (on_world m) P s.
Proof.
  destruct s as [self w]. intros Hm (Hbc & Hdd & Hrec) HP.
  apply wp_on_world_silent; [exact Hm|]. intros o w' Hw. apply HP.
  repeat split; try done; cbn [fst snd] in *;
    apply (recording_same_written _ _ _ _ _ _ _ Hw Hrec).
Qed.




Lemma wp_gets {S A} (f : S -> A) (P : outcome A -> S -> Prop) (s : S) :
  P (Ret (f s)) s -> wp (gets f) P s.
Proof. auto. Qed.

End BenchmarkSteps.




Tactic Notation "b_silent" uconstr(lem) "as" simple_intropattern(v) :=
  apply wp_bind; eapply wp_b_silent; [apply lem | eassumption |];
  let s := fresh "s" in let Hin := fresh "Hin" in
  intros [v|?|?] s Hin; [|exact I..].

Tactic Notation "b_outcome" "as" simple_intropattern(v) :=
  apply wp_bind, wp_lift_outcome;
  match goal with
  | |- match ?o with _ => _ end => destruct o as [v|?|?]; [|exact I..]
  end.




Tactic Notation "b_call" uconstr(lem) "as" simple_intropattern(v) :=
  apply wp_bind; eapply wp_mono; [eapply lem; eassumption|];
  let s := fresh "s" in let Hin := fresh "Hin" in
  let n := fresh "n" in let Hle := fresh "Hle" in
  intros [v|?|?] s; [|intros; exact I..]; intros (n & Hle & Hin).

Section Stages.
Context `{Library}.
Variable bc : BenchmarkConfigurationRepresentation.
Variable dd : DataDirectoriesConfigurationRepresentation.
Variable k : nat.
Variable base : list (option nat).













End Stages.

(** *** Clearing the working directory *)

Lemma under_nonempty (dir p : string) : under dir p = true -> dir <> "".
Proof.
  unfold under. intros Hu%andb_true_iff. destruct Hu as [Hne _].
  apply negb_true_iff, bool_decide_eq_false in Hne. exact Hne.
Qed.

Lemma not_isdir_nothing_inside (w : World) (path p : string) :
  os_path_isdir w path = false ->
  path <> "" ->
  p = path \/ under path p = true ->
  zarrs w !! p = None.
Proof.
  unfold os_path_isdir. intros Hdir Hne Hp.
  rewrite bool_decide_eq_false_2 in Hdir by exact Hne. cbn [negb andb] in Hdir.
  apply orb_false_iff in Hdir as [Hat Hin].
  apply bool_decide_eq_false in Hat. apply bool_decide_eq_false in Hin.
  destruct (zarrs w !! p) as [cs|] eqn:Hlook; [exfalso | reflexivity].
  destruct Hp as [->|Hp].
  - apply Hat. rewrite Hlook. eauto.
  - apply Hin. apply Exists_exists. exists p. split; [|exact Hp].
    apply elem_of_elements, elem_of_dom. eauto.
Qed.

Lemma remove_directory_tree_clears (path : string) (w : World) :
  exists cleared,
    remove_directory_tree path w = (Ret tt, cleared)
    /\ (forall p, path <> "" -> p = path \/ under path p = true ->
                  zarrs cleared !! p = None)
    /\ (forall p, p <> path -> under path p = false -> zarrs cleared !! p = zarrs w !! p)
    /\ written cleared = written w.
Proof.
  unfold remove_directory_tree, bind, gets, modify.
  destruct (os_path_exists w path) eqn:Hex.
  - unfold shutil_rmtree. destruct (os_path_isdir w path) eqn:Hdir.
    + eexists. split; [reflexivity|]. cbn [zarrs written]. split; [|split; [|reflexivity]].
      * intros p _ Hp. apply map_lookup_filter_None. right. intros cs _ [Hu Hne].
        cbn [fst] in *. destruct Hp as [->|Hp]; [done | congruence].
      * intros p Hne Hu. destruct (zarrs w !! p) as [cs|] eqn:Hlook.
        -- apply map_lookup_filter_Some. split; [exact Hlook | by split].
        -- apply map_lookup_filter_None. by left.
    + exists w. split; [reflexivity|]. split; [|done].
      intros p Hne Hp. by apply (not_isdir_nothing_inside w path).
  - exists w. split; [reflexivity|]. split; [|done].
    intros p Hne Hp. apply (not_isdir_nothing_inside w path); [|exact Hne|exact Hp].
    unfold os_path_exists in Hex. by apply orb_false_iff in Hex as [_ ?].
Qed.


Section RunLoop.
Context `{Library}.
Variable bc : BenchmarkConfigurationRepresentation.
Variable dd : DataDirectoriesConfigurationRepresentation.

Lemma run_body_after_clear (k : nat) (self : Benchmark) (w : World) :
  data_dirs self = Some dd ->
  exists cleared,
    remove_directory_tree (zarr_dir_benchmark dd) w = (Ret tt, cleared)
    /\ run_body k (self, w) = run_after_clear k (self, cleared)
    /\ (forall p, zarr_dir_benchmark dd <> "" ->
                  p = zarr_dir_benchmark dd \/ under (zarr_dir_benchmark dd) p = true ->
                  zarrs cleared !! p = None)
    /\ written cleared = written w.
Proof.
  intros Hdd.
  destruct (remove_directory_tree_clears (zarr_dir_benchmark dd) w)
    as (cleared & Hrun & Hnone & _ & Hw).
  exists cleared. split; [exact Hrun|]. split; [|by split].
  unfold run_body, the_data_dirs, bind at 1 2, gets. cbn [fst snd]. rewrite Hdd.
  unfold ret at 1. unfold bind at 1, on_world, zoom. cbn [fst snd]. rewrite Hrun.
  reflexivity.
Qed.




End RunLoop.


Example demo_run_numbers :
  emitted_runs (@run_benchmark demo_library (demo_benchmark 2 "vcf" 2, demo_world)).2.2
  = replicate 19 (Some 1%nat) ++ replicate 19 (Some 2%nat).
Proof. vm_compute. reflexivity. Qed.


(** ** Further properties: which rows a session writes *)

Lemma emitted_rows_appended (path : string) (r : BenchmarkResultsData) (t : Z)
    (header : bool) (w : World) :
  emitted_rows
    (appended path ((if header then [] else [header_line]) ++ [row_of r t]) w)
  = emitted_rows w ++ [(run_number r, operation_name r)].
Proof.
  unfold emitted_rows, appended. cbn [written]. rewrite omap_app. f_equal.
  destruct header; reflexivity.
Qed.

Lemma labelled_snoc (k : option nat) (ops : list string) (op : string) :
  labelled k (ops ++ [op]) = labelled k ops ++ [(k, Some op)].
Proof. unfold labelled. by rewrite map_app. Qed.

Lemma start_logging (op cur : string) (k : option nat)
    (base : list (option nat * option string)) (ops : list string)
    (p : BenchmarkProfiler) (w : World) :
  logging false cur k base ops (p, w) ->
  exists p' w',
    start_benchmark op (p, w) = (Ret tt, (p', w'))
    /\ logging true op k base ops (p', w').
Proof.
  intros (Hidle & _ & Hk & Hrows). cbn [fst snd] in *.
  rewrite start_benchmark_idle by exact Hidle.
  eexists _, _. split; [reflexivity|]. repeat split; cbn; eauto.
Qed.

Lemma end_logging (cur : string) (k : option nat)
    (base : list (option nat * option string)) (ops : list string)
    (p : BenchmarkProfiler) (w : World) :
  logging true cur k base ops (p, w) ->
  exists p' w',
    end_benchmark (p, w) = (Ret tt, (p', w'))
    /\ logging false cur k base (ops ++ [cur]) (p', w').
Proof.
  intros (Hrun & Hstart & Hk & Hrows). cbn [fst snd] in *.
  destruct (Hstart eq_refl) as [Hop [t0 Ht0]].
  rewrite (end_benchmark_running p w t0) by done.
  rewrite (record_runtime_run _ t0) by reflexivity.
  eexists _, _. split; [reflexivity|]. split; [reflexivity|].
  split; [discriminate|]. split; [exact Hk|]. cbn [fst snd].
  rewrite emitted_rows_appended. cbn [run_number operation_name].
  replace (emitted_rows (time_time w).2) with (emitted_rows w) by reflexivity.
  rewrite Hrows, Hk, Hop, labelled_snoc, app_assoc. reflexivity.
Qed.

Lemma logging_same_written (running : bool) (cur : string) (k : option nat)
    (base : list (option nat * option string)) (ops : list string)
    (p : BenchmarkProfiler) (w w' : World) :
  written w' = written w -> logging running cur k base ops (p, w) ->
  logging running cur k base ops (p, w').
Proof.
  unfold logging, emitted_rows. cbn [fst snd]. intros ->. auto.
Qed.

Lemma logging_idle_any (cur cur' : string) (k : option nat)
    (base : list (option nat * option string)) (ops : list string)
    (s : BenchmarkProfiler * World) :
  logging false cur k base ops s -> logging false cur' k base ops s.
Proof.
  intros (Hr & _ & Hk & Hrows). split; [done|]. split; [discriminate|]. by split.
Qed.

(** *** Rules for the recorder as an optional argument and for the
    benchmark object *)

Lemma wp_when_start_logging (op cur : string) (k : option nat)
    (base : list (option nat * option string)) (ops : list string)
    (P : outcome unit -> option BenchmarkProfiler * World -> Prop)
    (p : BenchmarkProfiler) (w : World) :
  logging false cur k base ops (p, w) ->
  (forall p' w', logging true op k base ops (p', w') -> P (Ret tt) (Some p', w')) ->
  wp (when_profiler (start_benchmark op)) P (Some p, w).
Proof.
  intros Hlog HP. unfold wp, when_profiler. cbn [fst snd].
  destruct (start_logging op cur k base ops p w Hlog) as (p' & w' & -> & Hlog').
  cbn. by apply HP.
Qed.

Lemma wp_when_end_logging (cur : string) (k : option nat)
    (base : list (option nat * option string)) (ops : list string)
    (P : outcome unit -> option BenchmarkProfiler * World -> Prop)
    (p : BenchmarkProfiler) (w : World) :
  logging true cur k base ops (p, w) ->
  (forall p' w', logging false cur k base (ops ++ [cur]) (p', w') ->
                 P (Ret tt) (Some p', w')) ->
  wp (when_profiler end_benchmark) P (Some p, w).
Proof.
  intros Hlog HP. unfold wp, when_profiler. cbn [fst snd].
  destruct (end_logging cur k base ops p w Hlog) as (p' & w' & -> & Hlog').
  cbn. by apply HP.
Qed.

Tactic Notation "quiet_step" uconstr(lem) "as" simple_intropattern(v) :=
  apply wp_bind, wp_on_world_silent; [apply lem|];
  let Hw := fresh "Hw" in
  intros [v|?|?] ? Hw; [|exact I..];
  match goal with
  | Hlog : logging _ _ _ _ _ (_, _) |- _ =>
      apply (logging_same_written _ _ _ _ _ _ _ _ Hw) in Hlog
  end; clear Hw.

Section SessionSteps.
Context `{Library}.
Variable bc : BenchmarkConfigurationRepresentation.
Variable dd : option DataDirectoriesConfigurationRepresentation.

Lemma wp_s_start (op cur : string) (k : option nat)
    (base : list (option nat * option string)) (ops : list string)
    (P : outcome unit -> Benchmark * World -> Prop) (s : Benchmark * World) :
  in_session bc dd false cur k base ops s ->
  (forall s', in_session bc dd true op k base ops s' -> P (Ret tt) s') ->
  wp (on_profiler (start_benchmark op)) P s.
Proof.
  destruct s as [self w]. intros (Hbc & Hdd & Hlog) HP. unfold wp.
  rewrite on_profiler_run. cbn [fst snd] in *.
  destruct (start_logging op cur k base ops _ _ Hlog) as (p' & w' & -> & Hlog').
  cbn [fst snd]. apply HP. split; [done|]. split; [done|]. exact Hlog'.
Qed.

Lemma wp_s_end (cur : string) (k : option nat)
    (base : list (option nat * option string)) (ops : list string)
    (P : outcome unit -> Benchmark * World -> Prop) (s : Benchmark * World) :
  in_session bc dd true cur k base ops s ->
  (forall s', in_session bc dd false cur k base (ops ++ [cur]) s' -> P (Ret tt) s') ->
  wp (on_profiler end_benchmark) P s.
Proof.
  destruct s as [self w]. intros (Hbc & Hdd & Hlog) HP. unfold wp.
  rewrite on_profiler_run. cbn [fst snd] in *.
  destruct (end_logging cur k base ops _ _ Hlog) as (p' & w' & -> & Hlog').
  cbn [fst snd]. apply HP. split; [done|]. split; [done|]. exact Hlog'.
Qed.

Lemma wp_s_silent {A} (m : M World A) (r : bool) (cur : string) (k : option nat)
    (base : list (option nat * option string)) (ops : list string)
    (P : outcome A -> Benchmark * World -> Prop) (s : Benchmark * World) :
  silent m ->
  in_session bc dd r cur k base ops s ->
  (forall o s', in_session bc dd r cur k base ops s' -> P o s') ->
  wp (on_world m) P s.
Proof.
  destruct s as [self w]. intros Hm (Hbc & Hdd & Hlog) HP.
  apply wp_on_world_silent; [exact Hm|]. intros o w' Hw. apply HP.
  split; [done|]. split; [done|]. cbn [fst snd] in *.
  apply (logging_same_written _ _ _ _ _ _ _ _ Hw Hlog).
Qed.


Lemma wp_s_bench_conf (r : bool) (cur : string) (k : option nat)
    (base : list (option nat * option string)) (ops : list string)
    (P : outcome BenchmarkConfigurationRepresentation -> Benchmark * World -> Prop)
    (s : Benchmark * World) :
  in_session bc dd r cur k base ops s -> P (Ret bc) s -> wp the_bench_conf P s.
Proof.
  destruct s as [self w]. intros (Hbc & _) HP. unfold wp, the_bench_conf, bind, gets.
  cbn [fst snd] in *. rewrite Hbc. exact HP.
Qed.


Lemma in_session_idle_any (cur cur' : string) (k : option nat)
    (base : list (option nat * option string)) (ops : list string) (s : Benchmark * World) :
  in_session bc dd false cur k base ops s -> in_session bc dd false cur' k base ops s.
Proof.
  intros (Hbc & Hdd & Hlog). split; [done|]. split; [done|].
  eapply logging_idle_any, Hlog.
Qed.

End SessionSteps.

Ltac s_start :=
  apply wp_bind; eapply wp_s_start; [eassumption|];
  let s := fresh "s" in let Hin := fresh "Hin" in intros s Hin.

Ltac s_end :=
  apply wp_bind; eapply wp_s_end; [eassumption|];
  let s := fresh "s" in let Hin := fresh "Hin" in intros s Hin.

Ltac s_end_last :=
  eapply wp_s_end; [eassumption|];
  let s := fresh "s" in let Hin := fresh "Hin" in intros s Hin.

Tactic Notation "s_silent" uconstr(lem) "as" simple_intropattern(v) :=
  apply wp_bind; eapply wp_s_silent; [apply lem | eassumption |];
  let s := fresh "s" in let Hin := fresh "Hin" in
  intros [v|?|?] s Hin; [|exact I..].

Ltac s_conf := apply wp_bind; eapply wp_s_bench_conf; [eassumption|]; cbn beta iota.


(** Close a stage: the rows gathered step by step are the rows announced. *)
Ltac s_done :=
  cbn [on_return]; unfold logged;
  match goal with
  | Hin : in_session _ _ false _ _ _ _ ?s |- in_session _ _ false _ _ _ _ ?s =>
      eapply in_session_idle_any in Hin;
      repeat rewrite <- app_assoc in Hin; cbn [app] in Hin;
      repeat rewrite <- app_assoc; cbn [app]; exact Hin
  end.

Tactic Notation "s_call" uconstr(lem) "as" simple_intropattern(v) :=
  apply wp_bind; eapply wp_mono; [eapply lem; eassumption|];
  let s := fresh "s" in let Hin := fresh "Hin" in
  intros [v|?|?] s; [|intros; exact I..]; intros Hin; unfold logged in Hin.

(** *** The rows of each stage *)

Section ConversionRows.
Context `{Library}.

Lemma scan_alt_number_logged (input cur : string) (k : option nat)
    (base : list (option nat * option string)) (ops : list string)
    (p : BenchmarkProfiler) (w : World) :
  logging false cur k base ops (p, w) ->
  wp (scan_alt_number input)
     (on_return (fun _ s' =>
        exists p', s'.1 = Some p'
          /\ logging false ""  k base
               (ops ++ ["Read VCF file into memory for alt number";
                        "Determine maximum alt number"]) (p', s'.2)))
     (Some p, w).
Proof.
  intros Hlog. unfold scan_alt_number.
  quiet_step silent_print as [].
  apply wp_bind; eapply wp_when_start_logging; [exact Hlog|].
  clear p w Hlog. intros p w Hlog.
  quiet_step silent_read_vcf as a.
  apply wp_bind; eapply wp_when_end_logging; [exact Hlog|].
  clear p Hlog. intros p w1 Hlog.
  apply wp_bind.
  match goal with
  | |- wp ?m _ _ => assert (Hm : (exists v, m = ret v) \/ (exists e, m = raise e))
  end.
  { destruct a as [arrays|]; [|right; eauto].
    destruct (arrays !! "variants/numalt"); [left|right]; eauto. }
  destruct Hm as [[v ->]|[e ->]]; [apply wp_ret | exact I].
  apply wp_bind; eapply wp_when_start_logging; [exact Hlog|].
  clear p w1 Hlog. intros p w1 Hlog.
  apply wp_bind, wp_lift_outcome. destruct (np_max v) as [mx|e|c]; [|exact I..].
  apply wp_bind; eapply wp_when_end_logging; [exact Hlog|].
  clear p w1 Hlog. intros p w1 Hlog.
  apply wp_ret. cbn. exists p. split; [reflexivity|].
  eapply logging_idle_any in Hlog. rewrite <- app_assoc in Hlog. exact Hlog.
Qed.

Lemma convert_with_alt_number_logged (input output cur : string)
    (c : VCFtoZarrConfigurationRepresentation) (mx : Z) (k : option nat)
    (base : list (option nat * option string)) (ops : list string)
    (p : BenchmarkProfiler) (w : World) :
  logging false cur k base ops (p, w) ->
  wp (convert_with_alt_number input output c mx)
     (on_return (fun _ s' =>
        exists p', s'.1 = Some p'
          /\ logging false "" k base (ops ++ ["Convert VCF to Zarr"]) (p', s'.2)))
     (Some p, w).
Proof.
  intros Hlog. unfold convert_with_alt_number.
  quiet_step silent_print as []. quiet_step silent_print as [].
  quiet_step silent_print as [].
  apply wp_bind. destruct (bool_decide (compressor c = "Blosc")); [apply wp_ret | exact I].
  apply wp_bind; eapply wp_when_start_logging; [exact Hlog|].
  clear p w Hlog. intros p w Hlog.
  quiet_step silent_vcf_to_zarr as [].
  eapply wp_when_end_logging; [exact Hlog|].
  clear p Hlog. intros p w1 Hlog. cbn. exists p. split; [reflexivity|].
  eapply logging_idle_any, Hlog.
Qed.

Lemma convert_to_zarr_logged (input output cur : string)
    (cfg : option VCFtoZarrConfigurationRepresentation) (k : option nat)
    (base : list (option nat * option string)) (ops : list string)
    (p : BenchmarkProfiler) (w : World) :
  logging false cur k base ops (p, w) ->
  wp (convert_to_zarr input output cfg)
     (on_return (fun _ s' =>
        exists p', s'.1 = Some p'
          /\ logging false "" k base (ops ++ conversion_labels cfg) (p', s'.2)))
     (Some p, w).
Proof.
  intros Hlog. unfold convert_to_zarr, conversion_labels. destruct cfg as [c|].
  - apply wp_bind. destruct (alt_number c) as [a|].
    + quiet_step silent_print as []. apply wp_ret. cbn beta iota.
      eapply wp_mono; [by apply (convert_with_alt_number_logged _ _ cur _ _ k base ops)|].
      intros [[]|e|code] s'; cbn; [|auto..]. auto.
    + eapply wp_mono; [by apply (scan_alt_number_logged _ cur k base ops)|].
      intros [mx|e|code] [bp1 w1]; cbn [on_return fst snd]; [|auto..].
      intros (p1 & -> & Hlog1).
      eapply wp_mono; [by eapply convert_with_alt_number_logged|].
      intros [[]|e|code] s'; cbn [on_return]; [|auto..].
      intros (p' & Hp & Hlog'). exists p'. split; [done|].
      rewrite <- app_assoc in Hlog'. exact Hlog'.
  - apply wp_ret. cbn. exists p. split; [done|]. rewrite app_nil_r.
    eapply logging_idle_any, Hlog.
Qed.

End ConversionRows.

Section StageRows.
Context `{Library}.
Variable bc : BenchmarkConfigurationRepresentation.
Variable dd : option DataDirectoriesConfigurationRepresentation.
Variable k : option nat.
Variable base : list (option nat * option string).




Lemma remove_singletons_logged (gt : GenotypeArrayHandle) (ac : list (list Z))
    (cur : string) (ops : list string) (s : Benchmark * World) :
  in_session bc dd false cur k base ops s ->
  wp (pca_remove_singletons gt ac)
     (on_return (logged bc dd k base
                   (ops ++ ["PCA: Remove singletons and multiallelic SNPs"]))) s.
Proof.
  intros Hin. unfold pca_remove_singletons.
  b_outcome as flt. s_start. apply wp_bind.
  destruct (0 <? count_nonzero flt)%nat.
  - apply wp_ret. s_end. apply wp_ret. s_done.
  - s_silent silent_print as []. apply wp_ret. s_end. apply wp_ret. s_done.
Qed.

Lemma subsample_logged (gn : list (list Z)) (cur : string) (ops : list string)
    (s : Benchmark * World) :
  in_session bc dd false cur k base ops s ->
  wp (pca_subsample gn) (on_return (logged bc dd k base ops)) s.
Proof.
  intros Hin. unfold pca_subsample.
  s_conf. s_silent silent_random_choice as vidx. b_outcome as gnr. apply wp_ret. s_done.
Qed.

Lemma ld_prune_stage_logged (gnr : list (list Z)) (cur : string) (ops : list string)
    (s : Benchmark * World) :
  in_session bc dd false cur k base ops s ->
  wp (if pca_ld_enabled bc
      then if negb (bool_decide (genotype_array_type bc = GENOTYPE_ARRAY_DASK))
           then on_profiler (start_benchmark "PCA: Apply LD pruning") ;;;
                (let* gnu := on_world (_pca_ld_prune gnr (pca_ld_pruning_size bc)
                                         (pca_ld_pruning_step bc)
                                         (pca_ld_pruning_threshold bc)
                                         (pca_ld_pruning_number_iterations bc)) in
                 on_profiler end_benchmark ;;; ret gnu)
           else on_world (print "[Exec][PCA] Cannot apply LD pruning because Dask genotype arrays do not support this operation.") ;;;
                ret gnr
      else on_world (print "[Exec][PCA] LD pruning disabled. Skipping this operation.") ;;;
           ret gnr)
     (on_return (logged bc dd k base
        (ops ++ (if pca_ld_enabled bc
                    && negb (bool_decide (genotype_array_type bc = GENOTYPE_ARRAY_DASK))
                 then ["PCA: Apply LD pruning"] else [])))) s.
Proof.
  intros Hin.
  destruct (pca_ld_enabled bc);
    [destruct (negb (bool_decide (genotype_array_type bc = GENOTYPE_ARRAY_DASK)))|];
    cbn [andb].
  - s_start. s_silent silent_pca_ld_prune as gnu. s_end. apply wp_ret. s_done.
  - s_silent silent_print as []. apply wp_ret. rewrite app_nil_r. s_done.
  - s_silent silent_print as []. apply wp_ret. rewrite app_nil_r. s_done.
Qed.

Lemma benchmark_pca_logged (gt : GenotypeArrayHandle) (cur : string) (ops : list string)
    (s : Benchmark * World) :
  in_session bc dd false cur k base ops s ->
  wp (_benchmark_pca gt) (on_return (logged bc dd k base (ops ++ pca_labels bc))) s.
Proof.
  intros Hin. unfold _benchmark_pca, pca_labels.
  s_start. b_outcome as ac. s_end.
  s_start. s_end.
  s_start. b_outcome as singleton. s_end.
  s_call remove_singletons_logged as gf.
  s_start. s_end.
  s_call subsample_logged as sub.
  s_conf.
  s_call ld_prune_stage_logged as gnu.
  s_start. s_end.
  s_start. b_outcome as r1. s_end.
  s_start. b_outcome as r2. s_end_last. s_done.
Qed.

End StageRows.

Section RunRows.
Context `{Library}.
Variable bc : BenchmarkConfigurationRepresentation.
Variable dd : DataDirectoriesConfigurationRepresentation.








End RunRows.

(** *** Consecutive begin/end pairs *)

(** X1.  Each begin/end pair on an idle recorder appends one row: its operation
    label, the reading of the clock at begin as timestamp and the
    difference of the readings at end and at begin as execution time.  The
    pairs leave the recorder idle with its run number unchanged, and the
    header is written once, before the first row, when the file is new. *)
Theorem begin_end_pairs_rows (ops : list string) (p : BenchmarkProfiler) (w : World) :
  benchmark_running p = false ->
  let path := benchmark_label p +:+ ".psv" in
  exists p' w',
    for_each ops (fun op => start_benchmark op ;;; end_benchmark) (p, w) = (Ret tt, (p', w'))
    /\ benchmark_running p' = false
    /\ run_number (results p') = run_number (results p)
    /\ benchmark_label p' = benchmark_label p
    /\ clock w' = clock w
    /\ clock_reads w' = (clock_reads w + 2 * length ops)%nat
    /\ log_lines w' path
       = log_lines w path
         ++ (if os_path_isfile w path || bool_decide (ops = []) then [] else [header_line])
         ++ timed_rows (clock w) (clock_reads w) (run_number (results p)) ops.
Proof.
  intros Hidle path. revert p w Hidle path.
  induction ops as [|op ops IH]; intros p w Hidle path.
  - exists p, w. split; [reflexivity|]. split; [exact Hidle|].
    split; [reflexivity|]. split; [reflexivity|]. split; [reflexivity|].
    split; [cbn; lia|].
    rewrite orb_true_r. cbn. by rewrite app_nil_r.
  - cbn [for_each]. unfold bind at 1 2.
    rewrite start_benchmark_idle by exact Hidle.
    erewrite end_benchmark_running by reflexivity.
    erewrite record_runtime_run by reflexivity. cbn [fst snd benchmark_label].
    match goal with
    | |- context [for_each ops _ (?p1, ?w1)] =>
        destruct (IH p1 w1 eq_refl) as (p' & w' & Hrun & Hr & Hk & Hl & Hc & Hn & Hlog)
    end.
    cbn [benchmark_label results run_number] in *.
    exists p', w'. split; [exact Hrun|]. split; [exact Hr|]. split; [exact Hk|].
    split; [exact Hl|]. split; [exact Hc|]. split; [rewrite Hn; cbn; lia|].
    fold path in Hlog |- *. rewrite Hlog. rewrite isfile_appended. cbn [orb app].
    rewrite log_lines_appended, decide_True by reflexivity.
    replace (bool_decide (op :: ops = [])) with false
      by (symmetry; by apply bool_decide_eq_false).
    rewrite orb_false_r. cbn [timed_rows].
    change (log_lines (time_time (time_time w).2).2 path) with (log_lines w path).
    change (os_path_isfile (time_time (time_time w).2).2 path) with (os_path_isfile w path).
    rewrite <- !app_assoc. reflexivity.
Qed.

Lemma begin_end_pairs_rows_witness :
  exists p' w',
    for_each ["Load"; "Count"] (fun op => start_benchmark op ;;; end_benchmark)
      (BenchmarkProfiler_init "bench", empty_world) = (Ret tt, (p', w'))
    /\ log_lines w' "bench.psv"
       = [header_line;
          PsvRow [CTimestamp 0; CInt None; CStr (Some "Load"); CFloat (Some 10)];
          PsvRow [CTimestamp 20; CInt None; CStr (Some "Count"); CFloat (Some 10)]].
Proof.
  destruct (begin_end_pairs_rows ["Load"; "Count"] (BenchmarkProfiler_init "bench")
              empty_world eq_refl) as (p' & w' & Hrun & _ & _ & _ & _ & _ & Hlog).
  exists p', w'. split; [exact Hrun | exact Hlog].
Defined.

(** *** The run number of a row *)

(** X2.  [set_run_number] on an idle recorder sets the run number and nothing
    else; on a running recorder it is ignored, so a run number given
    between begin and end reaches neither the row of that operation nor the
    recorder. *)
Theorem set_run_number_only_when_idle
    (idle running : BenchmarkProfiler) (w : World) (n : nat) (op : string) :
  benchmark_running idle = false ->
  benchmark_running running = true ->
  set_run_number n (idle, w)
  = (Ret tt,
     (mkProfiler false
        (mkResults (Some n) (operation_name (results idle)) (start_time (results idle))
                   (exec_time (results idle)))
        (benchmark_label idle), w))
  /\ set_run_number n (running, w) = (Ret tt, (running, w))
  /\ (start_benchmark op ;;; set_run_number n ;;; end_benchmark) (idle, w)
     = (start_benchmark op ;;; end_benchmark) (idle, w).
Proof.
  intros Hidle Hrun. split; [by apply set_run_number_idle|].
  assert (Hignored : forall p w0, benchmark_running p = true ->
            set_run_number n (p, w0) = (Ret tt, (p, w0))).
  { intros p w0 Hp. unfold set_run_number, bind, on_self, zoom, gets. cbn.
    rewrite Hp. reflexivity. }
  split; [by apply Hignored|].
  unfold bind at 1 3. rewrite start_benchmark_idle by exact Hidle.
  unfold bind at 1. rewrite Hignored by reflexivity. reflexivity.
Qed.

Lemma set_run_number_only_when_idle_witness :
  let p := BenchmarkProfiler_init "bench" in
  (start_benchmark "Load" ;;; set_run_number 7 ;;; end_benchmark) (p, empty_world)
  = (start_benchmark "Load" ;;; end_benchmark) (p, empty_world).
Proof.
  intros p.
  apply (set_run_number_only_when_idle p
           (mkProfiler true (mkResults None None (Some 0) None) "bench")
           empty_world 7 "Load" eq_refl eq_refl).
Defined.

(** *** What a session writes *)

Section RecorderSteps.
Context `{Library}.

Lemma wp_p_start (op cur : string) (k : option nat)
    (base : list (option nat * option string)) (ops : list string)
    (P : outcome unit -> Benchmark * World -> Prop) (s : Benchmark * World) :
  logging false cur k base ops (benchmark_profiler s.1, s.2) ->
  (forall s', logging true op k base ops (benchmark_profiler s'.1, s'.2) -> P (Ret tt) s') ->
  wp (on_profiler (start_benchmark op)) P s.
Proof.
  destruct s as [self w]. intros Hlog HP. unfold wp.
  rewrite on_profiler_run. cbn [fst snd] in *.
  destruct (start_logging op cur k base ops _ _ Hlog) as (p' & w' & -> & Hlog').
  cbn [fst snd]. apply HP. exact Hlog'.
Qed.

Lemma wp_p_end (cur : string) (k : option nat)
    (base : list (option nat * option string)) (ops : list string)
    (P : outcome unit -> Benchmark * World -> Prop) (s : Benchmark * World) :
  logging true cur k base ops (benchmark_profiler s.1, s.2) ->
  (forall s', logging false cur k base (ops ++ [cur]) (benchmark_profiler s'.1, s'.2) ->
              P (Ret tt) s') ->
  wp (on_profiler end_benchmark) P s.
Proof.
  destruct s as [self w]. intros Hlog HP. unfold wp.
  rewrite on_profiler_run. cbn [fst snd] in *.
  destruct (end_logging cur k base ops _ _ Hlog) as (p' & w' & -> & Hlog').
  cbn [fst snd]. apply HP. exact Hlog'.
Qed.

Lemma logging_start (p : BenchmarkProfiler) (w : World) :
  benchmark_running p = false ->
  logging false "" (run_number (results p)) (emitted_rows w) [] (p, w).
Proof.
  intros Hidle. split; [exact Hidle|]. split; [discriminate|]. split; [reflexivity|].
  cbn. by rewrite app_nil_r.
Qed.

End RecorderSteps.

Ltac p_timed Hcall :=
  apply wp_bind; eapply wp_p_start; [eassumption|];
  (let s := fresh "s" in let Hlog := fresh "Hlog" in intros s Hlog);
  apply wp_bind, wp_lift_outcome; rewrite Hcall.

Ltac p_end :=
  apply wp_bind; eapply wp_p_end; [eassumption|];
  let s := fresh "s" in let Hlog := fresh "Hlog" in intros s Hlog.

(** X3.  With a configuration in place (the suite reads the configured array
    kind before each call) and an idle recorder: when the five library
    calls of the aggregation suite return, the suite returns normally and
    appends exactly five rows, labelled in the order of the suite and
    numbered with the recorder's run number, and leaves the recorder
    idle. *)
Theorem aggregations_write_five_rows `{Library}
    (bc : BenchmarkConfigurationRepresentation) (gt : GenotypeArrayHandle)
    (self : Benchmark) (w : World) (ac : list (list Z)) (h1 h2 h3 h4 : list Z) :
  bench_conf self = Some bc ->
  benchmark_running (benchmark_profiler self) = false ->
  count_alleles gt = Ret ac ->
  count_het gt 1 = Ret h1 -> count_hom gt 1 = Ret h2 ->
  count_het gt 0 = Ret h3 -> count_hom gt 0 = Ret h4 ->
  exists self' w',
    _benchmark_simple_aggregations gt (self, w) = (Ret tt, (self', w'))
    /\ benchmark_running (benchmark_profiler self') = false
    /\ emitted_rows w'
       = emitted_rows w
         ++ labelled (run_number (results (benchmark_profiler self))) aggregation_labels.
Proof.
  intros _ Hidle Hac Hh1 Hh2 Hh3 Hh4.
  pose proof (logging_start _ w Hidle) as Hlog.
  set (k := run_number (results (benchmark_profiler self))) in *.
  assert (Hwp : wp (_benchmark_simple_aggregations gt)
                  (fun o s' => o = Ret tt
                     /\ logging false "Genotype Count: Homozygous per Sample" k
                          (emitted_rows w) aggregation_labels
                          (benchmark_profiler s'.1, s'.2)) (self, w)).
  { unfold _benchmark_simple_aggregations, aggregation_labels.
    change (logging false "" k (emitted_rows w) []
              (benchmark_profiler (self, w).1, (self, w).2)) in Hlog.
    p_timed Hac. p_end. p_timed Hh1. p_end. p_timed Hh2. p_end.
    p_timed Hh3. p_end. p_timed Hh4.
    eapply wp_p_end; [eassumption|]. intros s' Hlog'. split; [reflexivity|].
    exact Hlog'. }
  unfold wp in Hwp.
  destruct (_benchmark_simple_aggregations gt (self, w)) as [o [self' w']].
  cbn [fst snd] in Hwp. destruct Hwp as (-> & Hr & _ & _ & Hrows).
  exists self', w'. split; [reflexivity|]. split; [exact Hr | exact Hrows].
Qed.

Lemma aggregations_write_five_rows_witness :
  let gt := GenotypeArray (map calls demo_variants) in
  exists self' w',
    @_benchmark_simple_aggregations demo_library gt (demo_benchmark 1 "zarr" 2, demo_world)
    = (Ret tt, (self', w'))
    /\ emitted_rows w'
       = [(None, Some "Allele Count (All Samples)");
          (None, Some "Genotype Count: Heterozygous per Variant");
          (None, Some "Genotype Count: Homozygous per Variant");
          (None, Some "Genotype Count: Heterozygous per Sample");
          (None, Some "Genotype Count: Homozygous per Sample")].
Proof.
  intros gt.
  destruct (@aggregations_write_five_rows demo_library (demo_bench_conf 1 "zarr" 2) gt
              (demo_benchmark 1 "zarr" 2) demo_world _ _ _ _ _
              eq_refl eq_refl eq_refl eq_refl eq_refl eq_refl eq_refl)
    as (self' & w' & Hrun & _ & Hrows).
  exists self', w'. split; [exact Hrun | exact Hrows].
Defined.

(** X4.  When a timed library call raises, the exception is not caught: the
    suite ends with it, the row of the operation in flight is never
    written, and the recorder is left running on that operation (so a
    later begin on it is ignored). *)
Theorem aggregations_failure_leaves_recorder_running `{Library}
    (bc : BenchmarkConfigurationRepresentation) (gt : GenotypeArrayHandle)
    (self : Benchmark) (w : World) (e : exn) :
  bench_conf self = Some bc ->
  benchmark_running (benchmark_profiler self) = false ->
  count_alleles gt = Raise e ->
  exists self' w',
    _benchmark_simple_aggregations gt (self, w) = (Raise e, (self', w'))
    /\ benchmark_running (benchmark_profiler self') = true
    /\ operation_name (results (benchmark_profiler self'))
       = Some "Allele Count (All Samples)"
    /\ written w' = written w
    /\ start_benchmark "Genotype Count: Heterozygous per Variant"
         (benchmark_profiler self', w')
       = (Ret tt, (benchmark_profiler self', w')).
Proof.
  intros _ Hidle Hac. unfold _benchmark_simple_aggregations.
  unfold bind at 1. rewrite on_profiler_run, start_benchmark_idle by exact Hidle.
  cbn [fst snd]. unfold bind at 1. rewrite Hac. cbn [lift_outcome fst snd].
  eexists _, _. split; [reflexivity|]. cbn [benchmark_profiler benchmark_running results
                                           operation_name].
  split; [by destruct self|]. split; [by destruct self|]. split; [reflexivity|].
  apply start_benchmark_running. by destruct self.
Qed.

Lemma aggregations_failure_leaves_recorder_running_witness :
  exists self' w',
    @_benchmark_simple_aggregations failing_library (GenotypeArray [])
      (@Benchmark_init failing_library (Some failing_bench_conf) (Some demo_dirs) "bench",
       empty_world)
    = (Raise (LibraryError "count_alleles"), (self', w'))
    /\ written w' = [].
Proof.
  destruct (@aggregations_failure_leaves_recorder_running failing_library
              failing_bench_conf (GenotypeArray [])
              (@Benchmark_init failing_library (Some failing_bench_conf) (Some demo_dirs)
                 "bench")
              empty_world (LibraryError "count_alleles") eq_refl eq_refl eq_refl)
    as (self' & w' & Hrun & _ & _ & Hw & _).
  exists self', w'. split; [exact Hrun | exact Hw].
Defined.

(** X5.  A normal return of the PCA pipeline, entered with an idle recorder,
    has appended one row per stage in the order of the pipeline: eight
    rows, and a ninth for LD pruning (after the transformation, before the
    move to memory) exactly when pruning is enabled and the array kind is
    not the Dask one. *)
Theorem pca_rows_in_order `{Library} (bc : BenchmarkConfigurationRepresentation)
    (gt : GenotypeArrayHandle) (self self' : Benchmark) (w w' : World) :
  bench_conf self = Some bc ->
  benchmark_running (benchmark_profiler self) = false ->
  _benchmark_pca gt (self, w) = (Ret tt, (self', w')) ->
  emitted_rows w'
  = emitted_rows w
    ++ labelled (run_number (results (benchmark_profiler self))) (pca_labels bc)
  /\ benchmark_running (benchmark_profiler self') = false
  /\ ("PCA: Apply LD pruning" ∈ pca_labels bc
      <-> pca_ld_enabled bc = true /\ genotype_array_type bc <> GENOTYPE_ARRAY_DASK)
  /\ length (pca_labels bc)
     = if pca_ld_enabled bc && negb (bool_decide (genotype_array_type bc = GENOTYPE_ARRAY_DASK))
       then 9%nat else 8%nat.
Proof.
  intros Hbc Hidle Hrun.
  assert (Hin : in_session bc (data_dirs self) false ""
                  (run_number (results (benchmark_profiler self))) (emitted_rows w) []
                  (self, w)).
  { split; [exact Hbc|]. split; [reflexivity|]. by apply logging_start. }
  pose proof (benchmark_pca_logged bc _ _ _ gt "" [] (self, w) Hin) as Hwp.
  pose proof (wp_elim _ _ _ _ _ Hrun Hwp) as (_ & _ & Hr & _ & _ & Hrows).
  split; [exact Hrows|]. split; [exact Hr|]. unfold pca_labels. split.
  - destruct (pca_ld_enabled bc); cbn [andb].
    + destruct (decide (genotype_array_type bc = GENOTYPE_ARRAY_DASK)) as [Hk|Hk].
      * rewrite bool_decide_eq_true_2 by exact Hk. cbn [negb app].
        split; [|intros [_ Hne]; done].
        rewrite !elem_of_cons, elem_of_nil.
        intros [?|[?|[?|[?|[?|[?|[?|[?|[]]]]]]]]]; discriminate.
      * rewrite bool_decide_eq_false_2 by exact Hk. cbn [negb app].
        split; [done|]. intros _. rewrite !elem_of_cons. tauto.
    + cbn [app]. split; [|intros [? _]; discriminate].
      rewrite !elem_of_cons, elem_of_nil.
      intros [?|[?|[?|[?|[?|[?|[?|[?|[]]]]]]]]]; discriminate.
  - destruct (pca_ld_enabled bc && _); reflexivity.
Qed.

Lemma pca_rows_in_order_witness :
  let gt := GenotypeArray (map calls demo_variants) in
  let run := @_benchmark_pca demo_library gt (demo_benchmark 1 "zarr" 2, demo_world) in
  emitted_rows run.2.2
  = labelled None
      ["PCA: Count alleles";
       "PCA: Count multiallelic SNPs";
       "PCA: Count biallelic singletons";
       "PCA: Remove singletons and multiallelic SNPs";
       "PCA: Transform genotype data for PCA";
       "PCA: Apply LD pruning";
       "PCA: Move data set to memory";
       "PCA: Run conventional PCA analysis (scaler: none)";
       "PCA: Run randomized PCA analysis (scaler: none)"].
Proof.
  intros gt run.
  assert (Hret : run.1 = Ret tt) by (vm_compute; reflexivity).
  refine (proj1 (@pca_rows_in_order demo_library (demo_bench_conf 1 "zarr" 2) gt
                   (demo_benchmark 1 "zarr" 2) run.2.1 demo_world run.2.2
                   eq_refl eq_refl _)).
  rewrite <- (surjective_pairing run.2), <- Hret. apply surjective_pairing.
Defined.



(** *** The conversion with and without a recorder *)

(** X7.  With an idle recorder, a conversion that returns has appended the rows
    of its timed stages ([conversion_labels]: the two scanning stages only
    when no alt number is configured, then the conversion itself; none when
    no configuration is given) and leaves the recorder idle.  Without a
    recorder, whatever the outcome, no recorder appears, no row is written,
    no log file is touched and the clock is never read. *)
Theorem conversion_rows_with_and_without_recorder `{Library}
    (input output : string) (cfg : option VCFtoZarrConfigurationRepresentation)
    (p : BenchmarkProfiler) (w : World) :
  benchmark_running p = false ->
  (forall bp' w',
     convert_to_zarr input output cfg (Some p, w) = (Ret tt, (bp', w')) ->
     exists p', bp' = Some p'
       /\ benchmark_running p' = false
       /\ emitted_rows w'
          = emitted_rows w ++ labelled (run_number (results p)) (conversion_labels cfg))
  /\ (let run := convert_to_zarr input output cfg (None, w) in
      run.2.1 = None /\ written run.2.2 = written w /\ logs run.2.2 = logs w
      /\ clock_reads run.2.2 = clock_reads w).
Proof.
  intros Hidle. split.
  - intros bp' w' Hrun.
    pose proof (convert_to_zarr_logged input output "" cfg _ _ [] p w
                  (logging_start p w Hidle)) as Hwp.
    pose proof (wp_elim _ _ _ _ _ Hrun Hwp) as (p' & Hp & Hr & _ & _ & Hrows).
    exists p'. split; [exact Hp|]. split; [exact Hr | exact Hrows].
  - unfold convert_to_zarr, scan_alt_number, convert_with_alt_number.
    destruct cfg as [c|]; [|done].
    destruct (alt_number c) as [a|].
    + unfold vcf_to_zarr, bind, on_world, zoom, when_profiler, print, modify, gets,
        ret, raise.
      cbn. destruct (bool_decide (compressor c = "Blosc")); cbn; [|done].
      destruct (vcfs w !! input); cbn; done.
    + unfold read_vcf, vcf_to_zarr, bind, on_world, zoom, when_profiler, print, modify,
        gets, ret, raise, lift_outcome.
      cbn. destruct (vcfs w !! input) as [[|v vs]|] eqn:Hfile; cbn; [done| |done].
      rewrite bool_decide_eq_true_2 by reflexivity. cbn.
      rewrite lookup_insert_eq. cbn.
      destruct (bool_decide (compressor c = "Blosc")); cbn; [|done].
      rewrite Hfile. cbn. done.
Qed.

Lemma conversion_rows_with_and_without_recorder_witness :
  let cfg := Some (demo_conversion None "Blosc") in
  let run := @convert_to_zarr demo_library "data/sample.vcf" "zarr_bench/sample" cfg
               (Some (BenchmarkProfiler_init "bench"), demo_world) in
  let bare := @convert_to_zarr demo_library "data/sample.vcf" "zarr_bench/sample" cfg
                (None, demo_world) in
  emitted_rows run.2.2
  = labelled None ["Read VCF file into memory for alt number";
                   "Determine maximum alt number"; "Convert VCF to Zarr"]
  /\ written bare.2.2 = [].
Proof.
  intros cfg run bare.
  destruct (@conversion_rows_with_and_without_recorder demo_library
              "data/sample.vcf" "zarr_bench/sample" cfg (BenchmarkProfiler_init "bench")
              demo_world eq_refl) as [Hwith Hwithout].
  split.
  - destruct (Hwith run.2.1 run.2.2) as (p' & _ & _ & Hrows).
    + assert (Hret : run.1 = Ret tt) by (vm_compute; reflexivity).
      rewrite <- (surjective_pairing run.2), <- Hret. apply surjective_pairing.
    + exact Hrows.
  - exact (proj1 (proj2 Hwithout)).
Defined.

(** *** Removing a directory tree *)

Lemma remove_directory_tree_run (path : string) (w : World) :
  remove_directory_tree path w = (Ret tt, shutil_rmtree path w).
Proof.
  unfold remove_directory_tree, bind, gets, modify, os_path_exists, shutil_rmtree.
  destruct (os_path_isdir w path) eqn:Hdir.
  - rewrite orb_true_r. by rewrite Hdir.
  - destruct (os_path_isfile w path); cbn; [by rewrite Hdir | reflexivity].
Qed.

Lemma shutil_rmtree_same_outside (path : string) (w : World) :
  trace (shutil_rmtree path w) = trace w
  /\ written (shutil_rmtree path w) = written w
  /\ clock (shutil_rmtree path w) = clock w
  /\ clock_reads (shutil_rmtree path w) = clock_reads w
  /\ draws (shutil_rmtree path w) = draws w
  /\ draw_reads (shutil_rmtree path w) = draw_reads w.
Proof. unfold shutil_rmtree. destruct (os_path_isdir w path); done. Qed.

Lemma shutil_rmtree_subset (path : string) (w : World) :
  zarrs (shutil_rmtree path w) ⊆ zarrs w
  /\ logs (shutil_rmtree path w) ⊆ logs w
  /\ vcfs (shutil_rmtree path w) ⊆ vcfs w.
Proof.
  unfold shutil_rmtree. destruct (os_path_isdir w path); [|done].
  cbn. repeat split; apply map_filter_subseteq.
Qed.

Lemma isdir_subset (w w' : World) (q : string) :
  zarrs w' ⊆ zarrs w -> os_path_isdir w q = false -> os_path_isdir w' q = false.
Proof.
  unfold os_path_isdir. intros Hsub Hdir.
  destruct (negb (bool_decide (q = ""))); [cbn [andb] in *|done].
  apply orb_false_iff in Hdir as [Hat Hin].
  apply bool_decide_eq_false in Hat. apply bool_decide_eq_false in Hin.
  apply orb_false_iff. split; apply bool_decide_eq_false.
  - intros [cs Hcs]. apply Hat. exists cs. eapply lookup_weaken; eauto.
  - intros (k & Hk & Hu)%Exists_exists. apply Hin, Exists_exists. exists k.
    split; [|exact Hu]. apply elem_of_elements. apply elem_of_elements in Hk.
    eapply subseteq_dom in Hsub. by apply Hsub.
Qed.

Lemma isfile_subset (w w' : World) (q : string) :
  logs w' ⊆ logs w -> vcfs w' ⊆ vcfs w ->
  os_path_isfile w q = false -> os_path_isfile w' q = false.
Proof.
  unfold os_path_isfile. intros Hl Hv Hfile.
  apply orb_false_iff in Hfile as [Hlog Hvcf].
  apply bool_decide_eq_false in Hlog. apply bool_decide_eq_false in Hvcf.
  apply orb_false_iff. split; apply bool_decide_eq_false.
  - intros [x Hx]. apply Hlog. exists x. eapply lookup_weaken; eauto.
  - intros [x Hx]. apply Hvcf. exists x. eapply lookup_weaken; eauto.
Qed.

Lemma isdir_after_rmtree (path : string) (w : World) :
  os_path_isdir (shutil_rmtree path w) path = false.
Proof.
  destruct (os_path_isdir w path) eqn:Hdir.
  - unfold shutil_rmtree. rewrite Hdir. unfold os_path_isdir in *. cbn [zarrs].
    destruct (negb (bool_decide (path = ""))); [cbn [andb]|done].
    apply orb_false_iff. split; apply bool_decide_eq_false.
    + intros [cs Hcs]. apply map_lookup_filter_Some in Hcs as [_ [_ Hne]]. done.
    + intros (k & Hk & Hu)%Exists_exists.
      apply elem_of_elements, elem_of_dom in Hk as [cs Hcs].
      apply map_lookup_filter_Some in Hcs as [_ [Hnu _]]. cbn in Hnu. congruence.
  - unfold shutil_rmtree. rewrite Hdir. exact Hdir.
Qed.

Lemma shutil_rmtree_outside (path : string) (w : World) (p : string) :
  under path p = false ->
  logs (shutil_rmtree path w) !! p = logs w !! p
  /\ vcfs (shutil_rmtree path w) !! p = vcfs w !! p
  /\ (p <> path -> zarrs (shutil_rmtree path w) !! p = zarrs w !! p).
Proof.
  intros Hu. unfold shutil_rmtree. destruct (os_path_isdir w path); [|done].
  cbn [logs vcfs zarrs]. split; [|split].
  - destruct (logs w !! p) as [x|] eqn:Hx.
    + by apply map_lookup_filter_Some.
    + apply map_lookup_filter_None. by left.
  - destruct (vcfs w !! p) as [x|] eqn:Hx.
    + by apply map_lookup_filter_Some.
    + apply map_lookup_filter_None. by left.
  - intros Hne. destruct (zarrs w !! p) as [x|] eqn:Hx.
    + by apply map_lookup_filter_Some.
    + apply map_lookup_filter_None. by left.
Qed.



(** *** Fatal exits of a session *)

Section Exits.
Context `{Library}.
Variable bc : BenchmarkConfigurationRepresentation.
Variable dd : DataDirectoriesConfigurationRepresentation.

Lemma run_benchmark_first_run (n : nat) (self : Benchmark) (w : World) :
  bench_conf self = Some bc -> data_dirs self = Some dd ->
  benchmark_number_runs bc = S n ->
  run_benchmark (self, w)
  = (run_after_clear 1 ;;; for_each (seq 2 n) run_body)
      (self, shutil_rmtree (zarr_dir_benchmark dd) w).
Proof.
  intros Hbc Hdd Hn. unfold run_benchmark, bind at 1, gets. cbn [fst snd].
  rewrite Hbc, Hdd, Hn. cbn [seq for_each]. unfold bind at 1. symmetry.
  unfold bind at 1. symmetry.
  destruct (run_body_after_clear dd 1 self w Hdd) as (cleared & Hclr & -> & _).
  rewrite remove_directory_tree_run in Hclr. by injection Hclr as <-.
Qed.

Lemma set_run_number_run (k : nat) (self : Benchmark) (w : World) :
  exists p', on_profiler (set_run_number k) (self, w)
             = (Ret tt, (set_benchmark_profiler p' self, w)).
Proof.
  rewrite on_profiler_run.
  destruct (benchmark_running (benchmark_profiler self)) eqn:Hr.
  - exists (benchmark_profiler self).
    unfold set_run_number, bind, on_self, zoom, gets. cbn. rewrite Hr. reflexivity.
  - rewrite set_run_number_idle by exact Hr. eauto.
Qed.

(** X9.  An input format other than "vcf" and "zarr" ends the session in its
    first run with exit status 1, after three diagnostic lines.  The
    working directory has been cleared by then; no row is written, the
    clock is never read and no library is called. *)
Theorem invalid_input_format_exits (self : Benchmark) (w : World) :
  bench_conf self = Some bc -> data_dirs self = Some dd ->
  benchmark_data_input bc <> "vcf" -> benchmark_data_input bc <> "zarr" ->
  benchmark_number_runs bc <> 0%nat ->
  exists self' w',
    run_benchmark (self, w) = (Exit 1, (self', w'))
    /\ printed w'
       = printed w
         ++ ["[Exec] Error: Invalid option supplied for benchmark data input format.";
             "  - Expected data input formats: vcf, zarr";
             "  - Provided data input format: " +:+ benchmark_data_input bc]
    /\ written w' = written w
    /\ clock_reads w' = clock_reads w
    /\ lib_calls (trace w') = lib_calls (trace w)
    /\ os_path_isdir w' (zarr_dir_benchmark dd) = false.
Proof.
  intros Hbc Hdd Hvcf Hzarr Hruns.
  destruct (benchmark_number_runs bc) as [|n] eqn:Hn; [done|].
  rewrite (run_benchmark_first_run n) by done.
  set (c := shutil_rmtree (zarr_dir_benchmark dd) w).
  unfold bind at 1. unfold run_after_clear. unfold bind at 1.
  destruct (set_run_number_run 1 self c) as (p' & ->).
  unfold the_bench_conf, the_data_dirs, bind at 1 2, gets. cbn [fst snd].
  replace (bench_conf (set_benchmark_profiler p' self)) with (Some bc)
    by (by destruct self).
  unfold ret at 1. unfold bind at 1 2. cbn [fst snd].
  replace (data_dirs (set_benchmark_profiler p' self)) with (Some dd)
    by (by destruct self).
  unfold ret at 1. unfold bind at 1.
  rewrite !bool_decide_eq_false_2 by done.
  eexists _, _. split; [reflexivity|].
  destruct (shutil_rmtree_same_outside (zarr_dir_benchmark dd) w)
    as (Ht & Hw & _ & Hc & _).
  cbn [snd]. rewrite !printed_emit_print. unfold printed at 1.
  cbn [written clock_reads trace emit zarrs]. fold (printed c).
  assert (Hp : printed c = printed w) by (unfold printed; subst c; by rewrite Ht).
  subst c. rewrite Ht, Hw, Hc, Hp.
  split; [by rewrite <- !app_assoc|]. split; [done|]. split; [done|]. split.
  - rewrite <- !app_assoc. unfold lib_calls. rewrite filter_app. cbn.
    by rewrite app_nil_r.
  - exact (isdir_after_rmtree (zarr_dir_benchmark dd) w).
Qed.

(** X10.  In "zarr" mode, when the data set named by the configuration is no
    directory under the setup directory, the session ends in its first run
    with exit status 1 after two diagnostic lines; no row is written, the
    clock is never read and no library is called. *)
Theorem missing_dataset_exits (self : Benchmark) (w : World) :
  bench_conf self = Some bc -> data_dirs self = Some dd ->
  benchmark_data_input bc = "zarr" ->
  benchmark_number_runs bc <> 0%nat ->
  os_path_isdir w (os_path_join (zarr_dir_setup dd) (benchmark_dataset bc)) = false ->
  exists self' w',
    run_benchmark (self, w) = (Exit 1, (self', w'))
    /\ printed w'
       = printed w
         ++ ["[Exec] Error: Zarr dataset could not be found for benchmarking.";
             "  - Zarr dataset location: "
             +:+ os_path_join (zarr_dir_setup dd) (benchmark_dataset bc)]
    /\ written w' = written w
    /\ clock_reads w' = clock_reads w
    /\ lib_calls (trace w') = lib_calls (trace w).
Proof.
  intros Hbc Hdd Hmode Hruns Hdir.
  destruct (benchmark_number_runs bc) as [|n] eqn:Hn; [done|].
  rewrite (run_benchmark_first_run n) by done.
  pose proof (isdir_subset w (shutil_rmtree (zarr_dir_benchmark dd) w) _
                (proj1 (shutil_rmtree_subset _ w)) Hdir) as Hdir'.
  destruct (shutil_rmtree_same_outside (zarr_dir_benchmark dd) w)
    as (Ht & Hw & _ & Hc & _).
  assert (Hp : printed (shutil_rmtree (zarr_dir_benchmark dd) w) = printed w)
    by (unfold printed; by rewrite Ht).
  revert Hdir' Ht Hw Hc Hp. generalize (shutil_rmtree (zarr_dir_benchmark dd) w).
  intros c Hdir' Ht Hw Hc Hp.
  unfold bind at 1. unfold run_after_clear. unfold bind at 1.
  destruct (set_run_number_run 1 self c) as (p' & ->).
  unfold the_bench_conf, the_data_dirs, bind at 1 2, gets. cbn [fst snd].
  replace (bench_conf (set_benchmark_profiler p' self)) with (Some bc)
    by (by destruct self).
  unfold ret at 1. unfold bind at 1 2. cbn [fst snd].
  replace (data_dirs (set_benchmark_profiler p' self)) with (Some dd)
    by (by destruct self).
  unfold ret at 1. unfold bind at 1.
  rewrite (bool_decide_eq_false_2 (benchmark_data_input bc = "vcf"))
    by (rewrite Hmode; discriminate).
  rewrite (bool_decide_eq_true_2 (benchmark_data_input bc = "zarr")) by exact Hmode.
  unfold bind at 1 2, on_self, zoom, modify, gets. cbn [fst snd].
  unfold bind at 1 2. cbn [fst snd].
  replace (os_path_join (benchmark_zarr_dir _) (benchmark_zarr_file _))
    with (os_path_join (zarr_dir_setup dd) (benchmark_dataset bc))
    by (by destruct self).
  unfold on_world, zoom, gets. cbn [fst snd]. rewrite Hdir', andb_false_r.
  eexists _, _. split; [reflexivity|]. cbn [snd].
  rewrite !printed_emit_print. cbn [written clock_reads trace emit]. rewrite Hp, Hw, Hc, Ht.
  split; [by rewrite <- !app_assoc|]. split; [done|]. split; [done|].
  rewrite <- !app_assoc. unfold lib_calls. rewrite filter_app. cbn. by rewrite app_nil_r.
Qed.

(** X11.  In "vcf" mode, when the source file named by the configuration is
    missing from the VCF directory, the session ends in its first run with
    exit status 1 after three diagnostic lines; the conversion library is
    never called, no row is written and the clock is never read. *)
Theorem missing_source_file_exits (self : Benchmark) (w : World) :
  bench_conf self = Some bc -> data_dirs self = Some dd ->
  benchmark_data_input bc = "vcf" ->
  benchmark_number_runs bc <> 0%nat ->
  os_path_isfile w (os_path_join (vcf_dir dd) (benchmark_dataset bc)) = false ->
  exists self' w',
    run_benchmark (self, w) = (Exit 1, (self', w'))
    /\ printed w'
       = printed w
         ++ ["[Exec] Error: Dataset specified in configuration file does not exist. Exiting...";
             "  - Dataset file specified in configuration: " +:+ benchmark_dataset bc;
             "  - Expected file location: "
             +:+ os_path_join (vcf_dir dd) (benchmark_dataset bc)]
    /\ written w' = written w
    /\ clock_reads w' = clock_reads w
    /\ lib_calls (trace w') = lib_calls (trace w).
Proof.
  intros Hbc Hdd Hmode Hruns Hfile.
  destruct (benchmark_number_runs bc) as [|n] eqn:Hn; [done|].
  rewrite (run_benchmark_first_run n) by done.
  destruct (shutil_rmtree_subset (zarr_dir_benchmark dd) w) as (_ & Hl & Hv).
  pose proof (isfile_subset w (shutil_rmtree (zarr_dir_benchmark dd) w) _ Hl Hv Hfile)
    as Hfile'.
  destruct (shutil_rmtree_same_outside (zarr_dir_benchmark dd) w)
    as (Ht & Hw & _ & Hc & _).
  assert (Hp : printed (shutil_rmtree (zarr_dir_benchmark dd) w) = printed w)
    by (unfold printed; by rewrite Ht).
  clear Hl Hv. revert Hfile' Ht Hw Hc Hp.
  generalize (shutil_rmtree (zarr_dir_benchmark dd) w).
  intros c Hfile' Ht Hw Hc Hp.
  unfold bind at 1. unfold run_after_clear. unfold bind at 1.
  destruct (set_run_number_run 1 self c) as (p' & ->).
  unfold the_bench_conf, the_data_dirs, bind at 1 2, gets. cbn [fst snd].
  replace (bench_conf (set_benchmark_profiler p' self)) with (Some bc)
    by (by destruct self).
  unfold ret at 1. unfold bind at 1 2. cbn [fst snd].
  replace (data_dirs (set_benchmark_profiler p' self)) with (Some dd)
    by (by destruct self).
  unfold ret at 1. unfold bind at 1.
  rewrite (bool_decide_eq_true_2 (benchmark_data_input bc = "vcf")) by exact Hmode.
  unfold bind at 1. unfold on_self at 1, zoom, modify. cbn [fst snd].
  unfold _benchmark_convert_to_zarr, the_bench_conf, the_data_dirs.
  unfold bind at 1 2, gets. cbn [fst snd].
  replace (data_dirs _) with (Some dd) by (by destruct self).
  unfold ret at 1. unfold bind at 1 2, on_self at 1, zoom, modify. cbn [fst snd].
  unfold bind at 1 2, gets. cbn [fst snd].
  replace (bench_conf _) with (Some bc) by (by destruct self).
  unfold ret at 1. unfold bind at 1. unfold on_world at 1, zoom, gets. cbn [fst snd].
  rewrite Hfile'.
  eexists _, _. split; [reflexivity|]. cbn [snd].
  rewrite !printed_emit_print. cbn [written clock_reads trace emit]. rewrite Hp, Hw, Hc, Ht.
  split; [by rewrite <- !app_assoc|]. split; [done|]. split; [done|].
  rewrite <- !app_assoc. unfold lib_calls. rewrite filter_app. cbn. by rewrite app_nil_r.
Qed.

End Exits.

Lemma invalid_input_format_exits_witness :
  exists self' w',
    @run_benchmark demo_library (demo_benchmark 2 "csv" 2, demo_world)
    = (Exit 1, (self', w'))
    /\ printed w'
       = ["[Exec] Error: Invalid option supplied for benchmark data input format.";
          "  - Expected data input formats: vcf, zarr";
          "  - Provided data input format: csv"]
    /\ written w' = [].
Proof.
  destruct (@invalid_input_format_exits demo_library (demo_bench_conf 2 "csv" 2) demo_dirs
              (demo_benchmark 2 "csv" 2) demo_world eq_refl eq_refl)
    as (self' & w' & Hrun & Hp & Hw & _); [discriminate..|].
  exists self', w'. split; [exact Hrun|]. split; [exact Hp | exact Hw].
Defined.

Lemma missing_dataset_exits_witness :
  exists self' w',
    @run_benchmark demo_library (demo_benchmark 2 "zarr" 2, demo_world)
    = (Exit 1, (self', w'))
    /\ printed w'
       = ["[Exec] Error: Zarr dataset could not be found for benchmarking.";
          "  - Zarr dataset location: zarr_setup/sample.vcf"].
Proof.
  destruct (@missing_dataset_exits demo_library (demo_bench_conf 2 "zarr" 2) demo_dirs
              (demo_benchmark 2 "zarr" 2) demo_world eq_refl eq_refl eq_refl)
    as (self' & w' & Hrun & Hp & _); [discriminate | vm_compute; reflexivity |].
  exists self', w'. split; [exact Hrun | exact Hp].
Defined.

Lemma missing_source_file_exits_witness :
  exists self' w',
    @run_benchmark demo_library (demo_benchmark 2 "vcf" 2, empty_world)
    = (Exit 1, (self', w'))
    /\ printed w'
       = ["[Exec] Error: Dataset specified in configuration file does not exist. Exiting...";
          "  - Dataset file specified in configuration: sample.vcf";
          "  - Expected file location: data/sample.vcf"]
    /\ lib_calls (trace w') = [].
Proof.
  destruct (@missing_source_file_exits demo_library (demo_bench_conf 2 "vcf" 2) demo_dirs
              (demo_benchmark 2 "vcf" 2) empty_world eq_refl eq_refl eq_refl)
    as (self' & w' & Hrun & Hp & _ & _ & Hcalls); [discriminate | vm_compute; reflexivity |].
  exists self', w'. split; [exact Hrun|]. split; [exact Hp | exact Hcalls].
Defined.

(** *** Strings *)

Lemma string_app_cons (x : Ascii.ascii) (a b : string) :
  String x a +:+ b = String x (a +:+ b).
Proof. reflexivity. Qed.

Lemma string_app_assoc (a b c : string) : (a +:+ b) +:+ c = a +:+ (b +:+ c).
Proof.
  induction a as [|x a IH]; [reflexivity|].
  by rewrite !string_app_cons, IH.
Qed.

Lemma string_app_nil_r (s : string) : s +:+ "" = s.
Proof. induction s as [|a s IH]; [reflexivity|]. by rewrite string_app_cons, IH. Qed.

Lemma length_string_app (s t : string) :
  String.length (s +:+ t) = (String.length s + String.length t)%nat.
Proof.
  induction s as [|a s IH]; [reflexivity|].
  rewrite string_app_cons. cbn [String.length]. by rewrite IH.
Qed.


Lemma prefix_split (sep text : string) :
  String.prefix sep text = true -> exists rest, text = sep +:+ rest.
Proof.
  revert text. induction sep as [|a sep IH]; intros text Hp.
  - exists text. reflexivity.
  - destruct text as [|b text]; [discriminate|]. cbn in Hp.
    destruct (Ascii.ascii_dec a b) as [->|]; [|discriminate].
    destruct (IH text Hp) as [rest ->]. exists rest. reflexivity.
Qed.

Lemma prefix_app (a b : string) : String.prefix a (a +:+ b) = true.
Proof.
  induction a as [|x a IH]; [by destruct b|].
  rewrite string_app_cons. cbn.
  destruct (Ascii.ascii_dec x x); [exact IH | done].
Qed.

Lemma prefix_trans (a b c : string) :
  String.prefix a b = true -> String.prefix b c = true -> String.prefix a c = true.
Proof.
  intros [r ->]%prefix_split [r' ->]%prefix_split.
  rewrite string_app_assoc. apply prefix_app.
Qed.

(** *** What the conversion leaves on disk *)


Section ConversionStore.
Context `{Library}.






End ConversionStore.



(** *** The genotype-array factory *)

Section Factory.
Context `{Library}.

(** X14.  The factory wraps the call data of the call-set: the [GT] array when
    the [calldata] group has one, whatever else it holds, and otherwise its
    [genotype] array.  With pairwise distinct kind constants, the class of
    the array follows the kind, and the concatenating factory agrees with
    it on a single call-set. *)
Theorem genotype_array_wraps_call_data (cs : callset) (group : gmap string calldata) :
  cs !! "calldata" = Some group ->
  GENOTYPE_ARRAY_DASK <> GENOTYPE_ARRAY_NORMAL ->
  GENOTYPE_ARRAY_CHUNKED <> GENOTYPE_ARRAY_NORMAL ->
  GENOTYPE_ARRAY_CHUNKED <> GENOTYPE_ARRAY_DASK ->
  get_callset_genotype_data cs
  = match group !! "GT" with Some d => Some d | None => group !! "genotype" end
  /\ (forall d, get_callset_genotype_data cs = Some d ->
        get_genotype_array cs GENOTYPE_ARRAY_NORMAL = Ret (Some (GenotypeArray d))
        /\ get_genotype_array cs GENOTYPE_ARRAY_DASK = Ret (Some (GenotypeDaskArray d))
        /\ get_genotype_array cs GENOTYPE_ARRAY_CHUNKED = Ret (Some (GenotypeChunkedArray d)))
  /\ (forall k, get_genotype_array_concat [cs] k = get_genotype_array cs k).
Proof.
  intros Hgroup Hdn Hcn Hcd. split; [|split].
  - unfold get_callset_genotype_data. by rewrite Hgroup.
  - intros d Hd. unfold get_genotype_array. rewrite Hd.
    rewrite decide_True by reflexivity. split; [reflexivity|].
    rewrite (decide_False (P := GENOTYPE_ARRAY_DASK = GENOTYPE_ARRAY_NORMAL)) by exact Hdn.
    rewrite decide_True by reflexivity. split; [reflexivity|].
    rewrite (decide_False (P := GENOTYPE_ARRAY_CHUNKED = GENOTYPE_ARRAY_NORMAL)) by exact Hcn.
    rewrite (decide_False (P := GENOTYPE_ARRAY_CHUNKED = GENOTYPE_ARRAY_DASK)) by exact Hcd.
    by rewrite decide_True.
  - reflexivity.
Qed.

End Factory.

Lemma genotype_array_wraps_call_data_witness :
  let group : gmap string calldata := {["GT" := [[[0; 1]]]; "genotype" := [[[1; 1]]]]} in
  @get_genotype_array demo_library {["calldata" := group]} 1
  = Ret (Some (GenotypeDaskArray [[[0; 1]]])).
Proof.
  intros group.
  destruct (@genotype_array_wraps_call_data demo_library {["calldata" := group]} group)
    as (_ & Hclass & _); [reflexivity | discriminate..|].
  destruct (Hclass [[[0; 1]]]) as (_ & Hdask & _); [reflexivity|].
  exact Hdask.
Defined.

(** *** The conversion section of a configuration file *)

Section ConfigConstructor.
Variable py_int : string -> option Z.

Lemma read_enabled_keeps (section : gmap string string)
    (self : config.VCFtoZarrConfigurationRepresentation) :
  let self' := config.read_enabled section self in
  config.compressor self' = config.compressor self
  /\ config.blosc_compression_algorithm self' = config.blosc_compression_algorithm self
  /\ config.blosc_compression_level self' = config.blosc_compression_level self
  /\ config.blosc_shuffle_mode self' = config.blosc_shuffle_mode self.
Proof. unfold config.read_enabled. by destruct (section !! "enabled"). Qed.

Lemma read_compressor_keeps (section : gmap string string)
    (self : config.VCFtoZarrConfigurationRepresentation) :
  let self' := config.read_compressor section self in
  (config.compressor self = "Blosc" -> config.compressor self' = "Blosc")
  /\ config.blosc_compression_algorithm self' = config.blosc_compression_algorithm self
  /\ config.blosc_compression_level self' = config.blosc_compression_level self
  /\ config.blosc_shuffle_mode self' = config.blosc_shuffle_mode self.
Proof.
  unfold config.read_compressor. destruct (section !! "compressor") as [k|]; [|done].
  destruct (bool_decide (k ∈ config.vcf_to_zarr_compressor_types)) eqn:Hk; [|done].
  apply bool_decide_eq_true in Hk. apply list_elem_of_singleton in Hk. by subst k.
Qed.

Lemma read_algorithm_keeps (section : gmap string string)
    (self : config.VCFtoZarrConfigurationRepresentation) :
  let self' := config.read_blosc_compression_algorithm section self in
  config.compressor self' = config.compressor self
  /\ config.blosc_compression_algorithm self'
     = match section !! "blosc_compression_algorithm" with
       | Some a =>
           if bool_decide (a ∈ config.vcf_to_zarr_blosc_algorithm_types)
           then a else config.blosc_compression_algorithm self
       | None => config.blosc_compression_algorithm self
       end
  /\ config.blosc_compression_level self' = config.blosc_compression_level self
  /\ config.blosc_shuffle_mode self' = config.blosc_shuffle_mode self.
Proof.
  unfold config.read_blosc_compression_algorithm.
  destruct (section !! "blosc_compression_algorithm") as [a|]; [|done].
  by destruct (bool_decide (a ∈ config.vcf_to_zarr_blosc_algorithm_types)).
Qed.

Lemma read_level_keeps (section : gmap string string)
    (self : config.VCFtoZarrConfigurationRepresentation) :
  let self' := config.read_blosc_compression_level py_int section self in
  config.compressor self' = config.compressor self
  /\ config.blosc_compression_algorithm self' = config.blosc_compression_algorithm self
  /\ config.blosc_compression_level self'
     = match section !! "blosc_compression_level" with
       | Some v =>
           match py_int v with
           | Some n => if (0 <=? n) && (n <=? 9) then n
                       else config.blosc_compression_level self
           | None => config.blosc_compression_level self
           end
       | None => config.blosc_compression_level self
       end
  /\ config.blosc_shuffle_mode self' = config.blosc_shuffle_mode self.
Proof.
  unfold config.read_blosc_compression_level.
  destruct (section !! "blosc_compression_level") as [v|]; [|done].
  destruct (py_int v) as [n|]; [|done]. by destruct ((0 <=? n) && (n <=? 9)).
Qed.

Lemma read_shuffle_keeps (section : gmap string string)
    (self : config.VCFtoZarrConfigurationRepresentation) :
  let self' := config.read_blosc_shuffle_mode py_int section self in
  config.compressor self' = config.compressor self
  /\ config.blosc_compression_algorithm self' = config.blosc_compression_algorithm self
  /\ config.blosc_compression_level self' = config.blosc_compression_level self
  /\ config.blosc_shuffle_mode self'
     = match section !! "blosc_shuffle_mode" with
       | Some v =>
           match py_int v with
           | Some z => if bool_decide (z ∈ config.vcf_to_zarr_blosc_shuffle_types) then z
                       else config.blosc_shuffle_mode self
           | None => config.blosc_shuffle_mode self
           end
       | None => config.blosc_shuffle_mode self
       end.
Proof.
  unfold config.read_blosc_shuffle_mode.
  destruct (section !! "blosc_shuffle_mode") as [v|]; [|done].
  destruct (py_int v) as [z|]; [|done].
  by destruct (bool_decide (z ∈ config.vcf_to_zarr_blosc_shuffle_types)).
Qed.

(** What the constructor leaves in each validated attribute. *)
Lemma constructor_fields (rc : config.ConfigurationRepresentation)
    (section : gmap string string) :
  rc !! "vcf_to_zarr" = Some section ->
  let c := config.VCFtoZarrConfigurationRepresentation_init py_int (Some rc) in
  config.compressor c = "Blosc"
  /\ config.blosc_compression_algorithm c
     = match section !! "blosc_compression_algorithm" with
       | Some a =>
           if bool_decide (a ∈ config.vcf_to_zarr_blosc_algorithm_types) then a else "zstd"
       | None => "zstd"
       end
  /\ config.blosc_compression_level c
     = match section !! "blosc_compression_level" with
       | Some l =>
           match py_int l with
           | Some n => if (0 <=? n) && (n <=? 9) then n else 1
           | None => 1
           end
       | None => 1
       end
  /\ config.blosc_shuffle_mode c
     = match section !! "blosc_shuffle_mode" with
       | Some m =>
           match py_int m with
           | Some z =>
               if bool_decide (z ∈ config.vcf_to_zarr_blosc_shuffle_types) then z else -1
           | None => -1
           end
       | None => -1
       end.
Proof.
  intros Hsec c. subst c. unfold config.VCFtoZarrConfigurationRepresentation_init.
  rewrite Hsec.
  set (c1 := config.read_enabled section config.class_defaults).
  set (c2 := config.read_compressor section c1).
  set (c3 := config.read_blosc_compression_algorithm section c2).
  set (c4 := config.read_blosc_compression_level py_int section c3).
  destruct (read_enabled_keeps section config.class_defaults) as (Hk1 & Ha1 & Hl1 & Hs1).
  destruct (read_compressor_keeps section c1) as (Hk2 & Ha2 & Hl2 & Hs2).
  destruct (read_algorithm_keeps section c2) as (Hk3 & Ha3 & Hl3 & Hs3).
  destruct (read_level_keeps section c3) as (Hk4 & Ha4 & Hl4 & Hs4).
  destruct (read_shuffle_keeps section c4) as (Hk5 & Ha5 & Hl5 & Hs5).
  fold c1 in Hk1, Ha1, Hl1, Hs1. fold c2 in Hk2, Ha2, Hl2, Hs2.
  fold c3 in Hk3, Ha3, Hl3, Hs3. fold c4 in Hk4, Ha4, Hl4, Hs4.
  split; [rewrite Hk5, Hk4, Hk3; apply Hk2; by rewrite Hk1|].
  split; [by rewrite Ha5, Ha4, Ha3, Ha2, Ha1|].
  split; [by rewrite Hl5, Hl4, Hl3, Hl2, Hl1|].
  by rewrite Hs5, Hs4, Hs3, Hs2, Hs1.
Qed.

Lemma constructor_compressor
    (runtime_config : option config.ConfigurationRepresentation) :
  config.compressor (config.VCFtoZarrConfigurationRepresentation_init py_int runtime_config)
  = "Blosc".
Proof.
  destruct runtime_config as [rc|]; [|reflexivity].
  destruct (rc !! "vcf_to_zarr") as [section|] eqn:Hsec.
  - apply (constructor_fields rc section Hsec).
  - unfold config.VCFtoZarrConfigurationRepresentation_init. by rewrite Hsec.
Qed.

(** X15.  Whatever the configuration file holds, and however [int] reads its
    numbers, the constructed object is valid: the compressor is "Blosc",
    the algorithm is one of the six known ones, the level lies between 0
    and 9 and the shuffle mode is one of the four Blosc modes.  A value
    that differs from its default was supplied by the file's section. *)
Theorem constructor_yields_valid_configuration
    (runtime_config : option config.ConfigurationRepresentation) :
  let c := config.VCFtoZarrConfigurationRepresentation_init py_int runtime_config in
  config.compressor c = "Blosc"
  /\ config.blosc_compression_algorithm c ∈ config.vcf_to_zarr_blosc_algorithm_types
  /\ 0 <= config.blosc_compression_level c <= 9
  /\ config.blosc_shuffle_mode c ∈ config.vcf_to_zarr_blosc_shuffle_types
  /\ (config.blosc_compression_algorithm c <> "zstd" ->
      exists rc section, runtime_config = Some rc /\ rc !! "vcf_to_zarr" = Some section
        /\ section !! "blosc_compression_algorithm"
           = Some (config.blosc_compression_algorithm c))
  /\ (config.blosc_compression_level c <> 1 ->
      exists rc section v, runtime_config = Some rc /\ rc !! "vcf_to_zarr" = Some section
        /\ section !! "blosc_compression_level" = Some v
        /\ py_int v = Some (config.blosc_compression_level c))
  /\ (config.blosc_shuffle_mode c <> -1 ->
      exists rc section v, runtime_config = Some rc /\ rc !! "vcf_to_zarr" = Some section
        /\ section !! "blosc_shuffle_mode" = Some v
        /\ py_int v = Some (config.blosc_shuffle_mode c)).
Proof.
  intros c. subst c.
  assert (Hzstd : "zstd" ∈ config.vcf_to_zarr_blosc_algorithm_types) by left.
  assert (Hauto : -1 ∈ config.vcf_to_zarr_blosc_shuffle_types)
    by (do 3 right; left).
  destruct runtime_config as [rc|]; [|cbn; repeat split; (done || lia)].
  destruct (rc !! "vcf_to_zarr") as [section|] eqn:Hsec.
  2:{ unfold config.VCFtoZarrConfigurationRepresentation_init. rewrite Hsec.
      cbn. repeat split; (done || lia). }
  destruct (constructor_fields rc section Hsec) as (Hk & Ha & Hl & Hs).
  rewrite Hk, Ha, Hl, Hs. clear Hk Ha Hl Hs.
  split; [reflexivity|].
  split.
  { destruct (section !! "blosc_compression_algorithm") as [a|]; [|exact Hzstd].
    destruct (bool_decide (a ∈ config.vcf_to_zarr_blosc_algorithm_types)) eqn:Hin;
      [|exact Hzstd].
    by apply bool_decide_eq_true in Hin. }
  split.
  { destruct (section !! "blosc_compression_level") as [l|]; [|lia].
    destruct (py_int l) as [n|]; [|lia].
    destruct ((0 <=? n) && (n <=? 9)) eqn:Hr; [|lia].
    apply andb_true_iff in Hr as [?%Z.leb_le ?%Z.leb_le]. lia. }
  split.
  { destruct (section !! "blosc_shuffle_mode") as [m|]; [|exact Hauto].
    destruct (py_int m) as [z|]; [|exact Hauto].
    destruct (bool_decide (z ∈ config.vcf_to_zarr_blosc_shuffle_types)) eqn:Hs;
      [|exact Hauto].
    by apply bool_decide_eq_true in Hs. }
  split.
  { intros Hne. exists rc, section. split; [reflexivity|]. split; [exact Hsec|].
    destruct (section !! "blosc_compression_algorithm") as [a|]; [|done].
    by destruct (bool_decide (a ∈ config.vcf_to_zarr_blosc_algorithm_types)). }
  split.
  { intros Hne. exists rc, section.
    destruct (section !! "blosc_compression_level") as [l|]; [|done]. exists l.
    split; [reflexivity|]. split; [exact Hsec|]. split; [reflexivity|].
    destruct (py_int l) as [n|]; [|done].
    by destruct ((0 <=? n) && (n <=? 9)). }
  intros Hne. exists rc, section.
  destruct (section !! "blosc_shuffle_mode") as [m|]; [|done]. exists m.
  split; [reflexivity|]. split; [exact Hsec|]. split; [reflexivity|].
  destruct (py_int m) as [z|]; [|done].
  by destruct (bool_decide (z ∈ config.vcf_to_zarr_blosc_shuffle_types)).
Qed.

End ConfigConstructor.

(** X16.  The conversion never meets an unsupported compressor in a
    configuration that the constructor built: whatever the file holds and
    whatever geometry is added, [convert_to_zarr] does not raise its
    compressor error. *)
Theorem constructed_configuration_has_supported_compressor `{Library}
    (py_int : string -> option Z)
    (runtime_config : option config.ConfigurationRepresentation)
    (fs : option (list string)) (alt clen cwid : option Z)
    (input output : string) (bp : option BenchmarkProfiler) (w : World) :
  (convert_to_zarr input output
     (Some (as_conversion_config fs alt clen cwid
              (config.VCFtoZarrConfigurationRepresentation_init py_int runtime_config)))
     (bp, w)).1
  <> Raise compressor_error.
Proof.
  set (c := as_conversion_config _ _ _ _ _).
  assert (Hc : compressor c = "Blosc") by apply constructor_compressor.
  assert (Hconv : forall mx bp0 w0,
            wp (convert_with_alt_number input output c mx)
               (fun o _ => o <> Raise compressor_error) (bp0, w0)).
  { intros mx bp0 w0. eapply wp_mono; [apply wp_convert_with_alt_number|].
    intros o s' (_ & Hpost). rewrite bool_decide_eq_true_2 in Hpost by exact Hc.
    apply Hpost. }
  change (wp (convert_to_zarr input output (Some c))
            (fun o _ => o <> Raise compressor_error) (bp, w)).
  unfold convert_to_zarr. apply wp_bind.
  destruct (alt_number c) as [a|].
  - apply wp_bind, wp_print, wp_ret. apply Hconv.
  - eapply wp_mono; [apply wp_scan_alt_number|].
    intros [mx|e|code] [bp1 w1] (_ & _ & _ & Hpost); cbn [fst snd] in *.
    + apply Hconv.
    + intros [= ->]. by destruct Hpost.
    + discriminate.
Qed.

(** *** The pruning loop and the console *)

Section LdPruneReports.
Context `{Library}.

Lemma ld_prune_round_world (size step : Z) (threshold : Q) (n_iter : nat) (blen : Z)
    (gn : list (list Z)) (i : nat) (w : World) :
  exists line,
    ld_prune_round size step threshold n_iter blen gn i w
    = (Ret (compress (locate_unlinked gn size step threshold blen) gn),
       emit (EvPrint line) w).
Proof. unfold ld_prune_round, bind, print, modify, ret. cbn. eauto. Qed.

Lemma ld_prune_loop_world (size step : Z) (threshold : Q) (n_iter : nat) (blen : Z)
    (rounds : list nat) (gn : list (list Z)) (w : World) :
  exists gn' lines,
    ld_prune_loop size step threshold n_iter blen rounds gn w
    = (Ret gn', foldl (fun w0 line => emit (EvPrint line) w0) w lines)
    /\ length lines = length rounds.
Proof.
  revert gn w. induction rounds as [|i rounds IH]; intros gn w.
  - exists gn, []. split; reflexivity.
  - cbn [ld_prune_loop]. unfold bind.
    destruct (ld_prune_round_world size step threshold n_iter blen gn i w) as [line ->].
    destruct (IH (compress (locate_unlinked gn size step threshold blen) gn)
                (emit (EvPrint line) w)) as (gn' & lines & -> & Hlen).
    exists gn', (line :: lines). split; [reflexivity|]. cbn. by rewrite Hlen.
Qed.

Lemma foldl_emit_print (lines : list string) (w : World) :
  let w' := foldl (fun w0 line => emit (EvPrint line) w0) w lines in
  printed w' = printed w ++ lines
  /\ lib_calls (trace w') = lib_calls (trace w)
  /\ logs w' = logs w /\ vcfs w' = vcfs w /\ zarrs w' = zarrs w
  /\ written w' = written w /\ clock_reads w' = clock_reads w
  /\ draw_reads w' = draw_reads w.
Proof.
  revert w. induction lines as [|line lines IH]; intros w; cbn [foldl].
  - cbn. rewrite app_nil_r. done.
  - destruct (IH (emit (EvPrint line) w)) as (Hp & Hc & Hl & Hv & Hz & Hw & Hr & Hd).
    cbn zeta. rewrite Hp, Hc, Hl, Hv, Hz, Hw, Hr, Hd, printed_emit_print.
    rewrite <- app_assoc. split; [reflexivity|]. split; [|done].
    unfold emit. cbn [trace]. by rewrite lib_calls_snoc, app_nil_r.
Qed.


Lemma sublist_same_length {A} (l1 l2 : list A) :
  sublist l1 l2 -> length l1 = length l2 -> l1 = l2.
Proof.
  induction 1 as [|x l1 l2 Hsub IH|x l1 l2 Hsub IH]; cbn; intros Hlen.
  - reflexivity.
  - f_equal. apply IH. lia.
  - apply sublist_length in Hsub. lia.
Qed.

Lemma ld_prune_loop_stable (size step : Z) (threshold : Q) (n_iter : nat) (blen : Z)
    (rounds : list nat) (gn : list (list Z)) (w : World) :
  compress (locate_unlinked gn size step threshold blen) gn = gn ->
  (ld_prune_loop size step threshold n_iter blen rounds gn w).1 = Ret gn.
Proof.
  intros Hfix. revert w. induction rounds as [|i rounds IH]; intros w; [reflexivity|].
  cbn [ld_prune_loop]. unfold bind.
  destruct (ld_prune_round_world size step threshold n_iter blen gn i w) as [line ->].
  rewrite Hfix. apply IH.
Qed.

(** X18.  Once an iteration removes no variant, no later iteration does: the
    result of the whole pruning is the matrix that this iteration was
    given. *)
Theorem ld_prune_stops_changing
    (gn gn_i : list (list Z)) (size step : Z) (threshold : Q) (n_iter i : nat)
    (w w_i : World) :
  (i <= n_iter)%nat ->
  ld_prune_loop size step threshold n_iter (size * 10) (seq 0 i) gn w = (Ret gn_i, w_i) ->
  length (compress (locate_unlinked gn_i size step threshold (size * 10)) gn_i)
  = length gn_i ->
  (_pca_ld_prune gn size step threshold n_iter w).1 = Ret gn_i.
Proof.
  intros Hi Hrun Hlen. unfold _pca_ld_prune.
  replace n_iter with (i + (n_iter - i))%nat at 2 by lia.
  rewrite seq_app, ld_prune_loop_app. unfold bind. rewrite Hrun.
  apply ld_prune_loop_stable.
  apply sublist_same_length; [apply compress_sublist | exact Hlen].
Qed.

End LdPruneReports.

Lemma ld_prune_stops_changing_witness :
  (@_pca_ld_prune demo_library [[0; 1]; [0; 1]; [2; 1]; [2; 1]; [0; 0]] 20 10 (1 # 10) 5
     empty_world).1
  = Ret [[0; 1]; [2; 1]; [0; 0]].
Proof.
  eapply (@ld_prune_stops_changing demo_library _ _ 20 10 (1 # 10) 5 1 empty_world);
    [lia | vm_compute; reflexivity | vm_compute; reflexivity].
Defined.

(** *** The file list of the FTP section *)

Lemma split_from_skip (sep skipped rest : string) :
  config.split_from sep (String.length skipped) (skipped +:+ rest)
  = config.split_from sep 0 rest.
Proof. induction skipped as [|a skipped IH]; cbn; [reflexivity | exact IH]. Qed.

Lemma py_join_cons (sep piece : string) (pieces : list string) :
  pieces <> [] ->
  config.py_join sep (piece :: pieces) = piece +:+ sep +:+ config.py_join sep pieces.
Proof. by destruct pieces. Qed.

Lemma py_join_push (sep : string) (a : Ascii.ascii) (piece : string) (pieces : list string) :
  config.py_join sep (String a piece :: pieces)
  = String a (config.py_join sep (piece :: pieces)).
Proof. by destruct pieces. Qed.

(** Splitting at a separator that is not empty gives at least one piece,
    and joining the pieces with the separator gives the text back. *)
Lemma split_from_join (sep : string) (n : nat) (text : string) :
  sep <> "" -> (String.length text <= n)%nat ->
  config.split_from sep 0 text <> []
  /\ config.py_join sep (config.split_from sep 0 text) = text.
Proof.
  intros Hsep. revert text. induction n as [|n IH]; intros text Hlen.
  - destruct text; [|cbn in Hlen; lia]. by split.
  - destruct text as [|a rest]; [by split|]. cbn [config.split_from].
    cbn [String.length] in Hlen.
    destruct (String.prefix sep (String a rest)) eqn:Hp.
    + apply prefix_split in Hp as [r Hr].
      destruct sep as [|b sep']; [done|].
      change (String b sep' +:+ r) with (String b (sep' +:+ r)) in Hr.
      injection Hr as -> ->.
      replace (String.length (String b sep') - 1)%nat with (String.length sep')
        by (cbn [String.length]; lia).
      rewrite split_from_skip.
      rewrite length_string_app in Hlen.
      destruct (IH r ltac:(lia)) as [Hne Hjoin]. split; [done|].
      rewrite py_join_cons by exact Hne. by rewrite Hjoin.
    + destruct (IH rest ltac:(lia)) as [Hne Hjoin].
      destruct (config.split_from sep 0 rest) as [|piece pieces]; [done|].
      split; [done|]. by rewrite py_join_push, Hjoin.
Qed.

(** X19.  The constructor reads the [files] option of the [ftp] section with the
    section's delimiter, "|" when none is given.  The text "*" stands for
    the empty list.  Any other text gives a list that is never empty (the
    empty text gives the one file [""]) and whose entries, joined by the
    delimiter, give the text back; and with an empty delimiter the
    constructor raises [ValueError]. *)
Theorem ftp_files_from_delimited_text
    (rc : config.ConfigurationRepresentation) (section : gmap string string)
    (text : string) :
  rc !! "ftp" = Some section ->
  section !! "files" = Some text ->
  let delimiter := default "|" (section !! "file_delimiter") in
  let made := config.FTPConfigurationRepresentation_init (Some rc) in
  (text = "*" -> exists c, made = Ret c /\ config.ftp_files c = [])
  /\ (text <> "*" -> delimiter <> "" ->
      exists c, made = Ret c
        /\ config.ftp_files c <> []
        /\ config.py_join delimiter (config.ftp_files c) = text
        /\ (text = "" -> config.ftp_files c = [""]))
  /\ (text <> "*" -> delimiter = "" -> made = Raise (ValueError "empty separator")).
Proof.
  intros Hsec Hfiles delimiter made. subst made.
  unfold config.FTPConfigurationRepresentation_init. rewrite Hsec. cbn zeta.
  rewrite Hfiles.
  change (match section !! "file_delimiter" with Some d => d | None => "|" end)
    with delimiter.
  split; [|split].
  - intros ->. rewrite bool_decide_eq_true_2 by reflexivity. eexists. by split.
  - intros Hstar Hdel. rewrite bool_decide_eq_false_2 by exact Hstar.
    unfold config.py_split. rewrite bool_decide_eq_false_2 by exact Hdel.
    destruct (split_from_join delimiter (String.length text) text Hdel (le_n _))
      as [Hne Hjoin].
    eexists. split; [reflexivity|]. cbn [config.ftp_files].
    split; [exact Hne|]. split; [exact Hjoin|]. by intros ->.
  - intros Hstar Hdel. rewrite bool_decide_eq_false_2 by exact Hstar.
    unfold config.py_split. by rewrite bool_decide_eq_true_2.
Qed.

Lemma ftp_files_from_delimited_text_witness :
  exists c,
    config.FTPConfigurationRepresentation_init
      (Some {["ftp" := {["files" := "a.vcf|b.vcf.gz"; "server" := "ftp.example.org"]}]})
    = Ret c
    /\ config.ftp_files c = ["a.vcf"; "b.vcf.gz"].
Proof.
  destruct (ftp_files_from_delimited_text
              {["ftp" := {["files" := "a.vcf|b.vcf.gz"; "server" := "ftp.example.org"]}]}
              {["files" := "a.vcf|b.vcf.gz"; "server" := "ftp.example.org"]}
              "a.vcf|b.vcf.gz") as (_ & Hlist & _); [vm_compute; reflexivity..|].
  destruct Hlist as (c & Hmade & _); [discriminate..|].
  exists c. split; [exact Hmade|].
  vm_compute in Hmade. injection Hmade as <-. reflexivity.
Defined.

(** *** A session in "vcf" mode without a conversion configuration *)

Lemma under_join (dir name : string) :
  dir <> "" -> String.prefix "/" name = false ->
  under dir (os_path_join dir name) = true
  /\ forall k, under (os_path_join dir name) k = true -> under dir k = true.
Proof.
  intros Hdir Hname. unfold under, os_path_join. rewrite Hname.
  rewrite !(bool_decide_eq_false_2 (dir = "")) by exact Hdir. cbn [negb andb orb].
  set (dir' := if String.prefix "/" (String.rev dir) then dir else dir +:+ "/").
  assert (Hjoin : (if String.prefix "/" (String.rev dir) then dir +:+ name
                   else dir +:+ "/" +:+ name) = dir' +:+ name).
  { subst dir'. destruct (String.prefix "/" (String.rev dir)); [reflexivity|].
    by rewrite string_app_assoc. }
  rewrite Hjoin. split; [apply prefix_app|].
  intros k [_ Hk]%andb_true_iff.
  eapply prefix_trans; [|exact Hk].
  destruct (String.prefix "/" (String.rev (dir' +:+ name))).
  - apply prefix_app.
  - rewrite string_app_assoc. apply prefix_app.
Qed.

Lemma isdir_nothing_under (w : World) (dir p : string) :
  (forall k, under dir k = true -> zarrs w !! k = None) ->
  under dir p = true ->
  (forall k, under p k = true -> under dir k = true) ->
  os_path_isdir w p = false.
Proof.
  intros Hnone Hp Hunder. unfold os_path_isdir.
  destruct (negb (bool_decide (p = ""))); [cbn [andb]|done].
  apply orb_false_iff. split; apply bool_decide_eq_false.
  - intros [cs Hcs]. by rewrite Hnone in Hcs.
  - intros (k & Hk & Hu)%Exists_exists.
    apply elem_of_elements, elem_of_dom in Hk as [cs Hcs].
    rewrite Hnone in Hcs; [done|]. by apply Hunder.
Qed.

Section WithoutConversion.
Context `{Library}.
Variable bc : BenchmarkConfigurationRepresentation.
Variable dd : DataDirectoriesConfigurationRepresentation.

(** X20.  In "vcf" mode with no conversion configuration nothing is converted,
    while the working directory has been cleared: the session finds no
    data set to load and ends in its first run with exit status 1, and
    this whatever the working directory held before.  (The source file
    exists outside the working directory, which has a name, and the data
    set's name is not an absolute path.) *)
Theorem vcf_mode_without_conversion_exits (self : Benchmark) (w : World) :
  bench_conf self = Some bc -> data_dirs self = Some dd ->
  benchmark_data_input bc = "vcf" ->
  vcf_to_zarr_config bc = None ->
  benchmark_number_runs bc <> 0%nat ->
  zarr_dir_benchmark dd <> "" ->
  String.prefix "/" (py_drop_last 4 (benchmark_dataset bc)) = false ->
  os_path_isfile w (os_path_join (vcf_dir dd) (benchmark_dataset bc)) = true ->
  under (zarr_dir_benchmark dd) (os_path_join (vcf_dir dd) (benchmark_dataset bc)) = false ->
  exists self' w',
    run_benchmark (self, w) = (Exit 1, (self', w'))
    /\ printed w'
       = printed w
         ++ ["[Exec] Error: Zarr dataset could not be found for benchmarking.";
             "  - Zarr dataset location: "
             +:+ os_path_join (zarr_dir_benchmark dd)
                   (py_drop_last 4 (benchmark_dataset bc))]
    /\ written w' = written w
    /\ lib_calls (trace w') = lib_calls (trace w).
Proof.
  intros Hbc Hdd Hmode Hnone Hruns Hdir Hname Hfile Houtside.
  destruct (benchmark_number_runs bc) as [|n] eqn:Hn; [done|].
  rewrite (run_benchmark_first_run bc dd n) by done.
  destruct (remove_directory_tree_clears (zarr_dir_benchmark dd) w)
    as (cleared & Hclr & Hgone & _).
  rewrite remove_directory_tree_run in Hclr. injection Hclr as <-.
  destruct (under_join (zarr_dir_benchmark dd) (py_drop_last 4 (benchmark_dataset bc))
              Hdir Hname) as [Hp Hunder].
  pose proof (isdir_nothing_under _ _ _ (fun k Hk => Hgone k Hdir (or_intror Hk))
                Hp Hunder) as Hdir'.
  assert (Hfile' : os_path_isfile (shutil_rmtree (zarr_dir_benchmark dd) w)
                     (os_path_join (vcf_dir dd) (benchmark_dataset bc)) = true).
  { unfold shutil_rmtree. destruct (os_path_isdir w (zarr_dir_benchmark dd)); [|exact Hfile].
    unfold os_path_isfile in *. cbn [logs vcfs].
    apply orb_true_iff in Hfile as [Hl|Hv]; apply orb_true_iff; [left|right];
      apply bool_decide_eq_true; apply bool_decide_eq_true in Hl || apply bool_decide_eq_true in Hv.
    - destruct Hl as [x Hx]. exists x. by apply map_lookup_filter_Some.
    - destruct Hv as [x Hx]. exists x. by apply map_lookup_filter_Some. }
  destruct (shutil_rmtree_same_outside (zarr_dir_benchmark dd) w)
    as (Ht & Hw & _ & Hc & _).
  assert (Hpr : printed (shutil_rmtree (zarr_dir_benchmark dd) w) = printed w)
    by (unfold printed; by rewrite Ht).
  clear Hgone. revert Hdir' Hfile' Ht Hw Hc Hpr.
  generalize (shutil_rmtree (zarr_dir_benchmark dd) w).
  intros c Hdir' Hfile' Ht Hw Hc Hpr.
  unfold bind at 1. unfold run_after_clear. unfold bind at 1.
  destruct (set_run_number_run 1 self c) as (p' & ->).
  destruct self as [zd zf obc odd label prof]. cbn in Hbc, Hdd. subst obc odd.
  unfold _benchmark_convert_to_zarr, the_bench_conf, the_data_dirs, convert_to_zarr,
    bind, gets, ret, exit, on_self, on_world, zoom, modify, print.
  cbn [fst snd bench_conf data_dirs set_benchmark_profiler set_benchmark_zarr_dir
       set_benchmark_zarr_file benchmark_zarr_dir benchmark_zarr_file benchmark_profiler].
  rewrite (bool_decide_eq_true_2 (benchmark_data_input bc = "vcf")) by exact Hmode.
  cbn [fst snd bench_conf data_dirs set_benchmark_profiler set_benchmark_zarr_dir
       set_benchmark_zarr_file benchmark_zarr_dir benchmark_zarr_file benchmark_profiler].
  rewrite Hfile', Hnone.
  cbn [fst snd bench_conf data_dirs set_benchmark_profiler set_benchmark_zarr_dir
       set_benchmark_zarr_file benchmark_zarr_dir benchmark_zarr_file benchmark_profiler].
  rewrite Hdir', andb_false_r.
  eexists _, _. split; [reflexivity|]. cbn [snd].
  rewrite !printed_emit_print. cbn [written trace emit]. rewrite Hpr, Hw, Ht.
  split; [by rewrite <- !app_assoc|]. split; [done|].
  rewrite <- !app_assoc. unfold lib_calls. rewrite filter_app. cbn. by rewrite app_nil_r.
Qed.

End WithoutConversion.

Lemma vcf_mode_without_conversion_exits_witness :
  os_path_isdir stale_world "zarr_bench/sample" = true
  /\ exists self' w',
       @run_benchmark demo_library
         (@Benchmark_init demo_library (Some bare_bench_conf) (Some demo_dirs) "bench",
          stale_world)
       = (Exit 1, (self', w'))
       /\ printed w'
          = ["[Exec] Error: Zarr dataset could not be found for benchmarking.";
             "  - Zarr dataset location: zarr_bench/sample"].
Proof.
  split; [vm_compute; reflexivity|].
  destruct (@vcf_mode_without_conversion_exits demo_library bare_bench_conf demo_dirs
              (@Benchmark_init demo_library (Some bare_bench_conf) (Some demo_dirs) "bench")
              stale_world eq_refl eq_refl eq_refl eq_refl)
    as (self' & w' & Hrun & Hp & _);
    [discriminate | discriminate | vm_compute; reflexivity..|].
  exists self', w'. split; [exact Hrun | exact Hp].
Defined.

(** *** Heads and leaves of paths *)

Lemma rfind_sep_from_free (t : string) (pos found : nat) :
  sep_free t = true -> rfind_sep_from t pos found = found.
Proof.
  revert pos found. induction t as [|a t IH]; intros pos found Hfree; [reflexivity|].
  cbn in *. apply andb_true_iff in Hfree as [Ha Ht].
  apply negb_true_iff in Ha. rewrite Ha. by apply IH.
Qed.

Lemma rfind_sep_from_shift (p : string) (pos found : nat) :
  sep_free p = false -> rfind_sep_from p pos found = (pos + rfind_sep_from p 0 0)%nat.
Proof.
  revert pos found. induction p as [|a p IH]; intros pos found Hsep; [discriminate|].
  cbn [rfind_sep_from]. destruct (sep_free p) eqn:Hp.
  - rewrite !rfind_sep_from_free by exact Hp.
    cbn in Hsep. rewrite Hp, andb_true_r in Hsep. apply negb_false_iff in Hsep.
    rewrite Hsep. lia.
  - rewrite (IH (S pos)), (IH 1%nat) by reflexivity. lia.
Qed.

(** A path falls into the part up to its last separator and a part
    without separators; [rfind] finds the border. *)
Lemma rfind_sep_end_cut (p : string) :
  exists h t,
    p = h +:+ t /\ sep_free t = true /\ rfind_sep_end p = String.length h
    /\ (h = "" \/ exists h', h = h' +:+ "/").
Proof.
  induction p as [|a p (h & t & Hp & Hfree & Hlen & Hend)].
  - exists "", "". repeat split; auto.
  - unfold rfind_sep_end in *. cbn [rfind_sep_from].
    destruct (sep_free p) eqn:Hsep.
    + rewrite rfind_sep_from_free by exact Hsep. destruct (is_sep a) eqn:Ha.
      * apply bool_decide_eq_true in Ha as ->.
        exists "/", p. split; [reflexivity|]. split; [exact Hsep|].
        split; [reflexivity|]. right. by exists "".
      * exists "", (String a p). split; [reflexivity|].
        split; [cbn; by rewrite Ha, Hsep|]. split; [reflexivity | by left].
    + rewrite rfind_sep_from_shift by exact Hsep. rewrite Hlen.
      exists (String a h), t. rewrite string_app_cons, <- Hp.
      split; [reflexivity|]. split; [exact Hfree|]. split; [reflexivity|].
      right. destruct Hend as [->|[h' ->]].
      * change ("" +:+ t) with t in Hp. subst p. congruence.
      * exists (String a h'). by rewrite string_app_cons.
Qed.

Lemma substring_all (s : string) : String.substring 0 (String.length s) s = s.
Proof. induction s as [|a s IH]; cbn; [reflexivity | by rewrite IH]. Qed.

Lemma slice_to_app (h t : string) : slice_to (String.length h) (h +:+ t) = h.
Proof.
  unfold slice_to. induction h as [|a h IH]; [by destruct t|].
  rewrite string_app_cons. cbn. by rewrite IH.
Qed.

Lemma slice_from_app (h t : string) : slice_from (String.length h) (h +:+ t) = t.
Proof.
  unfold slice_from. rewrite length_string_app.
  replace (String.length h + String.length t - String.length h)%nat
    with (String.length t) by lia.
  induction h as [|a h IH]; [apply substring_all|].
  rewrite string_app_cons. cbn. exact IH.
Qed.

Lemma basename_sep_free (p : string) : sep_free (os_path_basename p) = true.
Proof.
  unfold os_path_basename.
  destruct (rfind_sep_end_cut p) as (h & t & -> & Hfree & -> & _).
  by rewrite slice_from_app.
Qed.

(** X21.  [path_leaf] never returns a path: its result holds no separator. *)
Theorem path_leaf_has_no_separator (path : string) : sep_free (path_leaf path) = true.
Proof.
  unfold path_leaf, os_path_split. cbn [fst snd].
  destruct (rfind_sep_end_cut path) as (h & t & -> & Hfree & -> & _).
  rewrite slice_from_app.
  destruct (negb (bool_decide (t = ""))); [exact Hfree | apply basename_sep_free].
Qed.

Lemma rfind_sep_from_app (h t : string) (pos found : nat) :
  rfind_sep_from (h +:+ t) pos found
  = rfind_sep_from t (pos + String.length h) (rfind_sep_from h pos found).
Proof.
  revert pos found. induction h as [|a h IH]; intros pos found.
  - cbn. by rewrite Nat.add_0_r.
  - rewrite string_app_cons. cbn [rfind_sep_from String.length]. rewrite IH.
    f_equal. lia.
Qed.

Lemma rfind_sep_end_dir (d t : string) :
  sep_free t = true -> rfind_sep_end ((d +:+ "/") +:+ t) = String.length (d +:+ "/").
Proof.
  intros Hfree. unfold rfind_sep_end.
  rewrite rfind_sep_from_app, rfind_sep_from_free by exact Hfree.
  rewrite rfind_sep_from_app. cbn [rfind_sep_from]. unfold is_sep.
  rewrite bool_decide_eq_true_2 by reflexivity.
  rewrite length_string_app. cbn [String.length]. lia.
Qed.

Lemma rfind_sep_end_trailing (x : string) :
  rfind_sep_end (x +:+ "/") = String.length (x +:+ "/").
Proof.
  pose proof (rfind_sep_end_dir x "" eq_refl) as Hx.
  by rewrite string_app_nil_r in Hx.
Qed.

Lemma slice_to_all (s : string) : slice_to (String.length s) s = s.
Proof. pose proof (slice_to_app s "") as Hs. by rewrite string_app_nil_r in Hs. Qed.

Lemma slice_from_all (s : string) : slice_from (String.length s) s = "".
Proof. pose proof (slice_from_app s "") as Hs. by rewrite string_app_nil_r in Hs. Qed.

Lemma all_sep_app_sep (d : string) : all_sep (d +:+ "/") = all_sep d.
Proof.
  induction d as [|a d IH]; [reflexivity|].
  rewrite string_app_cons. cbn. by rewrite IH.
Qed.

Lemma all_sep_rstrip (s : string) : all_sep s = true -> rstrip_sep s = "".
Proof.
  induction s as [|a s IH]; [reflexivity|]. cbn.
  intros [Ha Hs]%andb_true_iff. by rewrite (IH Hs), Ha.
Qed.

Lemma rstrip_app_sep (d : string) : rstrip_sep (d +:+ "/") = rstrip_sep d.
Proof.
  induction d as [|a d IH]; [reflexivity|].
  rewrite string_app_cons. cbn. by rewrite IH.
Qed.

Lemma all_sep_app (x y : string) : all_sep (x +:+ y) = all_sep x && all_sep y.
Proof.
  induction x as [|a x IH]; [reflexivity|].
  rewrite string_app_cons. cbn. by rewrite IH, andb_assoc.
Qed.

Lemma sep_free_not_all_sep (name : string) :
  sep_free name = true -> name <> "" -> all_sep name = false.
Proof.
  destruct name as [|b name]; [done|]. cbn. intros [Hb _]%andb_true_iff _.
  apply negb_true_iff in Hb. by rewrite Hb.
Qed.

Lemma sep_free_rstrip (name : string) : sep_free name = true -> rstrip_sep name = name.
Proof.
  induction name as [|b name IH]; [reflexivity|]. cbn.
  intros [Hb Hn]%andb_true_iff. apply negb_true_iff in Hb.
  by rewrite Hb, andb_false_r, IH.
Qed.

Lemma rstrip_app_keep (x y : string) :
  rstrip_sep y = y -> y <> "" -> rstrip_sep (x +:+ y) = x +:+ y.
Proof.
  intros Hy Hne. induction x as [|a x IH]; [exact Hy|].
  rewrite string_app_cons. cbn. rewrite IH.
  rewrite bool_decide_eq_false_2; [reflexivity|]. destruct x; [exact Hne | done].
Qed.

(** X22.  For a file name [name] (not empty, without separator) in a directory
    [d]: the leaf of "d/name" is [name], with or without a trailing
    separator, so files of the same name in different directories have the
    same leaf; and the head is [d] when [d] is not empty and does not end
    in a separator. *)
Theorem path_leaf_of_file_in_directory (d name : string) :
  sep_free name = true -> name <> "" ->
  path_leaf name = name
  /\ path_leaf ((d +:+ "/") +:+ name) = name
  /\ path_leaf (((d +:+ "/") +:+ name) +:+ "/") = name
  /\ (d <> "" -> rstrip_sep d = d -> path_head ((d +:+ "/") +:+ name) = d).
Proof.
  intros Hfree Hne.
  assert (Hbare : forall n, sep_free n = true -> n <> "" -> path_leaf n = n).
  { intros n Hn Hnn. unfold path_leaf, os_path_split, rfind_sep_end.
    rewrite rfind_sep_from_free by exact Hn. cbn [fst snd].
    change (slice_from 0 n) with (slice_from (String.length "") ("" +:+ n)).
    rewrite slice_from_app. by rewrite bool_decide_eq_false_2. }
  assert (Hcut : forall x, slice_to (String.length (x +:+ "/")) ((x +:+ "/") +:+ name)
                           = x +:+ "/"
                           /\ slice_from (String.length (x +:+ "/")) ((x +:+ "/") +:+ name)
                              = name).
  { intros x. by rewrite slice_to_app, slice_from_app. }
  split; [by apply Hbare|]. split; [|split].
  - unfold path_leaf, os_path_split. cbn [fst snd].
    rewrite rfind_sep_end_dir by exact Hfree. destruct (Hcut d) as [_ ->].
    by rewrite bool_decide_eq_false_2.
  - unfold path_leaf, os_path_split. cbn [fst snd].
    rewrite rfind_sep_end_trailing, slice_from_all, slice_to_all.
    rewrite bool_decide_eq_true_2 by reflexivity. cbn [negb].
    rewrite all_sep_app_sep, all_sep_app, (sep_free_not_all_sep name) by done.
    rewrite andb_false_r. cbn [negb andb].
    rewrite bool_decide_eq_false_2; [|by destruct d]. cbn [negb andb].
    rewrite rstrip_app_sep.
    rewrite (rstrip_app_keep (d +:+ "/") name) by (by rewrite ?sep_free_rstrip).
    unfold os_path_basename.
    rewrite rfind_sep_end_dir by exact Hfree. by destruct (Hcut d) as [_ ->].
  - intros Hd Hstrip. unfold path_head, os_path_split. cbn [fst].
    rewrite rfind_sep_end_dir by exact Hfree. destruct (Hcut d) as [-> _].
    rewrite bool_decide_eq_false_2 by (by destruct d). cbn [negb andb].
    rewrite all_sep_app_sep.
    destruct (all_sep d) eqn:Hall.
    + apply all_sep_rstrip in Hall. congruence.
    + cbn [negb]. by rewrite rstrip_app_sep.
Qed.

Lemma path_leaf_of_file_in_directory_witness :
  path_leaf "input/sub/sample.vcf" = "sample.vcf"
  /\ path_head "input/sub/sample.vcf" = "input/sub".
Proof.
  destruct (path_leaf_of_file_in_directory "input/sub" "sample.vcf" eq_refl)
    as (_ & Hleaf & _ & Hhead); [discriminate|].
  split; [exact Hleaf|]. apply Hhead; [discriminate | reflexivity].
Defined.

(** *** What a session may touch *)

Lemma touches_only_refl (dir dest : string) (conv : bool) (w : World) :
  touches_only dir dest conv w w.
Proof. split; [intros p _; by split | done]. Qed.

Lemma touches_only_trans (dir dest : string) (conv : bool) (w1 w2 w3 : World) :
  touches_only dir dest conv w1 w2 -> touches_only dir dest conv w2 w3 ->
  touches_only dir dest conv w1 w3.
Proof.
  intros [Hd1 Hc1] [Hd2 Hc2]. split.
  - intros p Hu. destruct (Hd1 p Hu) as [Hv1 Hz1], (Hd2 p Hu) as [Hv2 Hz2].
    split; [congruence|]. intros Hne Hdest. rewrite Hz2, Hz1 by done. reflexivity.
  - intros Hconv. rewrite Hc2, Hc1 by done. reflexivity.
Qed.

Lemma data_same_touches_only (dir dest : string) (conv : bool) (w w' : World) :
  data_same w w' -> touches_only dir dest conv w w'.
Proof. intros (Hv & Hz & Hc). split; [intros p _; by rewrite Hv, Hz | done]. Qed.

Lemma data_same_print (line : string) (w : World) : data_same w (print line w).2.
Proof.
  repeat split. unfold print, modify, emit. cbn [snd trace].
  by rewrite lib_calls_snoc, app_nil_r.
Qed.

Lemma data_same_gets {A} (f : World -> A) (w : World) : data_same w (gets f w).2.
Proof. by repeat split. Qed.

Lemma data_same_zarr_open_group (path : string) (w : World) :
  data_same w (zarr_open_group path w).2.
Proof.
  unfold zarr_open_group, bind, gets. cbn. by destruct (zarrs w !! path).
Qed.

Lemma data_same_shuffle_from (i : nat) (x : list nat) (w : World) :
  data_same w (shuffle_from i x w).2.
Proof.
  revert x w. induction i as [|i IH]; intros x w; [by repeat split|].
  cbn [shuffle_from]. unfold bind, random_interval.
  match goal with
  | |- context [shuffle_from i ?y ?w1] => specialize (IH y w1)
  end.
  destruct (shuffle_from i _ _) as [[x'|e|c] w']; exact IH.
Qed.

Lemma data_same_random_choice (a size : nat) (w : World) :
  data_same w (random_choice a size w).2.
Proof.
  unfold random_choice. destruct (a <? size)%nat; [by repeat split|].
  unfold bind, random_permutation.
  pose proof (data_same_shuffle_from (a - 1) (seq 0 a) w) as Hs.
  by destruct (shuffle_from _ _ _) as [[x'|e|c] w'].
Qed.

Lemma data_same_time_time (w : World) : data_same w (time_time w).2.
Proof. by repeat split. Qed.

Lemma data_same_start_benchmark (op : string) (p : BenchmarkProfiler) (w : World) :
  data_same w (start_benchmark op (p, w)).2.2.
Proof.
  destruct (benchmark_running p) eqn:Hr.
  - rewrite start_benchmark_running by done. by repeat split.
  - rewrite start_benchmark_idle by done. by repeat split.
Qed.

Lemma data_same_set_run_number (n : nat) (p : BenchmarkProfiler) (w : World) :
  data_same w (set_run_number n (p, w)).2.2.
Proof.
  unfold set_run_number, bind, on_self, zoom, gets, modify. cbn.
  by destruct (benchmark_running p).
Qed.

Lemma data_same_end_benchmark (p : BenchmarkProfiler) (w : World) :
  data_same w (end_benchmark (p, w)).2.2.
Proof.
  destruct (benchmark_running p) eqn:Hr.
  - destruct (start_time (results p)) as [t0|] eqn:Ht.
    + rewrite (end_benchmark_running p w t0) by done.
      rewrite (record_runtime_run _ t0) by done. by repeat split.
    + unfold end_benchmark, bind, on_self, on_world, zoom, gets.
      cbn -[_record_runtime]. rewrite Hr. cbn -[_record_runtime]. rewrite Ht. cbn.
      by repeat split.
  - rewrite end_benchmark_idle by done. by repeat split.
Qed.

Section GuardedSteps.
Context `{Library}.
Variable bc : BenchmarkConfigurationRepresentation.
Variable dd : DataDirectoriesConfigurationRepresentation.
Variable w0 : World.

Lemma data_same_pca_ld_prune (gn : list (list Z)) (size step : Z) (threshold : Q)
    (n_iter : nat) (w : World) :
  data_same w (_pca_ld_prune gn size step threshold n_iter w).2.
Proof.
  unfold _pca_ld_prune.
  destruct (ld_prune_loop_world size step threshold n_iter (size * 10) (seq 0 n_iter) gn w)
    as (gn' & lines & -> & _).
  destruct (foldl_emit_print lines w) as (_ & Hc & _ & Hv & Hz & _). by repeat split.
Qed.

Lemma guarded_step (s s' : Benchmark * World) :
  guarded bc dd w0 s ->
  bench_conf s'.1 = bench_conf s.1 -> data_dirs s'.1 = data_dirs s.1 ->
  data_same s.2 s'.2 ->
  guarded bc dd w0 s'.
Proof.
  intros (Hbc & Hdd & Ht) Hb Hd Hsame. split; [congruence|]. split; [congruence|].
  eapply touches_only_trans; [exact Ht|]. by apply data_same_touches_only.
Qed.

Lemma wp_g_world {A} (m : M World A) (s : Benchmark * World) :
  (forall w, data_same w (m w).2) ->
  guarded bc dd w0 s ->
  wp (on_world m) (fun _ s' => guarded bc dd w0 s') s.
Proof.
  intros Hm Hg. unfold wp, on_world, zoom. cbn [fst snd].
  specialize (Hm s.2). destruct (m s.2) as [o w']. cbn [fst snd] in *.
  by apply (guarded_step s).
Qed.

Lemma wp_g_profiler {A} (m : M (BenchmarkProfiler * World) A) (s : Benchmark * World) :
  (forall p w, data_same w (m (p, w)).2.2) ->
  guarded bc dd w0 s ->
  wp (on_profiler m) (fun _ s' => guarded bc dd w0 s') s.
Proof.
  intros Hm Hg. destruct s as [self w]. unfold wp. rewrite on_profiler_run.
  cbn [fst snd]. apply (guarded_step (self, w)); [exact Hg | by destruct self..|].
  apply Hm.
Qed.

Lemma wp_g_modify (f : Benchmark -> Benchmark) (s : Benchmark * World) :
  (forall self, bench_conf (f self) = bench_conf self
                /\ data_dirs (f self) = data_dirs self) ->
  guarded bc dd w0 s ->
  wp (on_self (modify f)) (fun _ s' => guarded bc dd w0 s') s.
Proof.
  intros Hf Hg. destruct s as [self w]. unfold wp. cbn.
  destruct (Hf self) as [Hb Hd].
  apply (guarded_step (self, w)); [exact Hg | exact Hb | exact Hd | by repeat split].
Qed.

Lemma wp_g_bench_conf
    (P : outcome BenchmarkConfigurationRepresentation -> Benchmark * World -> Prop)
    (s : Benchmark * World) :
  guarded bc dd w0 s -> P (Ret bc) s -> wp the_bench_conf P s.
Proof.
  destruct s as [self w]. intros (Hbc & _) HP. unfold wp, the_bench_conf, bind, gets.
  cbn [fst snd] in *. rewrite Hbc. exact HP.
Qed.

Lemma wp_g_data_dirs
    (P : outcome DataDirectoriesConfigurationRepresentation -> Benchmark * World -> Prop)
    (s : Benchmark * World) :
  guarded bc dd w0 s -> P (Ret dd) s -> wp the_data_dirs P s.
Proof.
  destruct s as [self w]. intros (_ & Hdd & _) HP. unfold wp, the_data_dirs, bind, gets.
  cbn [fst snd] in *. rewrite Hdd. exact HP.
Qed.

End GuardedSteps.

(** One guarded step of a sequence, for every outcome. *)
Ltac g_next v :=
  let s := fresh "s" in let Hg := fresh "Hg" in
  intros [v|?|?] s Hg; [|exact Hg..].

Tactic Notation "g_world" uconstr(lem) "as" simple_intropattern(v) :=
  apply wp_bind; eapply wp_mono;
  [eapply wp_g_world; [intros ?; apply lem | eassumption]|];
  let s := fresh "s" in let Hg := fresh "Hg" in
  intros [v|?|?] s Hg; [|exact Hg..].

Ltac g_profiler lem :=
  apply wp_bind; eapply wp_mono;
  [eapply wp_g_profiler; [intros ? ?; apply lem | eassumption]|];
  let s := fresh "s" in let Hg := fresh "Hg" in
  intros [[]|?|?] s Hg; [|exact Hg..].

Ltac g_start := g_profiler data_same_start_benchmark.
Ltac g_end := g_profiler data_same_end_benchmark.

Ltac g_modify :=
  apply wp_bind; eapply wp_mono;
  [eapply wp_g_modify; [intros []; by split | eassumption]|];
  let s := fresh "s" in let Hg := fresh "Hg" in
  intros [[]|?|?] s Hg; [|exact Hg..].

Tactic Notation "g_outcome" "as" simple_intropattern(v) :=
  apply wp_bind, wp_lift_outcome;
  match goal with
  | |- match ?o with _ => _ end => destruct o as [v|?|?]; [|assumption..]
  end.

Ltac g_conf := apply wp_bind; eapply wp_g_bench_conf; [eassumption|]; cbn beta iota.
Ltac g_dirs := apply wp_bind; eapply wp_g_data_dirs; [eassumption|]; cbn beta iota.

Tactic Notation "g_call" uconstr(lem) "as" simple_intropattern(v) :=
  apply wp_bind; eapply wp_mono; [eapply lem; eassumption|];
  let s := fresh "s" in let Hg := fresh "Hg" in
  intros [v|?|?] s Hg; [|exact Hg..].

Section GuardedStages.
Context `{Library}.
Variable bc : BenchmarkConfigurationRepresentation.
Variable dd : DataDirectoriesConfigurationRepresentation.
Variable w0 : World.

Lemma load_zarr_dataset_guarded (zarr_path : string) (s : Benchmark * World) :
  guarded bc dd w0 s ->
  wp (_benchmark_load_zarr_dataset zarr_path) (fun _ s' => guarded bc dd w0 s') s.
Proof.
  intros Hg. unfold _benchmark_load_zarr_dataset.
  g_start. g_world data_same_zarr_open_group as cs. g_end. by apply wp_ret.
Qed.

Lemma create_genotype_array_guarded (cs : callset) (s : Benchmark * World) :
  guarded bc dd w0 s ->
  wp (_benchmark_create_genotype_array cs) (fun _ s' => guarded bc dd w0 s') s.
Proof.
  intros Hg. unfold _benchmark_create_genotype_array.
  g_conf. g_start. g_outcome as gt. g_end. by apply wp_ret.
Qed.

Lemma simple_aggregations_guarded (gt : GenotypeArrayHandle) (s : Benchmark * World) :
  guarded bc dd w0 s ->
  wp (_benchmark_simple_aggregations gt) (fun _ s' => guarded bc dd w0 s') s.
Proof.
  intros Hg. unfold _benchmark_simple_aggregations.
  g_start. g_outcome as r1. g_end.
  g_start. g_outcome as r2. g_end.
  g_start. g_outcome as r3. g_end.
  g_start. g_outcome as r4. g_end.
  g_start. g_outcome as r5.
  eapply wp_g_profiler; [intros ? ?; apply data_same_end_benchmark | eassumption].
Qed.

Lemma remove_singletons_guarded (gt : GenotypeArrayHandle) (ac : list (list Z))
    (s : Benchmark * World) :
  guarded bc dd w0 s ->
  wp (pca_remove_singletons gt ac) (fun _ s' => guarded bc dd w0 s') s.
Proof.
  intros Hg. unfold pca_remove_singletons.
  g_outcome as flt. g_start. apply wp_bind.
  destruct (0 <? count_nonzero flt)%nat.
  - apply wp_ret. g_end. by apply wp_ret.
  - g_world data_same_print as []. apply wp_ret. g_end. by apply wp_ret.
Qed.

Lemma subsample_guarded (gn : list (list Z)) (s : Benchmark * World) :
  guarded bc dd w0 s ->
  wp (pca_subsample gn) (fun _ s' => guarded bc dd w0 s') s.
Proof.
  intros Hg. unfold pca_subsample.
  g_conf. g_world data_same_random_choice as vidx. g_outcome as gnr. by apply wp_ret.
Qed.

Lemma benchmark_pca_guarded (gt : GenotypeArrayHandle) (s : Benchmark * World) :
  guarded bc dd w0 s ->
  wp (_benchmark_pca gt) (fun _ s' => guarded bc dd w0 s') s.
Proof.
  intros Hg. unfold _benchmark_pca.
  g_start. g_outcome as ac. g_end.
  g_start. g_end.
  g_start. g_outcome as singleton. g_end.
  g_call remove_singletons_guarded as gf.
  g_start. g_end.
  g_call subsample_guarded as sub.
  g_conf.
  apply wp_bind.
  eapply (wp_mono _ (fun _ s' => guarded bc dd w0 s')).
  { destruct (pca_ld_enabled bc);
      [destruct (negb (bool_decide (genotype_array_type bc = GENOTYPE_ARRAY_DASK)))|].
    - g_start. g_world data_same_pca_ld_prune as gnu. g_end. by apply wp_ret.
    - g_world data_same_print as []. by apply wp_ret.
    - g_world data_same_print as []. by apply wp_ret. }
  g_next gnu.
  g_start. g_end.
  g_start. g_outcome as r1. g_end.
  g_start. g_outcome as r2.
  eapply wp_g_profiler; [intros ? ?; apply data_same_end_benchmark | eassumption].
Qed.

End GuardedStages.

Section ConversionFrame.
Context `{Library}.

Lemma convert_with_alt_number_frame (input output : string)
    (c : VCFtoZarrConfigurationRepresentation) (mx : Z)
    (bp : option BenchmarkProfiler) (w : World) :
  wp (convert_with_alt_number input output c mx)
     (fun _ s' =>
        vcfs s'.2 = vcfs w
        /\ forall q, q <> output -> zarrs s'.2 !! q = zarrs w !! q)
     (bp, w).
Proof.
  unfold convert_with_alt_number.
  apply wp_bind, wp_print. apply wp_bind, wp_print. apply wp_bind, wp_print.
  apply wp_bind. destruct (bool_decide (compressor c = "Blosc")).
  - apply wp_ret.
    apply wp_bind, wp_when_start. intros bp1 w1 Ho1 Hq1.
    apply wp_bind, wp_vcf_to_zarr. cbn zeta.
    destruct (vcfs w1 !! input) as [vs|] eqn:Hfile.
    + apply wp_when_end. intros o2 bp2 w2 Ho2 Hr2 Ha2. outside.
      split; [congruence|]. intros q Hq.
      replace (zarrs w2) with (<[output := vcf_to_zarr_arrays (fields c)
                                  mx vs]> (zarrs w)) by (cbn in *; congruence).
      by apply lookup_insert_ne.
    + outside. split; [congruence|]. intros q _. congruence.
  - apply wp_raise. outside. by split.
Qed.

Lemma convert_to_zarr_frame (input output : string)
    (cfg : option VCFtoZarrConfigurationRepresentation)
    (bp : option BenchmarkProfiler) (w : World) :
  wp (convert_to_zarr input output cfg)
     (fun _ s' =>
        vcfs s'.2 = vcfs w
        /\ forall q, q <> output -> zarrs s'.2 !! q = zarrs w !! q)
     (bp, w).
Proof.
  unfold convert_to_zarr. destruct cfg as [c|]; [|by apply wp_ret].
  apply wp_bind. destruct (alt_number c) as [a|].
  - apply wp_bind, wp_print, wp_ret.
    eapply wp_mono; [apply convert_with_alt_number_frame|].
    intros o1 s1 (Hv & Hz). outside. by split.
  - eapply wp_mono; [apply wp_scan_alt_number|].
    intros [mx|e|code] [bp1 w1] (Hv1 & Hz1 & _ & Hpost1); cbn [fst snd] in *.
    + eapply wp_mono; [apply convert_with_alt_number_frame|].
      intros o2 s2 (Hv2 & Hz2). split; [congruence|].
      intros q Hq. rewrite Hz2 by done. by rewrite Hz1.
    + split; [done|]. intros q _. by rewrite Hz1.
    + destruct Hpost1.
Qed.

End ConversionFrame.

Section GuardedRun.
Context `{Library}.
Variable bc : BenchmarkConfigurationRepresentation.
Variable dd : DataDirectoriesConfigurationRepresentation.
Variable w0 : World.

Lemma benchmark_convert_to_zarr_guarded (s : Benchmark * World) :
  benchmark_data_input bc = "vcf" ->
  guarded bc dd w0 s ->
  wp _benchmark_convert_to_zarr (fun _ s' => guarded bc dd w0 s') s.
Proof.
  intros Hmode Hg. unfold _benchmark_convert_to_zarr.
  g_dirs. g_modify. g_conf. g_world data_same_gets as is_file.
  destruct is_file.
  - apply wp_bind.
    match goal with
    | Hcur : guarded _ _ _ ?s1 |- wp _ _ ?s1 =>
        destruct s1 as [self w]; destruct Hcur as (Hbc & Hdd & Ht)
    end.
    cbn [fst snd] in *.
    pose proof (convert_to_zarr_frame
                  (os_path_join (vcf_dir dd) (benchmark_dataset bc))
                  (os_path_join (zarr_dir_benchmark dd) (py_drop_last 4 (benchmark_dataset bc)))
                  (vcf_to_zarr_config bc) (Some (benchmark_profiler self)) w) as Hconv.
    unfold wp in Hconv. unfold wp at 1. unfold zoom. cbn [fst snd].
    destruct (convert_to_zarr _ _ _ _) as [o [bp' w']]. cbn [fst snd] in *.
    destruct Hconv as [Hv Hz].
    assert (Hg' : guarded bc dd w0
                    (match bp' with
                     | Some p => set_benchmark_profiler p self
                     | None => self
                     end, w')).
    { split; [by destruct bp', self|]. split; [by destruct bp', self|].
      cbn [snd]. eapply touches_only_trans; [exact Ht|].
      rewrite bool_decide_eq_true_2 by exact Hmode. split; [|done].
      intros p _. split; [by rewrite Hv|]. intros _ Hdest. apply Hz. by apply Hdest. }
    destruct o as [[]|e|code]; [|exact Hg'..].
    eapply wp_g_modify; [intros []; by split | exact Hg'].
  - g_world data_same_print as []. g_world data_same_print as [].
    g_world data_same_print as []. assumption.
Qed.

Lemma run_after_clear_guarded (run : nat) (s : Benchmark * World) :
  guarded bc dd w0 s ->
  wp (run_after_clear run) (fun _ s' => guarded bc dd w0 s') s.
Proof.
  intros Hg. unfold run_after_clear.
  g_profiler data_same_set_run_number. g_conf. g_dirs.
  apply wp_bind.
  eapply (wp_mono _ (fun _ s' => guarded bc dd w0 s')).
  { destruct (bool_decide (benchmark_data_input bc = "vcf")) eqn:Hvcf.
    - apply bool_decide_eq_true in Hvcf. g_modify.
      by apply benchmark_convert_to_zarr_guarded.
    - destruct (bool_decide (benchmark_data_input bc = "zarr")).
      + g_modify. eapply wp_g_modify; [intros []; by split | eassumption].
      + g_world data_same_print as []. g_world data_same_print as [].
        g_world data_same_print as []. assumption. }
  g_next u.
  apply wp_bind, wp_gets. cbn beta iota.
  g_world data_same_gets as is_dir.
  match goal with
  | |- wp (if ?c then _ else _) _ _ => destruct c
  end.
  - g_call load_zarr_dataset_guarded as cs.
    g_call create_genotype_array_guarded as gt.
    apply wp_bind.
    eapply (wp_mono _ (fun _ s' => guarded bc dd w0 s')).
    { destruct (benchmark_aggregations bc);
        [by apply simple_aggregations_guarded | by apply wp_ret]. }
    g_next u'.
    destruct (benchmark_pca bc); [by apply benchmark_pca_guarded | by apply wp_ret].
  - g_world data_same_print as []. g_world data_same_print as []. assumption.
Qed.

Lemma run_body_guarded (run : nat) (s : Benchmark * World) :
  guarded bc dd w0 s ->
  wp (run_body run) (fun _ s' => guarded bc dd w0 s') s.
Proof.
  intros Hg. unfold run_body. g_dirs.
  apply wp_bind.
  eapply (wp_mono _ (fun _ s' => guarded bc dd w0 s')).
  { destruct s as [self w]. destruct Hg as (Hbc & Hdd & Ht).
    unfold wp, on_world, zoom. cbn [fst snd] in *.
    rewrite remove_directory_tree_run. cbn [fst snd].
    split; [done|]. split; [done|]. cbn [snd].
    eapply touches_only_trans; [exact Ht|]. split.
    - intros p Hu. destruct (shutil_rmtree_outside (zarr_dir_benchmark dd) w p Hu)
        as (_ & Hv & Hz). split; [exact Hv|]. intros Hne _. by apply Hz.
    - intros _. destruct (shutil_rmtree_same_outside (zarr_dir_benchmark dd) w) as [-> _].
      reflexivity. }
  g_next u. by apply run_after_clear_guarded.
Qed.

Lemma run_loop_guarded (runs : list nat) (s : Benchmark * World) :
  guarded bc dd w0 s ->
  wp (for_each runs run_body) (fun _ s' => guarded bc dd w0 s') s.
Proof.
  revert s. induction runs as [|run runs IH]; intros s Hg; [by apply wp_ret|].
  cbn [for_each]. apply wp_bind.
  eapply wp_mono; [by apply run_body_guarded|].
  g_next u. by apply IH.
Qed.

End GuardedRun.

(** X23.  Whatever its outcome, a session leaves the data outside its working
    directory alone: no source file there is changed, created or removed,
    and no store other than the one at the working directory's own path
    and, in "vcf" mode, the destination of the conversion.  In any other
    mode it makes no call into the conversion library and changes no store
    at all outside the working directory. *)
Theorem session_touches_only_working_data `{Library}
    (bc : BenchmarkConfigurationRepresentation)
    (dd : DataDirectoriesConfigurationRepresentation)
    (self self' : Benchmark) (w w' : World) (o : outcome unit) :
  bench_conf self = Some bc -> data_dirs self = Some dd ->
  run_benchmark (self, w) = (o, (self', w')) ->
  (forall p, under (zarr_dir_benchmark dd) p = false -> vcfs w' !! p = vcfs w !! p)
  /\ (forall p, under (zarr_dir_benchmark dd) p = false ->
        p <> zarr_dir_benchmark dd -> p <> destination bc dd ->
        zarrs w' !! p = zarrs w !! p)
  /\ (benchmark_data_input bc <> "vcf" ->
      lib_calls (trace w') = lib_calls (trace w)
      /\ forall p, under (zarr_dir_benchmark dd) p = false ->
           p <> zarr_dir_benchmark dd -> zarrs w' !! p = zarrs w !! p).
Proof.
  intros Hbc Hdd Hrun.
  assert (Hg : guarded bc dd w (self', w')).
  { pattern o, (self', w'). eapply wp_elim; [exact Hrun|].
    unfold run_benchmark. apply wp_bind, wp_gets. cbn [fst]. rewrite Hbc, Hdd.
    apply run_loop_guarded. split; [done|]. split; [done|]. apply touches_only_refl. }
  destruct Hg as (_ & _ & [Hdata Hcalls]). cbn [snd] in *.
  split; [intros p Hu; by apply Hdata|]. split.
  - intros p Hu Hne Hdest. by apply Hdata.
  - intros Hmode. rewrite bool_decide_eq_false_2 in Hdata, Hcalls by exact Hmode.
    split; [by apply Hcalls|]. intros p Hu Hne. by apply Hdata.
Qed.

Lemma session_touches_only_working_data_witness :
  let run := @run_benchmark demo_library (demo_benchmark 2 "vcf" 2, demo_world) in
  vcfs run.2.2 !! "data/sample.vcf" = Some demo_variants.
Proof.
  intros run.
  destruct (@session_touches_only_working_data demo_library (demo_bench_conf 2 "vcf" 2)
              demo_dirs (demo_benchmark 2 "vcf" 2) run.2.1 demo_world run.2.2 run.1
              eq_refl eq_refl) as (Hfiles & _).
  { rewrite <- (surjective_pairing run.2). apply surjective_pairing. }
  rewrite Hfiles by (vm_compute; reflexivity). vm_compute. reflexivity.
Defined.
